(** * audio_pro: the job lifecycle of the audio processing service

    A shallow embedding of the server's job handling: the upload controller
    ([controllers/uploadController.js]), the queue wrapper ([jobs/queue.js]),
    the audio worker ([processAudioJob] and the FFmpeg-backed operations), the
    cleanup service ([CleanupService.cleanupOldJobs]) and the job deletion
    route ([router.delete('/job/:jobId')]).

    The database, the upload directory, the Bull queue and the HTTP responses
    are the components of an explicit [World]; the handlers are computations
    in a state-and-exception monad over it.  The audio libraries
    (music-metadata, FFmpeg-WASM), Node's [path] module and the number
    conversions of the JavaScript runtime are parameters of the model. *)

From Stdlib Require QArith_base.
From stdpp Require Import gmap strings list fin_maps pretty.

Set Warnings "-register-all".
Open Scope string_scope.
Open Scope Z_scope.

(* ===================================================================== *)
(** * JavaScript values *)
(* ===================================================================== *)

(** A JavaScript number, as far as the handlers look at it: [NaN] or a
    value.  Only its truthiness and its printed form are used. *)
Inductive JsNumber :=
| NaN
| Num (q : QArith_base.Q).

Inductive Json :=
| JNull
| JBool (b : bool)
| JNumber (n : JsNumber)
| JString (s : string)
| JArray (items : list Json)
| JObject (fields : list (string * Json)).

(** [!x] is [negb (truthy x)]. *)
Definition number_truthy (n : JsNumber) : bool :=
  match n with
  | NaN => false
  | Num q => negb (QArith_base.Qnum q =? 0)
  end.

Definition string_truthy (s : string) : bool :=
  match s with
  | EmptyString => false
  | String _ _ => true
  end.

Definition truthy (v : Json) : bool :=
  match v with
  | JNull => false
  | JBool b => b
  | JNumber n => number_truthy n
  | JString s => string_truthy s
  | JArray _ => true
  | JObject _ => true
  end.

(** A value that may be [undefined] (an absent property, a missing form
    field) is an [option]; [undefined] is falsy. *)
Definition opt_truthy {A} (t : A → bool) (o : option A) : bool :=
  match o with
  | Some a => t a
  | None => false
  end.

(** [x || null] *)
Definition or_null (o : option Json) : Json :=
  match o with
  | Some v => if truthy v then v else JNull
  | None => JNull
  end.

(** [a || b] on strings that may be undefined *)
Definition or_else (o : option string) (d : string) : string :=
  match o with
  | Some s => if string_truthy s then s else d
  | None => d
  end.

(** Objects are association lists; the first binding of a key is the one
    read, so [{...o, k: v}] is [obj_set k v o]. *)
Fixpoint obj_get (k : string) (fields : list (string * Json)) : option Json :=
  match fields with
  | [] => None
  | (k', v) :: rest => if String.eqb k' k then Some v else obj_get k rest
  end.

Definition obj_set (k : string) (v : Json) (fields : list (string * Json))
  : list (string * Json) := (k, v) :: fields.

Definition get (k : string) (v : Json) : option Json :=
  match v with
  | JObject fields => obj_get k fields
  | _ => None
  end.

(** What [JSON.parse (JSON.stringify v)] gives back: [NaN] is written as
    [null]. *)
Fixpoint json_roundtrip (v : Json) : Json :=
  match v with
  | JNumber NaN => JNull
  | JArray items => JArray (json_roundtrip <$> items)
  | JObject fields =>
      JObject ((λ kv : string * Json, let (k, x) := kv in (k, json_roundtrip x)) <$> fields)
  | _ => v
  end.

(** The text of a database column.  The only writer of [jobs.result]
    stores [JSON.stringify result]; any other text is [Raw]. *)
Inductive Text :=
| JSON_stringify (v : Json)
| Raw (s : string).

Definition text_truthy (t : Text) : bool :=
  match t with
  | JSON_stringify _ => true
  | Raw s => string_truthy s
  end.

(** [String.prototype.includes] and [split(sep).pop()] for a one-character
    separator. *)
Fixpoint includes (sep : Ascii.ascii) (s : string) : bool :=
  match s with
  | EmptyString => false
  | String c rest => if Ascii.eqb c sep then true else includes sep rest
  end.

Fixpoint split_pop (sep : Ascii.ascii) (s : string) : string :=
  match s with
  | EmptyString => EmptyString
  | String c rest => if includes sep s then split_pop sep rest else s
  end.

(** [String.prototype.toUpperCase] on ASCII letters. *)
Definition upper_ascii (c : Ascii.ascii) : Ascii.ascii :=
  let n := Ascii.nat_of_ascii c in
  if ((97 <=? n) && (n <=? 122))%nat then Ascii.ascii_of_nat (n - 32) else c.

Fixpoint toUpperCase (s : string) : string :=
  match s with
  | EmptyString => EmptyString
  | String c rest => String (upper_ascii c) (toUpperCase rest)
  end.

(* ===================================================================== *)
(** * The data model (prisma schema, migration [20251116134945_init]) *)
(* ===================================================================== *)

Inductive JobStatus := PENDING | PROCESSING | COMPLETED | FAILED.

#[global] Instance JobStatus_eq_dec : EqDecision JobStatus.
Proof. solve_decision. Defined.

Definition status_name (s : JobStatus) : string :=
  match s with
  | PENDING => "PENDING"
  | PROCESSING => "PROCESSING"
  | COMPLETED => "COMPLETED"
  | FAILED => "FAILED"
  end.

(** Rows are stored under their primary key [id]; the records hold the
    other columns.  [createdAt] and [updatedAt] are maintained by the ORM
    and decide nothing below. *)
Module AudioFile.
Record t := mk {
  filename : string;
  originalName : string;
  path : string;
  mimeType : string;
  size : Z;
}.
End AudioFile.

Module Job.
Record t := mk {
  audioFileId : string;
  type : string;
  status : JobStatus;
  progress : Z;
  result : option Text;
  error : option string;
  completedAt : option Z;
}.

(** The [data] of [prisma.job.update]: the columns it names. *)
Record UpdateInput := data {
  set_status : option JobStatus;
  set_progress : option Z;
  set_result : option Text;
  set_error : option string;
  set_completedAt : option Z;
}.

Definition apply (d : UpdateInput) (j : t) : t :=
  {| audioFileId := audioFileId j;
     type := type j;
     status := default (status j) (set_status d);
     progress := default (progress j) (set_progress d);
     result := match set_result d with Some r => Some r | None => result j end;
     error := match set_error d with Some e => Some e | None => error j end;
     completedAt :=
       match set_completedAt d with Some c => Some c | None => completedAt j end |}.
End Job.

Record Db := mkDb {
  audioFiles : gmap string AudioFile.t;
  jobs : gmap string Job.t;
}.

(** The payload the queue carries: [{ jobId, audioFileId, jobType,
    ...jobParams }]. *)
Record JobData := mkJobData {
  jobId : string;
  jobAudioFileId : string;
  jobType : string;
  outputFormat : option string;
  startTime : option JsNumber;
  endTime : option JsNumber;
}.

(** A queued Bull job: its data, [opts.attempts] and the exponential
    backoff delay. *)
Record Task := mkTask {
  task_data : JobData;
  task_attempts : nat;
  task_backoff_delay : Z;
}.

(** What an observer of the system sees, in order. *)
Inductive Event :=
| JobWrite (id : string) (row : Job.t)      (* a row of [jobs] as just written *)
| Responded (code : Z) (body : Json)        (* [res.status(code).json(body)] *)
| Enter (fn : string)                       (* an FFmpeg-backed operation starts *)
| FfmpegRun (args : list string).           (* [ffmpegInstance.run(...args)] *)

Record World := mkWorld {
  db : Db;
  disk : gmap string Z;          (* files on disk, with their size *)
  queue : list Task;             (* the waiting Bull jobs of [audio-processing] *)
  redisUp : bool;                (* whether the queue's connection works *)
  clock : Z;                     (* [Date.now()], in milliseconds *)
  idgen : nat → string;          (* the ORM's default id generator *)
  nextId : nat;
  trace : list Event;
}.

(* ===================================================================== *)
(** * Exceptions and the handler monad *)
(* ===================================================================== *)

Record Error := mkError {
  message : string;
  code : option string;
}.

Definition new_Error (msg : string) : Error := mkError msg None.

Inductive Result (A : Type) :=
| Ok (a : A)
| Throw (e : Error).
Arguments Ok {A} a.
Arguments Throw {A} e.

Definition M (A : Type) : Type := World → Result A * World.

#[global] Instance M_ret : MRet M := λ A a w, (Ok a, w).
#[global] Instance M_bind : MBind M := λ A B f m w,
  match m w with
  | (Ok a, w') => f a w'
  | (Throw e, w') => (Throw e, w')
  end.

Definition throw {A} (e : Error) : M A := λ w, (Throw e, w).

(** [try { body } catch (error) { handler }] *)
Definition try_catch {A} (body : M A) (handler : Error → M A) : M A := λ w,
  match body w with
  | (Ok a, w') => (Ok a, w')
  | (Throw e, w') => handler e w'
  end.

Definition gets {A} (f : World → A) : M A := λ w, (Ok (f w), w).
Definition modify (f : World → World) : M unit := λ w, (Ok tt, f w).

Definition with_db (f : Db → Db) (w : World) : World :=
  mkWorld (f (db w)) (disk w) (queue w) (redisUp w) (clock w) (idgen w) (nextId w) (trace w).
Definition with_disk (f : gmap string Z → gmap string Z) (w : World) : World :=
  mkWorld (db w) (f (disk w)) (queue w) (redisUp w) (clock w) (idgen w) (nextId w) (trace w).
Definition with_queue (f : list Task → list Task) (w : World) : World :=
  mkWorld (db w) (disk w) (f (queue w)) (redisUp w) (clock w) (idgen w) (nextId w) (trace w).
Definition with_nextId (f : nat → nat) (w : World) : World :=
  mkWorld (db w) (disk w) (queue w) (redisUp w) (clock w) (idgen w) (f (nextId w)) (trace w).
Definition emit (e : Event) : M unit :=
  modify (λ w, mkWorld (db w) (disk w) (queue w) (redisUp w) (clock w) (idgen w) (nextId w)
                 (trace w ++ [e])).

Definition Date_now : M Z := gets clock.

(** ** The file system ([fs]) *)

Definition ENOENT (p : string) : Error :=
  mkError ("ENOENT: no such file or directory, " +:+ p) (Some "ENOENT").

Definition fs_existsSync (p : string) : M bool :=
  gets (λ w, bool_decide (is_Some (disk w !! p))).

Definition fs_statSync_size (p : string) : M Z := λ w,
  match disk w !! p with
  | Some n => (Ok n, w)
  | None => (Throw (ENOENT p), w)
  end.

(** [fs.readFileSync]: the contents are not modelled, their size is. *)
Definition fs_readFileSync (p : string) : M Z := fs_statSync_size p.

Definition fs_writeFileSync (p : string) (n : Z) : M unit :=
  modify (with_disk (insert p n)).

Definition fs_unlinkSync (p : string) : M unit := λ w,
  match disk w !! p with
  | Some _ => (Ok tt, with_disk (delete p) w)
  | None => (Throw (ENOENT p), w)
  end.

(** ** JSON *)

Definition JSON_parse (t : Text) : M Json :=
  match t with
  | JSON_stringify v => mret (json_roundtrip v)
  | Raw s => throw (mkError ("Unexpected token in JSON: " +:+ s) (Some "SyntaxError"))
  end.

Definition fields_of (v : Json) : list (string * Json) :=
  match v with
  | JObject fields => fields
  | _ => []
  end.

Definition js_or (a b : Json) : Json := if truthy a then a else b.

Definition JInt (n : Z) : Json := JNumber (Num (QArith_base.inject_Z n)).

(* ===================================================================== *)
(** * The ORM ([prisma.audioFile], [prisma.job]) *)
(* ===================================================================== *)

Definition P2002 : Error :=
  mkError "Unique constraint failed on the fields: (`id`)" (Some "P2002").
Definition P2003 : Error :=
  mkError "Foreign key constraint failed on the field: `audioFileId`" (Some "P2003").
Definition P2025 : Error :=
  mkError "An operation failed because it depends on one or more records that were required but not found." (Some "P2025").

(** The default of an [id] column: the next value of the generator. *)
Definition fresh_id : M string := λ w,
  (Ok (idgen w (nextId w)), with_nextId S w).

Definition set_audioFiles (f : gmap string AudioFile.t → gmap string AudioFile.t) (d : Db) : Db :=
  mkDb (f (audioFiles d)) (jobs d).
Definition set_jobs (f : gmap string Job.t → gmap string Job.t) (d : Db) : Db :=
  mkDb (audioFiles d) (f (jobs d)).

Definition prisma_audioFile_create (row : AudioFile.t) : M (string * AudioFile.t) :=
  id ← fresh_id;
  existing ← gets (λ w, audioFiles (db w) !! id);
  match existing with
  | Some _ => throw P2002
  | None =>
      modify (with_db (set_audioFiles (insert id row)));;
      mret (id, row)
  end.

Definition prisma_audioFile_findUnique (id : string) : M (option AudioFile.t) :=
  gets (λ w, audioFiles (db w) !! id).

(** [ON DELETE CASCADE]: the jobs of a deleted audio file go with it. *)
Definition prisma_audioFile_delete (id : string) : M unit :=
  existing ← gets (λ w, audioFiles (db w) !! id);
  match existing with
  | None => throw P2025
  | Some _ =>
      modify (with_db (λ d,
        mkDb (delete id (audioFiles d))
             (filter (λ kv : string * Job.t, Job.audioFileId kv.2 ≠ id) (jobs d))))
  end.

(** [prisma.job.create({ data: { audioFileId, type, status } })]; the other
    columns take the defaults of the schema. *)
Definition prisma_job_create (audioFileId type : string) (status : JobStatus)
  : M (string * Job.t) :=
  id ← fresh_id;
  existing ← gets (λ w, jobs (db w) !! id);
  parent ← gets (λ w, audioFiles (db w) !! audioFileId);
  match existing, parent with
  | Some _, _ => throw P2002
  | None, None => throw P2003
  | None, Some _ =>
      let row := Job.mk audioFileId type status 0 None None None in
      modify (with_db (set_jobs (insert id row)));;
      emit (JobWrite id row);;
      mret (id, row)
  end.

Definition prisma_job_update (id : string) (d : Job.UpdateInput) : M Job.t :=
  existing ← gets (λ w, jobs (db w) !! id);
  match existing with
  | None => throw P2025
  | Some j =>
      let row := Job.apply d j in
      modify (with_db (set_jobs (insert id row)));;
      emit (JobWrite id row);;
      mret row
  end.

Definition prisma_job_delete (id : string) : M unit :=
  existing ← gets (λ w, jobs (db w) !! id);
  match existing with
  | None => throw P2025
  | Some _ => modify (with_db (set_jobs (delete id)))
  end.

Definition prisma_job_findMany (where_ : string → Job.t → bool)
  : M (list (string * Job.t)) :=
  gets (λ w, map_to_list (filter (λ kv : string * Job.t, where_ kv.1 kv.2 = true)
                                 (jobs (db w)))).

(** [prisma.job.findUnique({ where: { id }, include: { audioFile: true } })] *)
Definition prisma_job_findUnique (id : string)
  : M (option (Job.t * option AudioFile.t)) :=
  gets (λ w, match jobs (db w) !! id with
             | Some j => Some (j, audioFiles (db w) !! Job.audioFileId j)
             | None => None
             end).

(* ===================================================================== *)
(** * The queue ([config/redis.js], [jobs/queue.js]) *)
(* ===================================================================== *)

Definition ECONNREFUSED : Error :=
  mkError "connect ECONNREFUSED" (Some "ECONNREFUSED").

(** [audioQueue.add(data, { attempts, backoff: { type: 'exponential', delay } })] *)
Definition audioQueue_add (data : JobData) (attempts : nat) (delay : Z) : M unit := λ w,
  if redisUp w
  then (Ok tt, with_queue (λ q, (q ++ [mkTask data attempts delay])%list) w)
  else (Throw ECONNREFUSED, w).

Record JobParams := mkJobParams {
  param_outputFormat : option string;
  param_startTime : option JsNumber;
  param_endTime : option JsNumber;
}.

Definition no_params : JobParams := mkJobParams None None None.

Definition addAudioJob (audioFileId : string) (jobType : string) (jobParams : JobParams)
  : M (string * Job.t) :=
  try_catch
    (job ← prisma_job_create audioFileId jobType PENDING;
     audioQueue_add
       (mkJobData job.1 audioFileId jobType
          (param_outputFormat jobParams)
          (param_startTime jobParams)
          (param_endTime jobParams))
       3 2000;;
     mret job)
    (λ error, throw error).

(* ===================================================================== *)
(** * The host: Node's [path], the runtime's number conversions and
      arithmetic, the process environment *)
(* ===================================================================== *)

Record Host := mkHost {
  path_sep : Ascii.ascii;
  path_join : string → string → string;
  path_dirname : string → string;
  path_basename : string → string;
  path_basename_ext : string → string → string;   (* [path.basename(p, ext)] *)
  path_extname : string → string;
  parseFloat : string → JsNumber;
  Number_toString : JsNumber → string;
  Number_minus : JsNumber → JsNumber → JsNumber;  (* [a - b], in floating point *)
  UPLOAD_DIR : option string;                     (* [process.env.UPLOAD_DIR] *)
  routes_dirname : string;                        (* [__dirname] of the routes *)
}.

(** The audio libraries.  [run] is what [ffmpegInstance.run(...args)] does
    and [FS_readFile] what reading a file of FFmpeg's virtual file system
    gives (its size); writing to and unlinking from the virtual file system
    leave no trace outside it. *)
Record FFmpeg := mkFFmpeg {
  run : list string → Result unit;
  FS_readFile : string → Result Z;
}.

Record MmMetadata := mkMmMetadata {
  common : Json;
  format : Json;
}.

Record WorkerEnv := mkWorkerEnv {
  ffmpegAvailable : bool;
  ffmpegInstance : option FFmpeg;
  mm_parseFile : string → Result MmMetadata;
}.

Definition lift {A} (r : Result A) : M A := λ w, (r, w).

(** ** Requests *)

Record UploadedFile := mkUploadedFile {
  file_filename : string;
  file_originalname : string;
  file_path : string;
  file_mimetype : string;
  file_size : Z;
}.

Record Body := mkBody {
  body_jobType : option string;
  body_outputFormat : option string;
  body_startTime : option string;
  body_endTime : option string;
}.

Record Request := mkRequest {
  req_file : option UploadedFile;
  req_body : Body;
}.

(** What the [upload] middleware (multer) hands to the rest of the route. *)
Inductive Multer :=
| MulterError (code : string) (msg : string)
| UploadError (msg : string)
| Parsed (req : Request).

Definition supportedFormats : Json :=
  JArray (JString <$> ["MP3"; "WAV"; "FLAC"; "OGG"; "M4A"; "AAC"; "WebM"; "Opus"; "WMA"]).

Section Server.
Context (host : Host).

(* =================================================================== *)
(** * [controllers/uploadController.js] *)
(* =================================================================== *)

Definition jobParams_of (jobType : string) (b : Body) : JobParams :=
  if String.eqb jobType "convert" && opt_truthy string_truthy (body_outputFormat b)
  then mkJobParams (body_outputFormat b) None None
  else if String.eqb jobType "slice"
            && opt_truthy string_truthy (body_startTime b)
            && opt_truthy string_truthy (body_endTime b)
  then mkJobParams None
         (parseFloat host <$> body_startTime b)
         (parseFloat host <$> body_endTime b)
  else no_params.

(** The body of the 201 response of [uploadAudio]. *)
Definition upload_response (audioFile : string * AudioFile.t) (job : string * Job.t) : Json :=
  JObject [
    ("message", JString "File uploaded successfully");
    ("audioFile", JObject [
       ("id", JString audioFile.1);
       ("filename", JString (AudioFile.filename audioFile.2));
       ("originalName", JString (AudioFile.originalName audioFile.2));
       ("size", JInt (AudioFile.size audioFile.2))]);
    ("job", JObject [
       ("id", JString job.1);
       ("type", JString (Job.type job.2));
       ("status", JString (status_name (Job.status job.2)))])].

Definition uploadAudio (req : Request) : M unit :=
  try_catch
    (match req_file req with
     | None =>
         emit (Responded 400 (JObject [
           ("error", JString "No file uploaded");
           ("message", JString "Please select an audio file to upload.");
           ("supportedFormats", supportedFormats)]))
     | Some file =>
         let jobType := default "metadata" (body_jobType (req_body req)) in
         audioFile ← prisma_audioFile_create
           (AudioFile.mk (file_filename file) (file_originalname file)
              (file_path file) (file_mimetype file) (file_size file));
         let jobParams := jobParams_of jobType (req_body req) in
         job ← addAudioJob audioFile.1 jobType jobParams;
         emit (Responded 201 (upload_response audioFile job))
     end)
    (λ error,
       emit (Responded 500 (JObject [
         ("error", JString (or_else (Some (message error)) "Failed to upload file"))]))).

(** [router.post('/', upload, (err, req, res, next) => ..., uploadAudio)] *)
Definition router_post_upload (m : Multer) : M unit :=
  match m with
  | MulterError code msg =>
      if String.eqb code "LIMIT_FILE_SIZE"
      then emit (Responded 400 (JObject [
             ("error", JString "File too large");
             ("message", JString "Maximum file size is 100MB. Please upload a smaller file.");
             ("code", JString "FILE_TOO_LARGE");
             ("maxSize", JString "100MB")]))
      else emit (Responded 400 (JObject [
             ("error", JString "Upload error");
             ("message", JString msg);
             ("code", JString code)]))
  | UploadError msg =>
      emit (Responded 400 (JObject [
        ("error", JString "File upload failed");
        ("message", JString (or_else (Some msg)
           "Invalid file. Please ensure you are uploading a valid audio file."));
        ("supportedFormats", supportedFormats)]))
  | Parsed req => uploadAudio req
  end.

(* =================================================================== *)
(** * The audio worker *)
(* =================================================================== *)

Section Worker.
Context (env : WorkerEnv).

Definition extractMetadata (filePath : string) : M Json :=
  try_catch
    (metadata ← lift (mm_parseFile env filePath);
     size ← fs_statSync_size filePath;
     mret (JObject [
       ("title", or_null (get "title" (common metadata)));
       ("artist", or_null (get "artist" (common metadata)));
       ("album", or_null (get "album" (common metadata)));
       ("year", or_null (get "year" (common metadata)));
       ("genre", or_null (get "genre" (common metadata)));
       ("duration", or_null (get "duration" (format metadata)));
       ("bitrate", or_null (get "bitrate" (format metadata)));
       ("codec", or_null (get "codec" (format metadata)));
       ("container", or_null (get "container" (format metadata)));
       ("sampleRate", or_null (get "sampleRate" (format metadata)));
       ("numberOfChannels", or_null (get "numberOfChannels" (format metadata)));
       ("size", JInt size)]))
    (λ error, throw error).

Definition slice1 (s : string) : string :=
  match s with
  | EmptyString => EmptyString
  | String _ rest => rest
  end.

Definition getAudioInfo (filePath : string) : M Json :=
  try_catch
    (metadata ← lift (mm_parseFile env filePath);
     mret (JObject [
       ("duration", or_null (get "duration" (format metadata)));
       ("bitrate", or_null (get "bitrate" (format metadata)));
       ("codec", or_null (get "codec" (format metadata)));
       ("sampleRate", or_null (get "sampleRate" (format metadata)));
       ("channels", or_null (get "numberOfChannels" (format metadata)));
       ("format", js_or (default JNull (get "container" (format metadata)))
                        (JString (slice1 (path_extname host filePath))))]))
    (λ error, throw (new_Error ("Failed to get audio info: " +:+ message error))).

Definition ffmpeg_unavailable : Error :=
  new_Error "FFmpeg is not available. Please ensure FFmpeg is initialized.".

(** The part the three FFmpeg-backed operations share: read the input,
    run FFmpeg in its virtual file system, write the output to disk and
    return its size. *)
Definition ffmpeg_transcode (ff : FFmpeg) (inputPath outputFileName outputPath : string)
    (args : list string) : M Z :=
  fileData ← fs_readFileSync inputPath;
  emit (FfmpegRun args);;
  lift (run ff args);;
  outputData ← lift (FS_readFile ff outputFileName);
  fs_writeFileSync outputPath outputData;;
  fs_statSync_size outputPath.

Definition convertAudio (inputPath outputFormat : string) (jobId : string) : M Json :=
  emit (Enter "convertAudio");;
  match ffmpegAvailable env, ffmpegInstance env with
  | true, Some ff =>
      try_catch
        (let outputDir := path_dirname host inputPath in
         let inputName := path_basename_ext host inputPath (path_extname host inputPath) in
         let outputFileName := inputName +:+ "_converted." +:+ outputFormat in
         let outputPath := path_join host outputDir outputFileName in
         let inputFileName := path_basename host inputPath in
         size ← ffmpeg_transcode ff inputPath outputFileName outputPath
                  ["-i"; inputFileName;
                   "-codec:a"; "libmp3lame";
                   "-b:a"; "192k";
                   "-y";
                   outputFileName];
         mret (JObject [
           ("outputPath", JString outputPath);
           ("outputFormat", JString outputFormat);
           ("size", JInt size);
           ("message", JString ("Audio converted to " +:+ toUpperCase outputFormat))]))
        (λ error, throw (new_Error ("Failed to convert audio: " +:+ message error)))
  | _, _ => throw ffmpeg_unavailable
  end.

Definition sliceAudio (inputPath : string) (startTime endTime : JsNumber) (jobId : string)
  : M Json :=
  emit (Enter "sliceAudio");;
  match ffmpegAvailable env, ffmpegInstance env with
  | true, Some ff =>
      try_catch
        (let outputDir := path_dirname host inputPath in
         let inputName := path_basename_ext host inputPath (path_extname host inputPath) in
         let ext := path_extname host inputPath in
         let outputFileName :=
           inputName +:+ "_clip_" +:+ Number_toString host startTime +:+ "-"
             +:+ Number_toString host endTime +:+ ext in
         let outputPath := path_join host outputDir outputFileName in
         let duration := Number_minus host endTime startTime in
         let inputFileName := path_basename host inputPath in
         size ← ffmpeg_transcode ff inputPath outputFileName outputPath
                  ["-i"; inputFileName;
                   "-ss"; Number_toString host startTime;
                   "-t"; Number_toString host duration;
                   "-y";
                   outputFileName];
         mret (JObject [
           ("outputPath", JString outputPath);
           ("startTime", JNumber startTime);
           ("endTime", JNumber endTime);
           ("duration", JNumber duration);
           ("size", JInt size);
           ("message", JString ("Audio clip created from "
              +:+ Number_toString host startTime +:+ "s to "
              +:+ Number_toString host endTime +:+ "s"))]))
        (λ error, throw (new_Error ("Failed to slice audio: " +:+ message error)))
  | _, _ => throw ffmpeg_unavailable
  end.

Definition generateWaveform (inputPath : string) (jobId : string) : M Json :=
  emit (Enter "generateWaveform");;
  match ffmpegAvailable env, ffmpegInstance env with
  | true, Some ff =>
      try_catch
        (let outputDir := path_dirname host inputPath in
         let inputName := path_basename_ext host inputPath (path_extname host inputPath) in
         let outputFileName := inputName +:+ "_waveform.png" in
         let outputPath := path_join host outputDir outputFileName in
         let inputFileName := path_basename host inputPath in
         size ← ffmpeg_transcode ff inputPath outputFileName outputPath
                  ["-i"; inputFileName;
                   "-filter_complex"; "[0:a]aformat=channel_layouts=mono,compand=gain=-6,showwavespic=s=1200x240:colors=0x9333ea[fg];color=s=1200x240:c=0xffffff[bg];[bg][fg]overlay=format=auto";
                   "-frames:v"; "1";
                   "-y";
                   outputFileName];
         mret (JObject [
           ("outputPath", JString outputPath);
           ("format", JString "png");
           ("size", JInt size);
           ("message", JString "Waveform image generated")]))
        (λ error, throw (new_Error ("Failed to generate waveform: " +:+ message error)))
  | _, _ => throw ffmpeg_unavailable
  end.

Definition fileInfo (filePath : string) (audioFile : AudioFile.t) : Json :=
  JObject [("path", JString filePath);
           ("size", JInt (AudioFile.size audioFile));
           ("mimeType", JString (AudioFile.mimeType audioFile))].

(** The [switch (jobType)] of [processAudioJob]. *)
Definition dispatch (jobData : JobData) (audioFile : AudioFile.t) (filePath : string)
  : M Json :=
  if String.eqb (jobType jobData) "metadata" then
    metadata ← extractMetadata filePath;
    if ffmpegAvailable env then
      try_catch
        (ffmpegInfo ← getAudioInfo filePath;
         mret (JObject (obj_set "ffmpeg" ffmpegInfo (fields_of metadata))))
        (λ ffmpegError,
           mret (JObject (obj_set "note" (JString "FFmpeg info unavailable")
                                  (fields_of metadata))))
    else
      mret (JObject (obj_set "note"
              (JString "FFmpeg not installed - basic metadata only")
              (fields_of metadata)))
  else if String.eqb (jobType jobData) "analyze" then
    analysis ← extractMetadata filePath;
    if ffmpegAvailable env then
      try_catch
        (info ← getAudioInfo filePath;
         mret (JObject [("metadata", analysis);
                        ("technical", info);
                        ("fileInfo", fileInfo filePath audioFile)]))
        (λ ffmpegError,
           mret (JObject [("metadata", analysis);
                          ("technical", JNull);
                          ("fileInfo", fileInfo filePath audioFile);
                          ("error", JString ("FFmpeg analysis failed: "
                                             +:+ message ffmpegError))]))
    else
      mret (JObject [("metadata", analysis);
                     ("technical", JNull);
                     ("fileInfo", fileInfo filePath audioFile);
                     ("note", JString "FFmpeg not installed - metadata only analysis")])
  else if String.eqb (jobType jobData) "convert" then
    match outputFormat jobData with
    | Some fmt =>
        if string_truthy fmt then
          conversionResult ← convertAudio filePath fmt (jobId jobData);
          mret (JObject (obj_set "originalFile"
                  (JString (AudioFile.originalName audioFile))
                  (fields_of conversionResult)))
        else throw (new_Error "Output format is required for conversion")
    | None => throw (new_Error "Output format is required for conversion")
    end
  else if String.eqb (jobType jobData) "slice" then
    match startTime jobData, endTime jobData with
    | Some st, Some et =>
        if negb (number_truthy st) || negb (number_truthy et)
        then throw (new_Error "Start and end times are required for slicing")
        else
          sliceResult ← sliceAudio filePath st et (jobId jobData);
          mret (JObject (obj_set "originalFile"
                  (JString (AudioFile.originalName audioFile))
                  (fields_of sliceResult)))
    | _, _ => throw (new_Error "Start and end times are required for slicing")
    end
  else if String.eqb (jobType jobData) "waveform" then
    waveformResult ← generateWaveform filePath (jobId jobData);
    mret (JObject (obj_set "originalFile"
            (JString (AudioFile.originalName audioFile))
            (fields_of waveformResult)))
  else
    extractMetadata filePath.

Definition processAudioJob (jobData : JobData) : M Json :=
  try_catch
    (prisma_job_update (jobId jobData)
       (Job.data (Some PROCESSING) (Some 10) None None None);;
     audioFile ← prisma_audioFile_findUnique (jobAudioFileId jobData);
     match audioFile with
     | None => throw (new_Error "Audio file not found")
     | Some audioFile =>
         let filePath := AudioFile.path audioFile in
         present ← fs_existsSync filePath;
         if negb present then throw (new_Error "Audio file does not exist")
         else
           result ← dispatch jobData audioFile filePath;
           now ← Date_now;
           prisma_job_update (jobId jobData)
             (Job.data (Some COMPLETED) (Some 100) (Some (JSON_stringify result))
                None (Some now));;
           mret result
     end)
    (λ error,
       prisma_job_update (jobId jobData)
         (Job.data (Some FAILED) None None (Some (message error)) None);;
       throw error).
End Worker.

(** ** Bull's processing of one job

    [audioQueue.process(async (job) => processAudioJob(job.data))]: a job
    whose processor throws is run again until [opts.attempts] runs have
    been made; a job whose processor returns is completed and never run
    again.  [envs i] is the state of the audio libraries at run [i].  The
    runs of one job are taken together: the runs of other jobs that Bull
    may interleave write other rows. *)
Definition settle {A} (m : M A) : M (Result A) := λ w,
  let (r, w') := m w in (Ok r, w').

Fixpoint bull_process (envs : nat → WorkerEnv) (remaining made : nat) (data : JobData)
  : M (list (Result Json)) :=
  match remaining with
  | O => mret []
  | S n =>
      r ← settle (processAudioJob (envs made) data);
      match r with
      | Ok v => mret [Ok v]
      | Throw e =>
          rest ← bull_process envs n (S made) data;
          mret (Throw e :: rest)
      end
  end.

(** The worker takes the job at the head of the queue. *)
Definition worker_next (envs : nat → WorkerEnv) : M (list (Result Json)) := λ w,
  match queue w with
  | [] => (Ok [], w)
  | t :: rest =>
      bull_process envs (task_attempts t) 0 (task_data t) (with_queue (λ _, rest) w)
  end.

(* =================================================================== *)
(** * Output files of a job *)
(* =================================================================== *)

Definition TypeError (msg : string) : Error := mkError msg (Some "TypeError").

(** "Delete associated output file": the block that the cleanup service
    and the deletion route both have.  The stored result is parsed and the
    file its [outputPath] names is unlinked, looked up by its last path
    segment under [uploadDir]; an exception is caught and logged.  Returns
    the names of the files unlinked. *)
Definition unlink_output (uploadDir : string) (stored : Text) : M (list string) :=
  result ← JSON_parse stored;
  match result with
  | JNull => throw (TypeError "Cannot read properties of null (reading 'outputPath')")
  | _ =>
      match get "outputPath" result with
      | Some outputPath =>
          if truthy outputPath then
            match outputPath with
            | JString p =>
                let fileName :=
                  if includes (path_sep host) p then split_pop (path_sep host) p else p in
                let filePath := path_join host uploadDir fileName in
                present ← fs_existsSync filePath;
                if (present : bool) then (fs_unlinkSync filePath;; mret [fileName])
                else mret []
            | _ => throw (TypeError "result.outputPath.includes is not a function")
            end
          else mret []
      | None => mret []
      end
  end.

Definition delete_output_file (uploadDir : string) (job : Job.t) : M (list string) :=
  match Job.result job with
  | Some stored =>
      if text_truthy stored
      then try_catch (unlink_output uploadDir stored) (λ e, mret [])
      else mret []
  | None => mret []
  end.

(** "Delete original uploaded file" of the deletion route. *)
Definition delete_original_file (uploadDir : string) (audioFile : option AudioFile.t)
  : M (list string) :=
  match audioFile with
  | Some af =>
      if string_truthy (AudioFile.filename af)
      then
        try_catch
          (let originalFilePath := path_join host uploadDir (AudioFile.filename af) in
           present ← fs_existsSync originalFilePath;
           if (present : bool)
           then (fs_unlinkSync originalFilePath;; mret [AudioFile.filename af])
           else mret [])
          (λ e, mret [])
      else mret []
  | None => mret []
  end.

(* =================================================================== *)
(** * [CleanupService.cleanupOldJobs] *)
(* =================================================================== *)

Record CleanupReport := mkCleanupReport {
  jobsDeleted : Z;
  filesDeleted : Z;
  report_error : option string;
}.

Definition is_old_completed (cutoffDate : Z) (j : Job.t) : bool :=
  bool_decide (Job.status j = COMPLETED)
  && match Job.completedAt j with
     | Some t => t <? cutoffDate
     | None => false
     end.

Fixpoint cleanup_loop (uploadDir : string) (oldJobs : list (string * Job.t))
    (deletedCount filesDeleted : Z) : M (Z * Z) :=
  match oldJobs with
  | [] => mret (deletedCount, filesDeleted)
  | job :: rest =>
      unlinked ← delete_output_file uploadDir job.2;
      prisma_job_delete job.1;;
      cleanup_loop uploadDir rest (deletedCount + 1) (filesDeleted + Z.of_nat (length unlinked))
  end.

Definition cleanupOldJobs (jobAgeHours : Z) : M CleanupReport :=
  try_catch
    (now ← Date_now;
     let cutoffDate := now - jobAgeHours * 60 * 60 * 1000 in
     oldJobs ← prisma_job_findMany (λ _ j, is_old_completed cutoffDate j);
     if (length oldJobs =? 0)%nat then mret (mkCleanupReport 0 0 None)
     else
       let uploadDir := or_else (UPLOAD_DIR host) "./uploads" in
       counts ← cleanup_loop uploadDir oldJobs 0 0;
       mret (mkCleanupReport counts.1 counts.2 None))
    (λ error, mret (mkCleanupReport 0 0 (Some (message error)))).

(* =================================================================== *)
(** * [router.delete('/job/:jobId')] *)
(* =================================================================== *)

Definition delete_error_body (error : Error) : Json :=
  let '(errorMessage, errorCode) :=
    if bool_decide (code error = Some "P2025")
    then ("Job not found. It may have already been deleted.", "JOB_NOT_FOUND")
    else if bool_decide (code error = Some "P2003")
    then ("Cannot delete job due to database constraints.", "CONSTRAINT_ERROR")
    else (or_else (Some (message error)) "Failed to delete job", "DELETE_ERROR") in
  JObject [("error", JString errorMessage); ("code", JString errorCode)].

Definition router_delete_job (jobId : string) : M unit :=
  try_catch
    (job ← prisma_job_findUnique jobId;
     match job with
     | None =>
         emit (Responded 404 (JObject [
           ("error", JString "Job not found");
           ("message", JString "The job you are trying to delete does not exist. It may have already been deleted.");
           ("code", JString "JOB_NOT_FOUND")]))
     | Some (job, audioFile) =>
         let uploadDir :=
           or_else (UPLOAD_DIR host) (path_join host (routes_dirname host) "../../uploads") in
         outputs ← delete_output_file uploadDir job;
         originals ← delete_original_file uploadDir audioFile;
         let filesDeleted := (outputs ++ originals)%list in
         let audioFileId := (λ _, Job.audioFileId job) <$> audioFile in
         otherJobs ← prisma_job_findMany (λ id other,
           match audioFileId with
           | Some a => String.eqb (Job.audioFileId other) a
           | None => true
           end && negb (String.eqb id jobId));
         prisma_job_delete jobId;;
         (match audioFileId with
          | Some a =>
              if string_truthy a && (length otherJobs =? 0)%nat
              then try_catch (prisma_audioFile_delete a) (λ e, mret tt)
              else mret tt
          | None => mret tt
          end);;
         emit (Responded 200 (JObject [
           ("message", JString "Job deleted successfully");
           ("jobId", JString jobId);
           ("filesDeleted", JArray (JString <$> filesDeleted))]))
     end)
    (λ error, emit (Responded 500 (delete_error_body error))).
End Server.

(* ===================================================================== *)
(** * Vocabulary of the properties *)
(* ===================================================================== *)

(** The rows written to the job [id], oldest first, and their statuses. *)
Definition rows_of (id : string) (tr : list Event) : list Job.t :=
  omap (λ e, match e with
             | JobWrite i row => if decide (i = id) then Some row else None
             | _ => None
             end) tr.

Definition status_writes (id : string) (tr : list Event) : list JobStatus :=
  Job.status <$> rows_of id tr.

(** The lifecycle PENDING → PROCESSING → {COMPLETED, FAILED}: the steps a
    sequence of statuses may take (a write that keeps the status is no
    step). *)
Definition allowed (a b : JobStatus) : bool :=
  match a, b with
  | PENDING, PROCESSING | PROCESSING, COMPLETED | PROCESSING, FAILED => true
  | _, _ => bool_decide (a = b)
  end.

Fixpoint monotonic (l : list JobStatus) : bool :=
  match l with
  | a :: (b :: _) as rest => allowed a b && monotonic rest
  | _ => true
  end.

(** The status a run leaves: COMPLETED when the processor returns, FAILED
    when it throws. *)
Definition terminal (out : Result Json) : JobStatus :=
  match out with
  | Ok _ => COMPLETED
  | Throw _ => FAILED
  end.

Definition is_Throw {A} (r : Result A) : Prop :=
  match r with
  | Throw _ => True
  | Ok _ => False
  end.

(** [result] only with COMPLETED, [error] only with FAILED. *)
Definition result_only_completed (r : Job.t) : Prop :=
  is_Some (Job.result r) → Job.status r = COMPLETED.
Definition error_only_failed (r : Job.t) : Prop :=
  is_Some (Job.error r) → Job.status r = FAILED.

(** Events of the audio libraries, as opposed to database writes and
    responses. *)
Definition lib_event (e : Event) : bool :=
  match e with
  | Enter _ | FfmpegRun _ => true
  | _ => false
  end.

(** A step that leaves the database, the queue and the configuration alone
    and adds library events only. *)
Record quiet_step (w w' : World) : Prop := mk_quiet_step {
  qs_db : db w' = db w;
  qs_queue : queue w' = queue w;
  qs_redisUp : redisUp w' = redisUp w;
  qs_clock : clock w' = clock w;
  qs_idgen : idgen w' = idgen w;
  qs_nextId : nextId w' = nextId w;
  qs_trace : ∃ evs, trace w' = (trace w ++ evs)%list ∧ forallb lib_event evs = true;
}.

Definition quiet {A} (m : M A) : Prop := ∀ w, quiet_step w (m w).2.

(** A step that touches nothing but the disk, and there only unlinks. *)
Record unlink_step (w w' : World) : Prop := mk_unlink_step {
  us_db : db w' = db w;
  us_queue : queue w' = queue w;
  us_redisUp : redisUp w' = redisUp w;
  us_clock : clock w' = clock w;
  us_idgen : idgen w' = idgen w;
  us_nextId : nextId w' = nextId w;
  us_trace : trace w' = trace w;
  us_disk : ∀ p, disk w' !! p = None ∨ disk w' !! p = disk w !! p;
}.

Definition unlinks {A} (m : M A) : Prop := ∀ w, unlink_step w (m w).2.

(** The three updates of [processAudioJob], as functions on a row. *)
Definition processing (j : Job.t) : Job.t :=
  Job.apply (Job.data (Some PROCESSING) (Some 10) None None None) j.

Definition finished (now : Z) (p : Job.t) (r : Result Json) : Job.t :=
  match r with
  | Ok v => Job.apply (Job.data (Some COMPLETED) (Some 100) (Some (JSON_stringify v))
                         None (Some now)) p
  | Throw e => Job.apply (Job.data (Some FAILED) None None (Some (message e)) None) p
  end.

(** The world after a successful write of [row] under [id]. *)
Definition write_job (id : string) (row : Job.t) (w : World) : World :=
  mkWorld (set_jobs (insert id row) (db w)) (disk w) (queue w) (redisUp w) (clock w)
    (idgen w) (nextId w) (trace w ++ [JobWrite id row]).

(** What [processAudioJob] does between its first and its last update. *)
Definition attempt_body (host : Host) (env : WorkerEnv) (d : JobData) : M Json :=
  audioFile ← prisma_audioFile_findUnique (jobAudioFileId d);
  match audioFile with
  | None => throw (new_Error "Audio file not found")
  | Some audioFile =>
      present ← fs_existsSync (AudioFile.path audioFile);
      if negb present then throw (new_Error "Audio file does not exist")
      else dispatch host env d audioFile (AudioFile.path audioFile)
  end.

(** The outcomes of the runs Bull makes of one job with [remaining] runs
    left: failures, ended by a success or by the last run allowed. *)
Fixpoint retried (remaining : nat) (outs : list (Result Json)) : Prop :=
  match remaining, outs with
  | O, [] => True
  | S _, [Ok _] => True
  | S n, Throw _ :: rest => retried n rest
  | _, _ => False
  end.

(** The rows the runs with outcomes [outs] write, starting from row [j],
    and the row they leave in the table. *)
Fixpoint rows_written (now : Z) (j : Job.t) (outs : list (Result Json)) : list Job.t :=
  match outs with
  | [] => []
  | out :: rest =>
      processing j :: finished now (processing j) out
        :: rows_written now (finished now (processing j) out) rest
  end.

Fixpoint final_row (now : Z) (j : Job.t) (outs : list (Result Json)) : Job.t :=
  match outs with
  | [] => j
  | out :: rest => final_row now (finished now (processing j) out) rest
  end.

(** The file a stored [outputPath] is looked up as, and the upload
    directory of the deletion route. *)
Definition output_file (host : Host) (uploadDir p : string) : string :=
  path_join host uploadDir
    (if includes (path_sep host) p then split_pop (path_sep host) p else p).

Definition route_uploadDir (host : Host) : string :=
  or_else (UPLOAD_DIR host) (path_join host (routes_dirname host) "../../uploads").

(** A form field that is absent or empty. *)
Definition missing (field : option string) : Prop :=
  field = None ∨ field = Some "".

(** The error of the guard of the slice case. *)
Definition slice_times_required : Error :=
  new_Error "Start and end times are required for slicing".

(** A world in which a run of the job [d] reaches the [switch]: the job
    row, the audio file row and the file on disk are there. *)
Definition reaches_guard (d : JobData) (af : AudioFile.t) (w : World) : Prop :=
  is_Some (jobs (db w) !! jobId d)
  ∧ audioFiles (db w) !! jobAudioFileId d = Some af
  ∧ is_Some (disk w !! AudioFile.path af).

(** The ORM can store an upload and the queue can take its job: the two
    ids the generator gives next are free and the queue is connected. *)
Definition upload_ready (w : World) : Prop :=
  audioFiles (db w) !! idgen w (nextId w) = None
  ∧ jobs (db w) !! idgen w (S (nextId w)) = None
  ∧ redisUp w = true.

Definition audioFile_row (file : UploadedFile) : AudioFile.t :=
  AudioFile.mk (file_filename file) (file_originalname file) (file_path file)
    (file_mimetype file) (file_size file).

(** The world after an accepted upload. *)
Definition uploaded_world (host : Host) (req : Request) (file : UploadedFile) (w : World)
  : World :=
  let fileId := idgen w (nextId w) in
  let jobId := idgen w (S (nextId w)) in
  let jobType := default "metadata" (body_jobType (req_body req)) in
  let params := jobParams_of host jobType (req_body req) in
  let row := Job.mk fileId jobType PENDING 0 None None None in
  mkWorld
    (mkDb (<[fileId := audioFile_row file]> (audioFiles (db w)))
          (<[jobId := row]> (jobs (db w))))
    (disk w)
    (queue w ++ [mkTask (mkJobData jobId fileId jobType (param_outputFormat params)
                           (param_startTime params) (param_endTime params)) 3 2000])
    (redisUp w) (clock w) (idgen w) (S (S (nextId w)))
    ((trace w ++ [JobWrite jobId row])
       ++ [Responded 201 (upload_response (fileId, audioFile_row file) (jobId, row))]).

(** The [otherJobs] of the deletion route. *)
Definition other_jobs (w : World) (id : string) (fileId : string) : list (string * Job.t) :=
  map_to_list
    (filter (λ kv : string * Job.t,
               String.eqb (Job.audioFileId kv.2) fileId && negb (String.eqb kv.1 id) = true)
            (jobs (db w))).

(** Another job row references the audio file of the job [id]. *)
Definition has_sibling (w : World) (id : string) (fileId : string) : Prop :=
  ∃ k other, jobs (db w) !! k = Some other ∧ k ≠ id ∧ Job.audioFileId other = fileId.

(* ===================================================================== *)
(** * A host and worlds for the examples *)
(* ===================================================================== *)

Module Demo.
Definition slash : Ascii.ascii := Ascii.Ascii true true true true false true false false.
Definition dot : Ascii.ascii := Ascii.Ascii false true true true false true false false.

Fixpoint drop_last (sep : Ascii.ascii) (s : string) : string :=
  match s with
  | EmptyString => EmptyString
  | String c rest =>
      if includes sep rest then String c (drop_last sep rest) else EmptyString
  end.

Definition dirname (p : string) : string :=
  if includes slash p then drop_last slash p else ".".

Definition basename (p : string) : string := split_pop slash p.

(** A dot that starts the base name starts no extension, and [..] has
    none. *)
Definition extname (p : string) : string :=
  match basename p with
  | EmptyString => ""
  | String c rest =>
      if String.eqb (basename p) ".." then ""
      else if includes dot rest then "." +:+ split_pop dot rest else ""
  end.

Definition basename_ext (p ext : string) : string :=
  let b := basename p in
  String.substring 0 (String.length b - String.length ext) b.

Fixpoint digits (acc : Z) (s : string) : option Z :=
  match s with
  | EmptyString => Some acc
  | String c rest =>
      let n := Ascii.nat_of_ascii c in
      if ((48 <=? n) && (n <=? 57))%nat
      then digits (acc * 10 + Z.of_nat (n - 48)) rest
      else None
  end.

(** Whole numbers only. *)
Definition parseFloat (s : string) : JsNumber :=
  match s with
  | EmptyString => NaN
  | _ => match digits 0 s with
         | Some z => Num (QArith_base.inject_Z z)
         | None => NaN
         end
  end.

Definition Number_toString (n : JsNumber) : string :=
  match n with
  | NaN => "NaN"
  | Num q => pretty (QArith_base.Qnum q / Z.pos (QArith_base.Qden q))
  end.

(** The difference of whole numbers is exact. *)
Definition Number_minus (a b : JsNumber) : JsNumber :=
  match a, b with
  | Num x, Num y => Num (QArith_base.Qminus x y)
  | _, _ => NaN
  end.

(** POSIX paths without normalisation, [UPLOAD_DIR=uploads]. *)
Definition host : Host :=
  mkHost slash (λ a b, a +:+ "/" +:+ b) dirname basename basename_ext extname
    parseFloat Number_toString Number_minus (Some "uploads") "/srv/server/src/routes".

Definition ffmpeg : FFmpeg := mkFFmpeg (λ _, Ok tt) (λ _, Ok 1000).

Definition env : WorkerEnv :=
  mkWorkerEnv true (Some ffmpeg) (λ _, Ok (mkMmMetadata (JObject []) (JObject []))).

Definition song : UploadedFile :=
  mkUploadedFile "song.wav" "my song.wav" "uploads/song.wav" "audio/wav" 5000.

(** An empty database, the upload already on disk. *)
Definition w0 : World :=
  mkWorld (mkDb ∅ ∅) {[ "uploads/song.wav" := 5000 ]} [] true 1700000000000
    (λ n, "id" +:+ pretty n) 0 [].

(** A slice request without its times, one from second 0 to second 1,
    and a conversion to FLAC. *)
Definition slice_without_times : Request :=
  mkRequest (Some song) (mkBody (Some "slice") None None None).
Definition slice_from_zero : Request :=
  mkRequest (Some song) (mkBody (Some "slice") None (Some "0") (Some "1")).
Definition convert_to_flac : Request :=
  mkRequest (Some song) (mkBody (Some "convert") (Some "flac") None None).

(** The worlds after the upload and after the worker took the job. *)
Definition uploaded (req : Request) : World := (uploadAudio host req w0).2.
Definition processed (req : Request) : World :=
  (worker_next host (λ _, env) (uploaded req)).2.

(** The world with the audio file row only, and the creation of a slice
    job without its times on it. *)
Definition with_file : World :=
  (prisma_audioFile_create
     (AudioFile.mk "song.wav" "my song.wav" "uploads/song.wav" "audio/wav" 5000) w0).2.
Definition new_row : Job.t := Job.mk "id0" "slice" PENDING 0 None None None.
Definition created : World := (addAudioJob "id0" "slice" no_params with_file).2.
Definition slice_data : JobData := mkJobData "id1" "id0" "slice" None None None.
Definition zero_data : JobData :=
  mkJobData "id1" "id0" "slice" None
    (Some (Num (QArith_base.inject_Z 0))) (Some (Num (QArith_base.inject_Z 1))).

(** Two jobs on one audio file; the first has been converted. *)
Definition converted_row : Job.t :=
  Job.mk "file1" "convert" COMPLETED 100
    (Some (JSON_stringify (JObject [("outputPath", JString "uploads/song_converted.flac")])))
    None (Some 1600000000000).
Definition sibling_row : Job.t :=
  Job.mk "file1" "metadata" PENDING 0 None None None.
Definition song_row : AudioFile.t :=
  AudioFile.mk "song.wav" "my song.wav" "uploads/song.wav" "audio/wav" 5000.
Definition shared : World :=
  mkWorld
    (mkDb {[ "file1" := song_row ]}
          (<[ "job1" := converted_row ]> {[ "job2" := sibling_row ]}))
    (<[ "uploads/song.wav" := 5000 ]> {[ "uploads/song_converted.flac" := 1000 ]})
    [] true 1700000000000 (λ n, "id" +:+ pretty n) 0 [].

(** The world after DELETE /api/upload/job/job1. *)
Definition deleted : World := (router_delete_job host "job1" shared).2.
End Demo.

(* ===================================================================== *)
(** * [middleware/fileValidation.js] *)
(* ===================================================================== *)

(** [String.prototype.toLowerCase] on ASCII letters. *)
Definition lower_ascii (c : Ascii.ascii) : Ascii.ascii :=
  let n := Ascii.nat_of_ascii c in
  if ((65 <=? n) && (n <=? 90))%nat then Ascii.ascii_of_nat (n + 32) else c.

Fixpoint toLowerCase (s : string) : string :=
  match s with
  | EmptyString => EmptyString
  | String c rest => String (lower_ascii c) (toLowerCase rest)
  end.

(** [table[key]] on an object literal whose keys and values are strings. *)
Fixpoint lookup_key (key : string) (table : list (string * string)) : option string :=
  match table with
  | [] => None
  | (k, v) :: rest => if String.eqb k key then Some v else lookup_key key rest
  end.

(** [{ valid, stats, error }]; of [stats] only the size is read. *)
Record Validation := mkValidation {
  valid : bool;
  stats_size : option Z;
  validation_error : option string;
}.

(** The disk of the model holds regular files only, so [stats.isFile()]
    holds of every path that exists. *)
Definition validateFileExists (filePath : string) : M Validation :=
  try_catch
    (present ← fs_existsSync filePath;
     if negb present then mret (mkValidation false None (Some "File does not exist"))
     else
       size ← fs_statSync_size filePath;
       mret (mkValidation true (Some size) None))
    (λ error, mret (mkValidation false None (Some (message error)))).

Definition mimeTypes : list (string * string) :=
  [(".mp3", "audio/mpeg");
   (".wav", "audio/wav");
   (".flac", "audio/flac");
   (".ogg", "audio/ogg");
   (".m4a", "audio/mp4");
   (".aac", "audio/aac");
   (".webm", "audio/webm");
   (".opus", "audio/opus");
   (".png", "image/png");
   (".jpg", "image/jpeg");
   (".jpeg", "image/jpeg");
   (".gif", "image/gif");
   (".webp", "image/webp")].

(** [path.extname] returns the empty string or a string that starts with a
    dot, so the lookup meets no inherited property of the object. *)
Definition getMimeType (host : Host) (filePath : string) : string :=
  let ext := toLowerCase (path_extname host filePath) in
  or_else (lookup_key ext mimeTypes) "application/octet-stream".

(* ===================================================================== *)
(** * [index.js]: the headers of the static files *)
(* ===================================================================== *)

(** The [setHeaders] of [express.static]: the calls of [res.set], in
    order. *)
Definition setHeaders (host : Host) (filePath : string) : list (string * string) :=
  let ext := toLowerCase (path_extname host filePath) in
  [("Access-Control-Allow-Origin", "*");
   ("Access-Control-Allow-Methods", "GET, HEAD, OPTIONS")]
  ++ (if String.eqb ext ".png" || String.eqb ext ".jpg" || String.eqb ext ".jpeg"
         || String.eqb ext ".gif" || String.eqb ext ".webp"
      then [("Content-Type", "image/" +:+ slice1 ext);
            ("Cache-Control", "public, max-age=31536000")]
      else if String.eqb ext ".mp3" then [("Content-Type", "audio/mpeg")]
      else if String.eqb ext ".wav" then [("Content-Type", "audio/wav")]
      else if String.eqb ext ".flac" then [("Content-Type", "audio/flac")]
      else if String.eqb ext ".ogg" then [("Content-Type", "audio/ogg")]
      else if String.eqb ext ".m4a" then [("Content-Type", "audio/mp4")]
      else if String.eqb ext ".aac" then [("Content-Type", "audio/aac")]
      else [])%list.

(* ===================================================================== *)
(** * [uploadController.js]: the file filter of the upload *)
(* ===================================================================== *)

Definition allowedMimes : list string :=
  ["audio/mpeg"; "audio/mp3"; "audio/wav"; "audio/wave"; "audio/x-wav"; "audio/flac";
   "audio/ogg"; "audio/vorbis"; "audio/m4a"; "audio/x-m4a"; "audio/aac"; "audio/webm";
   "audio/opus"; "audio/x-aac"; "audio/x-ms-wma"].

Definition allowedExtensions : list string :=
  [".mp3"; ".wav"; ".flac"; ".ogg"; ".m4a"; ".aac"; ".webm"; ".opus"; ".wma"].

(** [list.includes(s)] on a list of strings. *)
Definition list_includes (s : string) (l : list string) : bool :=
  existsb (String.eqb s) l.

(** [fileFilter]: [Ok true] is [cb(null, true)], [Throw e] is [cb(e)].  A
    part without a content type has no [mimetype]. *)
Definition fileFilter (host : Host) (originalname : string) (mimetype : option string)
  : Result bool :=
  let fileExt := toLowerCase (path_extname host originalname) in
  if opt_truthy (λ m, list_includes m allowedMimes) mimetype
     || list_includes fileExt allowedExtensions
  then Ok true
  else Throw (new_Error
         ("Unsupported file type: " +:+ or_else mimetype "unknown" +:+ ". "
          +:+ "Supported formats: MP3, WAV, FLAC, OGG, M4A, AAC, WebM, Opus, WMA")).

(* ===================================================================== *)
(** * [workers/audioWorker.js]: loading FFmpeg *)
(* ===================================================================== *)

(** What happens inside one call of [initFFmpeg]: the core is not found or
    [createFFmpeg] throws, before [ffmpegInstance] is assigned; [load]
    fails, after it was; or FFmpeg is loaded. *)
Inductive InitOutcome :=
| NotCreated
| LoadFailed (ff : FFmpeg)
| Loaded (ff : FFmpeg).

Definition initFFmpeg (outcome : InitOutcome) (env : WorkerEnv) : WorkerEnv :=
  match outcome with
  | NotCreated => mkWorkerEnv false (ffmpegInstance env) (mm_parseFile env)
  | LoadFailed ff => mkWorkerEnv false (Some ff) (mm_parseFile env)
  | Loaded ff => mkWorkerEnv true (Some ff) (mm_parseFile env)
  end.

(** The module's [let ffmpegInstance = null; let ffmpegAvailable = false]. *)
Definition module_env (parseFile : string → Result MmMetadata) : WorkerEnv :=
  mkWorkerEnv false None parseFile.

(** [startWorker]: [None] is [process.exit(1)], after the queue could not
    be reached; otherwise FFmpeg is initialised again if it is not
    available. *)
Definition startWorker (outcome : InitOutcome) (env : WorkerEnv) (w : World)
  : option WorkerEnv :=
  if redisUp w
  then Some (if negb (ffmpegAvailable env) then initFFmpeg outcome env else env)
  else None.

(* ===================================================================== *)
(** * [services/cleanup.js]: starting and stopping the service *)
(* ===================================================================== *)

(** The timers of the process: [setInterval] and [clearInterval]. *)
Record Timers := mkTimers {
  next_timer : nat;
  active : list (nat * Z);      (* the intervals that run, with their delay *)
}.

Definition setInterval (delay : Z) (t : Timers) : nat * Timers :=
  (next_timer t, mkTimers (S (next_timer t)) (active t ++ [(next_timer t, delay)])).

Definition clearInterval (id : nat) (t : Timers) : Timers :=
  mkTimers (next_timer t) (List.filter (λ x : nat * Z, negb (Nat.eqb x.1 id)) (active t)).

Record CleanupService := mkCleanupService {
  intervalHours : Z;
  jobAgeHours : Z;
  intervalId : option nat;
}.

(** [constructor(intervalHours = 6, jobAgeHours = 24)] *)
Definition new_CleanupService (intervalHours jobAgeHours : option Z) : CleanupService :=
  mkCleanupService (default 6 intervalHours) (default 24 jobAgeHours) None.

(** The state [start] and [stop] work on: the service, the timers and the
    world the sweep runs in. *)
Definition ServiceState : Type := CleanupService * Timers * World.

(** [start()]: the first sweep is taken at once. *)
Definition CleanupService_start (host : Host) (s : ServiceState) : ServiceState :=
  let '(this, timers, w) := s in
  match intervalId this with
  | Some _ => s
  | None =>
      let w' := (cleanupOldJobs host (jobAgeHours this) w).2 in
      let (id, timers') := setInterval (intervalHours this * 60 * 60 * 1000) timers in
      (mkCleanupService (intervalHours this) (jobAgeHours this) (Some id), timers', w')
  end.

Definition CleanupService_stop (s : ServiceState) : ServiceState :=
  let '(this, timers, w) := s in
  match intervalId this with
  | Some id =>
      (mkCleanupService (intervalHours this) (jobAgeHours this) None,
       clearInterval id timers, w)
  | None => s
  end.

(** The interval [id] fires: the callback of [start] runs a sweep. *)
Definition interval_fires (host : Host) (id : nat) (s : ServiceState) : ServiceState :=
  let '(this, timers, w) := s in
  if existsb (λ x : nat * Z, Nat.eqb x.1 id) (active timers)
  then (this, timers, (cleanupOldJobs host (jobAgeHours this) w).2)
  else s.

(* ===================================================================== *)
(** * [routes/upload.js]: the routes that read *)
(* ===================================================================== *)

(** [formatFileSize], in floating point: the index
    [Math.floor(Math.log(bytes) / Math.log(k))] and the text of
    [(bytes / Math.pow(k, i)).toFixed(2)] are the runtime's. *)
Record Numerics := mkNumerics {
  floor_log : Z → Z → nat;
  quotient_toFixed2 : Z → Z → nat → string;
}.

Definition formatFileSize (num : Numerics) (bytes : Z) : string :=
  if bytes =? 0 then "0 B"
  else
    let k := 1024 in
    let sizes := ["B"; "KB"; "MB"; "GB"] in
    let i := floor_log num bytes k in
    quotient_toFixed2 num bytes k i +:+ " " +:+ nth i sizes "undefined".

(** What a route reads of the request: [req.protocol] and
    [req.get('host')]. *)
Record GetRequest := mkGetRequest {
  req_protocol : string;
  req_host : option string;
}.

(** [req.protocol + '://' + req.get('host')] *)
Definition baseUrl_of (req : GetRequest) : string :=
  req_protocol req +:+ "://" +:+ default "undefined" (req_host req).

(** [result.k = v]: the module is not in strict mode, so the assignment
    to a value that is not an object is dropped; a property assigned to an
    array is not written by [res.json]. *)
Definition assign (k : string) (v : Json) (result : Json) : Json :=
  match result with
  | JObject fields => JObject (obj_set k v fields)
  | _ => result
  end.

Section ReadRoutes.
Context (host : Host) (num : Numerics).
(** How [res.json] writes the [createdAt] column of a job and a date, and
    the [TypeError] of the runtime for an [outputPath] that is no
    string. *)
Context (createdAt : string → Json) (toISOString : Z → string)
        (not_a_string : Json → Error).

(** "Add file URLs for visualization" *)
Definition add_file_urls (baseUrl : string) (result : Json) : M Json :=
  match result with
  | JNull => throw (TypeError "Cannot read properties of null (reading 'outputPath')")
  | _ =>
      match get "outputPath" result with
      | Some outputPath =>
          if truthy outputPath then
            match outputPath with
            | JString p =>
                let fileName :=
                  if includes (path_sep host) p then split_pop (path_sep host) p else p in
                let uploadDir := or_else (UPLOAD_DIR host) "./uploads" in
                let filePath := path_join host uploadDir fileName in
                validation ← validateFileExists filePath;
                match valid validation, stats_size validation with
                | true, Some size =>
                    mret (assign "fileSizeFormatted" (JString (formatFileSize num size))
                         (assign "fileSize" (JInt size)
                         (assign "mimeType" (JString (getMimeType host filePath))
                         (assign "downloadUrl"
                            (JString (baseUrl +:+ "/uploads/" +:+ fileName))
                         (assign "fileUrl"
                            (JString (baseUrl +:+ "/uploads/" +:+ fileName))
                            result)))))
                | _, _ => mret result
                end
            | _ => throw (not_a_string outputPath)
            end
          else mret result
      | None => mret result
      end
  end.

(** [router.get('/job/:jobId/result')] *)
Definition router_get_job_result (req : GetRequest) (jobId : string) : M unit :=
  try_catch
    (job ← prisma_job_findUnique jobId;
     match job with
     | None => emit (Responded 404 (JObject [("error", JString "Job not found")]))
     | Some (job, audioFile) =>
         match Job.result job with
         | Some stored =>
             if text_truthy stored then
               let baseUrl := baseUrl_of req in
               result ← JSON_parse stored;
               result ← add_file_urls baseUrl result;
               match audioFile with
               | None =>
                   throw (TypeError "Cannot read properties of null (reading 'filename')")
               | Some audioFile =>
                   let originalFilePath :=
                     path_join host (or_else (UPLOAD_DIR host) "./uploads")
                       (AudioFile.filename audioFile) in
                   originalValidation ← validateFileExists originalFilePath;
                   let result :=
                     if valid originalValidation
                     then assign "originalFileUrl"
                            (JString (baseUrl +:+ "/uploads/"
                                      +:+ AudioFile.filename audioFile)) result
                     else result in
                   emit (Responded 200 (JObject [
                     ("jobId", JString jobId);
                     ("jobType", JString (Job.type job));
                     ("status", JString (status_name (Job.status job)));
                     ("progress", JInt (Job.progress job));
                     ("result", result);
                     ("audioFile", JObject [
                        ("id", JString (Job.audioFileId job));
                        ("originalName", JString (AudioFile.originalName audioFile));
                        ("url", JString (baseUrl +:+ "/uploads/"
                                         +:+ AudioFile.filename audioFile));
                        ("size", JInt (AudioFile.size audioFile));
                        ("mimeType", JString (AudioFile.mimeType audioFile))]);
                     ("createdAt", createdAt jobId);
                     ("completedAt",
                      match Job.completedAt job with
                      | Some t => JString (toISOString t)
                      | None => JNull
                      end)]))
               end
             else emit (Responded 404 (JObject [
                    ("error", JString "Job result not available")]))
         | None => emit (Responded 404 (JObject [
                     ("error", JString "Job result not available")]))
         end
     end)
    (λ error, emit (Responded 500 (JObject [("error", JString (message error))]))).

(** [router.get('/file/:fileId/url')] *)
Definition router_get_file_url (req : GetRequest) (fileId : string) : M unit :=
  try_catch
    (file ← prisma_audioFile_findUnique fileId;
     match file with
     | None => emit (Responded 404 (JObject [("error", JString "File not found")]))
     | Some file =>
         let baseUrl := baseUrl_of req in
         let fileUrl := baseUrl +:+ "/uploads/" +:+ AudioFile.filename file in
         emit (Responded 200 (JObject [
           ("id", JString fileId);
           ("filename", JString (AudioFile.filename file));
           ("originalName", JString (AudioFile.originalName file));
           ("url", JString fileUrl);
           ("size", JInt (AudioFile.size file));
           ("mimeType", JString (AudioFile.mimeType file))]))
     end)
    (λ error, emit (Responded 500 (JObject [("error", JString (message error))]))).
End ReadRoutes.

(* ===================================================================== *)
(** * Vocabulary of further properties *)
(* ===================================================================== *)

(** A step that removes no file from the disk. *)
Definition keeps_files_step (w w' : World) : Prop :=
  ∀ p, is_Some (disk w !! p) → is_Some (disk w' !! p).

Definition keeps_files {A} (m : M A) : Prop := ∀ w, keeps_files_step w (m w).2.

(** The error of the guard of the convert case. *)
Definition format_required : Error :=
  new_Error "Output format is required for conversion".

(** A job whose case of the [switch] calls an FFmpeg-backed operation: a
    conversion with its format, a slice with its times, a waveform. *)
Definition needs_ffmpeg (d : JobData) : Prop :=
  (jobType d = "convert" ∧ opt_truthy string_truthy (outputFormat d) = true)
  ∨ (jobType d = "slice" ∧ opt_truthy number_truthy (startTime d) = true
     ∧ opt_truthy number_truthy (endTime d) = true)
  ∨ jobType d = "waveform".

(** [!ffmpegAvailable || !ffmpegInstance] *)
Definition ffmpeg_missing (env : WorkerEnv) : Prop :=
  ffmpegAvailable env = false ∨ ffmpegInstance env = None.

(** A job whose case of the [switch] reads metadata only: [metadata],
    [analyze], and every type the [switch] does not name. *)
Definition metadata_only (d : JobData) : Prop :=
  jobType d ≠ "convert" ∧ jobType d ≠ "slice" ∧ jobType d ≠ "waveform".

(** What an FFmpeg-backed operation leaves: on success the output file,
    with the size the result reports, and nothing else changed on disk; on
    failure the disk as it was, and an error that is either "FFmpeg is not
    available" or the cause under the prefix of the operation. *)
Definition transcode_outcome (prefix : string) (r : Result Json) (w w' : World) : Prop :=
  db w' = db w ∧ queue w' = queue w
  ∧ match r with
    | Ok v => ∃ p n, get "outputPath" v = Some (JString p)
                     ∧ get "size" v = Some (JInt n)
                     ∧ disk w' = <[p := n]> (disk w)
    | Throw e => disk w' = disk w
                 ∧ (e = ffmpeg_unavailable ∨ ∃ cause, message e = prefix +:+ cause)
    end.

(** The error of the existence check of [processAudioJob]. *)
Definition file_does_not_exist : Error := new_Error "Audio file does not exist".

(** The foreign key of [Job.audioFileId]: every job row references an audio
    file row. *)
Definition references_kept (d : Db) : Prop :=
  ∀ id j, jobs d !! id = Some j → is_Some (audioFiles d !! Job.audioFileId j).

(** No two job rows reference the same audio file row. *)
Definition one_job_per_file (d : Db) : Prop :=
  ∀ id1 j1 id2 j2,
    jobs d !! id1 = Some j1 → jobs d !! id2 = Some j2 →
    Job.audioFileId j1 = Job.audioFileId j2 → id1 = id2.

Definition consistent (d : Db) : Prop := references_kept d ∧ one_job_per_file d.


(* ===================================================================== *)
(** * Vocabulary of the properties of the service and of the worker's
      start *)
(* ===================================================================== *)

(** The states of the worker's FFmpeg variables that the module can be
    in: as declared, after a call of [initFFmpeg], after [startWorker]. *)
Inductive worker_env (parseFile : string → Result MmMetadata) : WorkerEnv → Prop :=
| env_module : worker_env parseFile (module_env parseFile)
| env_init env outcome :
    worker_env parseFile env → worker_env parseFile (initFFmpeg outcome env)
| env_start env outcome w env' :
    worker_env parseFile env → startWorker outcome env w = Some env' →
    worker_env parseFile env'.

(** The service's interval, if it has one, is the only interval there
    is. *)
Definition owns_timers (s : ServiceState) : Prop :=
  active s.1.2
  = match intervalId s.1.1 with
    | Some id => [(id, intervalHours s.1.1 * 60 * 60 * 1000)]
    | None => []
    end.

(** The [Content-Type] that [setHeaders] sets. *)
Definition content_type (headers : list (string * string)) : option string :=
  lookup_key "Content-Type" headers.

(* ===================================================================== *)
(** * Vocabulary of the properties of the routes that read *)
(* ===================================================================== *)

(** A handler that answers once, with [code] and [body], and changes
    nothing else: the database, the disk and the queue stay as they
    were. *)
Definition answers (m : M unit) (w : World) (code : Z) (body : Json) : Prop :=
  ∃ w', m w = (Ok tt, w')
        ∧ trace w' = (trace w ++ [Responded code body])%list
        ∧ db w' = db w ∧ disk w' = disk w ∧ queue w' = queue w.

(** The properties that the result route adds to a stored result. *)
Definition added_keys : list string :=
  ["fileUrl"; "downloadUrl"; "mimeType"; "fileSize"; "fileSizeFormatted";
   "originalFileUrl"].

(** What a computation returns when it returns. *)
Definition yields {A} (P : A → Prop) (m : M A) : Prop :=
  ∀ w a w', m w = (Ok a, w') → P a.

(** An object whose [outputPath], if it has one, is a string: the results
    the worker stores. *)
Definition servable (v : Json) : Prop :=
  ∃ fields, v = JObject fields
            ∧ (obj_get "outputPath" fields = None
               ∨ ∃ p, obj_get "outputPath" fields = Some (JString p)).

(** The name and the path under which the result route looks for the
    file of a stored [outputPath]. *)
Definition result_fileName (host : Host) (p : string) : string :=
  if includes (path_sep host) p then split_pop (path_sep host) p else p.

Definition result_filePath (host : Host) (p : string) : string :=
  path_join host (or_else (UPLOAD_DIR host) "./uploads") (result_fileName host p).

Definition not_available : Json := JObject [("error", JString "Job result not available")].
Definition job_not_found : Json := JObject [("error", JString "Job not found")].
Definition file_not_found : Json := JObject [("error", JString "File not found")].

(* ===================================================================== *)
(** * Further requests, jobs and worlds for the examples *)
(* ===================================================================== *)

Module Scenario.
(** A conversion request without its format, and a request without a
    file. *)
Definition convert_without_format : Request :=
  mkRequest (Some Demo.song) (mkBody (Some "convert") None None None).
Definition without_file : Request :=
  mkRequest None (mkBody (Some "metadata") None None None).

(** An upload that names no job type. *)
Definition metadata_upload : Request :=
  mkRequest (Some Demo.song) (mkBody None None None None).

(** A worker whose FFmpeg did not load. *)
Definition no_ffmpeg : WorkerEnv :=
  mkWorkerEnv false None (λ _, Ok (mkMmMetadata (JObject []) (JObject []))).

(** Jobs on the second job row of [Demo.shared]. *)
Definition waveform_data : JobData := mkJobData "job2" "file1" "waveform" None None None.
Definition metadata_data : JobData := mkJobData "job2" "file1" "metadata" None None None.
Definition convert_data : JobData :=
  mkJobData "job2" "file1" "convert" (Some "flac") None None.
Definition clip_data : JobData :=
  mkJobData "job2" "file1" "slice" None
    (Some (Num (QArith_base.inject_Z 1))) (Some (Num (QArith_base.inject_Z 2))).

(** [Demo.w0] with the queue's connection down. *)
Definition offline : World :=
  mkWorld (mkDb ∅ ∅) {[ "uploads/song.wav" := 5000 ]} [] false 1700000000000
    (λ n, "id" +:+ pretty n) 0 [].

(** The conversion of [Demo.shared]'s second job: its result and the world
    it leaves. *)
Definition converted : World :=
  (processAudioJob Demo.host Demo.env convert_data Demo.shared).2.
Definition converted_value : Json :=
  match (processAudioJob Demo.host Demo.env convert_data Demo.shared).1 with
  | Ok v => v
  | Throw _ => JNull
  end.

(** The worker's FFmpeg variables after a first initialisation that found
    no core and a [startWorker] that loaded FFmpeg. *)
Definition reloaded : WorkerEnv :=
  initFFmpeg (Loaded Demo.ffmpeg)
    (initFFmpeg NotCreated (module_env (mm_parseFile Demo.env))).

(** The service of [index.js], started on [Demo.shared]. *)
Definition started : ServiceState :=
  CleanupService_start Demo.host
    (new_CleanupService (Some 6) (Some 24), mkTimers 0 [], Demo.shared).

(** A request over http, whole-number arithmetic for [formatFileSize],
    and the texts of the runtime. *)
Definition request : GetRequest := mkGetRequest "http" (Some "localhost:3001").
Definition num : Numerics :=
  mkNumerics (λ bytes k, Z.to_nat (Z.log2 bytes / Z.log2 k))
             (λ bytes k i, pretty (bytes / k ^ Z.of_nat i) +:+ ".00").
Definition createdAt (id : string) : Json := JString "2025-11-16T13:49:45.000Z".
Definition toISOString (t : Z) : string := pretty t.
Definition not_a_string (v : Json) : Error :=
  TypeError "result.outputPath.includes is not a function".
End Scenario.

(* ===================================================================== *)
(** * Quiet computations *)
(* ===================================================================== *)

Lemma quiet_step_refl w : quiet_step w w.
Proof.
  split; try reflexivity. exists []. split; [by rewrite app_nil_r | done].
Qed.

Lemma quiet_step_trans w1 w2 w3 :
  quiet_step w1 w2 → quiet_step w2 w3 → quiet_step w1 w3.
Proof.
  intros [? ? ? ? ? ? (e1 & H1 & F1)] [? ? ? ? ? ? (e2 & H2 & F2)].
  split; try congruence.
  exists (e1 ++ e2)%list. split.
  - rewrite H2, H1. by rewrite app_assoc.
  - rewrite forallb_app, F1, F2. done.
Qed.

Lemma quiet_ret {A} (a : A) : quiet (mret a).
Proof. intros w. apply quiet_step_refl. Qed.

Lemma quiet_throw {A} e : quiet (@throw A e).
Proof. intros w. apply quiet_step_refl. Qed.

Lemma quiet_lift {A} (r : Result A) : quiet (lift r).
Proof. intros w. apply quiet_step_refl. Qed.

Lemma quiet_gets {A} (f : World → A) : quiet (gets f).
Proof. intros w. apply quiet_step_refl. Qed.

Lemma quiet_bind {A B} (m : M A) (f : A → M B) :
  quiet m → (∀ a, quiet (f a)) → quiet (m ≫= f).
Proof.
  intros Hm Hf w. unfold mbind, M_bind. specialize (Hm w).
  destruct (m w) as [[a|e] w1]; simpl in *; [|done].
  eapply quiet_step_trans; [exact Hm | apply Hf].
Qed.

Lemma quiet_try_catch {A} (m : M A) (h : Error → M A) :
  quiet m → (∀ e, quiet (h e)) → quiet (try_catch m h).
Proof.
  intros Hm Hh w. unfold try_catch. specialize (Hm w).
  destruct (m w) as [[a|e] w1]; simpl in *; [done|].
  eapply quiet_step_trans; [exact Hm | apply Hh].
Qed.

Lemma quiet_emit e : lib_event e = true → quiet (emit e).
Proof.
  intros He w. split; try reflexivity.
  exists [e]. split; [done | simpl; by rewrite He].
Qed.

Lemma quiet_fs_statSync_size p : quiet (fs_statSync_size p).
Proof.
  intros w. unfold fs_statSync_size. destruct (disk w !! p); apply quiet_step_refl.
Qed.

Lemma quiet_fs_writeFileSync p n : quiet (fs_writeFileSync p n).
Proof. intros w. split; try reflexivity. exists []. by rewrite app_nil_r. Qed.

Ltac quiet_tac :=
  repeat first
    [ apply quiet_ret | apply quiet_throw | apply quiet_lift | apply quiet_gets
    | apply quiet_fs_statSync_size | apply quiet_fs_writeFileSync
    | apply quiet_emit; reflexivity
    | apply quiet_bind; [|intros ?]
    | apply quiet_try_catch; [|intros ?]
    | match goal with
      | |- quiet (if ?b then _ else _) => destruct b
      | |- quiet (match ?x with _ => _ end) => destruct x
      end ].

Lemma quiet_dispatch host env d af p : quiet (dispatch host env d af p).
Proof.
  unfold dispatch, extractMetadata, getAudioInfo, convertAudio, sliceAudio,
    generateWaveform, ffmpeg_transcode, fs_readFileSync, fs_existsSync, Date_now.
  quiet_tac.
Qed.


(* ===================================================================== *)
(** * One run of [processAudioJob] *)
(* ===================================================================== *)

Lemma prisma_job_update_some id d w j :
  jobs (db w) !! id = Some j →
  prisma_job_update id d w = (Ok (Job.apply d j), write_job id (Job.apply d j) w).
Proof.
  intros Hj. unfold prisma_job_update, mbind, M_bind, gets. rewrite Hj. reflexivity.
Qed.

Lemma quiet_attempt_body host env d : quiet (attempt_body host env d).
Proof.
  unfold attempt_body, prisma_audioFile_findUnique, fs_existsSync.
  quiet_tac. apply quiet_dispatch.
Qed.

Lemma write_job_lookup id row w : jobs (db (write_job id row w)) !! id = Some row.
Proof. simpl. apply lookup_insert_eq. Qed.

Lemma processAudioJob_run host env d w j :
  jobs (db w) !! jobId d = Some j →
  ∃ r w2,
    attempt_body host env d (write_job (jobId d) (processing j) w) = (r, w2)
    ∧ quiet_step (write_job (jobId d) (processing j) w) w2
    ∧ processAudioJob host env d w
      = (r, write_job (jobId d) (finished (clock w) (processing j) r) w2).
Proof.
  intros Hj.
  pose proof (quiet_attempt_body host env d (write_job (jobId d) (processing j) w)) as Hq.
  destruct (attempt_body host env d (write_job (jobId d) (processing j) w))
    as [r w2] eqn:Hbody.
  exists r, w2. split; [done|]. split; [exact Hq|].
  simpl in Hq.
  assert (Hrow : jobs (db w2) !! jobId d = Some (processing j)).
  { rewrite (qs_db _ _ Hq). apply write_job_lookup. }
  assert (Hclock : clock w2 = clock w) by (rewrite (qs_clock _ _ Hq); reflexivity).
  revert Hbody.
  unfold processAudioJob, attempt_body, try_catch, mbind, M_bind, mret, M_ret, throw,
    Date_now.
  rewrite (prisma_job_update_some _ _ _ _ Hj). fold (processing j).
  set (w1 := write_job (jobId d) (processing j) w).
  destruct (prisma_audioFile_findUnique (jobAudioFileId d) w1) as [[[af|]|e0] w1'].
  - destruct (fs_existsSync (AudioFile.path af) w1') as [[[|]|e1] w1'']; simpl.
    + intros ->. destruct r as [v|e].
      * unfold gets.
        rewrite (prisma_job_update_some _ _ _ _ Hrow). simpl. rewrite Hclock. reflexivity.
      * rewrite (prisma_job_update_some _ _ _ _ Hrow). reflexivity.
    + intros [= <- <-]. rewrite (prisma_job_update_some _ _ _ _ Hrow). reflexivity.
    + intros [= <- <-]. rewrite (prisma_job_update_some _ _ _ _ Hrow). reflexivity.
  - intros [= <- <-]. rewrite (prisma_job_update_some _ _ _ _ Hrow). reflexivity.
  - intros [= <- <-]. rewrite (prisma_job_update_some _ _ _ _ Hrow). reflexivity.
Qed.


(* ===================================================================== *)
(** * The runs Bull makes of one job *)
(* ===================================================================== *)

Lemma rows_of_app id tr1 tr2 :
  rows_of id (tr1 ++ tr2) = (rows_of id tr1 ++ rows_of id tr2)%list.
Proof. unfold rows_of. apply omap_app. Qed.

Lemma rows_of_lib id evs : forallb lib_event evs = true → rows_of id evs = [].
Proof.
  induction evs as [|e evs IH]; [done|].
  simpl. intros [He Hevs]%andb_prop.
  destruct e; try discriminate; by apply IH.
Qed.

Lemma rows_of_write id row : rows_of id [JobWrite id row] = [row].
Proof. unfold rows_of. simpl. by rewrite decide_True. Qed.

Lemma rows_of_quiet id w w' :
  quiet_step w w' → rows_of id (trace w') = rows_of id (trace w).
Proof.
  intros [_ _ _ _ _ _ (evs & -> & Hevs)].
  by rewrite rows_of_app, (rows_of_lib _ _ Hevs), app_nil_r.
Qed.

Section BullProcess.
Context (host : Host) (envs : nat → WorkerEnv) (d : JobData).

Lemma bull_process_S n made w :
  bull_process host envs (S n) made d w
  = match processAudioJob host (envs made) d w with
    | (Ok v, w') => (Ok [Ok v], w')
    | (Throw e, w') =>
        match bull_process host envs n (S made) d w' with
        | (Ok rest, w'') => (Ok (Throw e :: rest), w'')
        | (Throw e', w'') => (Throw e', w'')
        end
    end.
Proof.
  simpl. unfold mbind, M_bind, settle.
  destruct (processAudioJob host (envs made) d w) as [[v|e] w']; [reflexivity|].
  destruct (bull_process host envs n (S made) d w') as [[rest|e'] w'']; reflexivity.
Qed.

Lemma bull_process_spec (P : Result Json → Prop) :
  (∀ env w, P (attempt_body host env d w).1) →
  ∀ remaining made w j,
    jobs (db w) !! jobId d = Some j →
    ∃ outs w',
      bull_process host envs remaining made d w = (Ok outs, w')
      ∧ retried remaining outs
      ∧ Forall P outs
      ∧ rows_of (jobId d) (trace w')
        = (rows_of (jobId d) (trace w) ++ rows_written (clock w) j outs)%list
      ∧ jobs (db w') !! jobId d = Some (final_row (clock w) j outs)
      ∧ clock w' = clock w.
Proof.
  intros HP. induction remaining as [|n IH]; intros made w j Hj.
  - exists [], w. simpl. rewrite app_nil_r. done.
  - destruct (processAudioJob_run host (envs made) d w j Hj) as (r & w2 & Hbody & Hq & Hrun).
    assert (HPr : P r).
    { specialize (HP (envs made) (write_job (jobId d) (processing j) w)).
      by rewrite Hbody in HP. }
    set (p := processing j) in *.
    set (f := finished (clock w) p r) in *.
    set (w3 := write_job (jobId d) f w2) in *.
    assert (Hrows : rows_of (jobId d) (trace w3)
                    = (rows_of (jobId d) (trace w) ++ [p; f])%list).
    { subst w3. cbn [trace write_job]. rewrite rows_of_app, rows_of_write.
      rewrite (rows_of_quiet _ _ _ Hq). cbn [trace write_job].
      rewrite rows_of_app, rows_of_write. by rewrite <- app_assoc. }
    assert (Hclock : clock w3 = clock w) by (subst w3; simpl; by rewrite (qs_clock _ _ Hq)).
    assert (Hf : jobs (db w3) !! jobId d = Some f) by apply write_job_lookup.
    rewrite bull_process_S, Hrun.
    destruct r as [v|e].
    + exists [Ok v], w3.
      split; [done|]. split; [done|]. split; [by constructor|].
      split; [exact Hrows|]. split; [exact Hf|exact Hclock].
    + destruct (IH (S made) w3 f Hf)
        as (outs & w' & Hrest & Hshape & Hall & Hrows' & Hlast & Hclock').
      exists (Throw e :: outs), w'. rewrite Hrest.
      split; [done|]. split; [done|]. split; [by constructor|].
      rewrite Hclock in Hrows', Hlast, Hclock'.
      split; [|split; [|done]].
      * rewrite Hrows', Hrows. cbn [rows_written]. fold p. fold f.
        by rewrite <- app_assoc.
      * exact Hlast.
Qed.
End BullProcess.

Lemma status_rows_written now j outs :
  Job.status <$> rows_written now j outs
  = flat_map (λ out, [PROCESSING; terminal out]) outs.
Proof.
  revert j. induction outs as [|out outs IH]; intros j; [done|].
  cbn [rows_written flat_map fmap list_fmap app].
  rewrite <- (IH (finished now (processing j) out)).
  by destruct out.
Qed.

Lemma rows_written_result n now j outs :
  retried n outs → Job.result j = None →
  Forall result_only_completed (rows_written now j outs).
Proof.
  revert n j. induction outs as [|out outs IH]; intros n j Hshape Hj; [constructor|].
  cbn [rows_written]. constructor; [|constructor].
  - intros [x Hx]. simpl in Hx. congruence.
  - destruct out as [v|e]; [done|].
    intros [x Hx]. simpl in Hx. congruence.
  - destruct n as [|n]; [done|]. destruct out as [v|e].
    + destruct outs; [constructor | done].
    + apply (IH n); [exact Hshape | exact Hj].
Qed.

Lemma rows_written_error now outs :
  ∀ j (Q : Prop), (is_Some (Job.error j) → Q) →
  ∀ pre r post, rows_written now j outs = (pre ++ r :: post)%list →
    is_Some (Job.error r) →
    Q ∨ Exists (λ r', Job.status r' = FAILED) (pre ++ [r]).
Proof.
  induction outs as [|out outs IH]; intros j Q HQ pre r post Hrows Herr.
  { by destruct pre. }
  cbn [rows_written] in Hrows.
  destruct pre as [|x [|y pre]]; simpl in Hrows.
  - injection Hrows as <- _. left. by apply HQ.
  - injection Hrows as _ <- _. destruct out as [v|e].
    + left. by apply HQ.
    + right. apply Exists_cons_tl, Exists_cons_hd. done.
  - injection Hrows as <- <- Hrest. destruct out as [v|e].
    + destruct (IH (finished now (processing j) (Ok v)) Q HQ pre r post Hrest Herr)
        as [?|Hex]; [by left|].
      right. by do 2 apply Exists_cons_tl.
    + destruct (IH (finished now (processing j) (Throw e)) True (λ _, I)
                  pre r post Hrest Herr) as [_|Hex].
      * right. apply Exists_cons_tl, Exists_cons_hd. done.
      * right. by do 2 apply Exists_cons_tl.
Qed.

Lemma retried_nonempty n outs : retried (S n) outs → outs ≠ [].
Proof. by destruct outs. Qed.

(* ===================================================================== *)
(** * Creation of a job *)
(* ===================================================================== *)

Lemma addAudioJob_ok audioFileId type params w id row w1 :
  addAudioJob audioFileId type params w = (Ok (id, row), w1) →
  id = idgen w (nextId w)
  ∧ row = Job.mk audioFileId type PENDING 0 None None None
  ∧ jobs (db w) !! id = None
  ∧ is_Some (audioFiles (db w) !! audioFileId)
  ∧ redisUp w = true
  ∧ w1 = mkWorld (set_jobs (insert id row) (db w)) (disk w)
           (queue w ++ [mkTask (mkJobData id audioFileId type (param_outputFormat params)
                                  (param_startTime params) (param_endTime params))
                          3 2000])%list
           (redisUp w) (clock w) (idgen w) (S (nextId w))
           (trace w ++ [JobWrite id row]).
Proof.
  unfold addAudioJob, try_catch, prisma_job_create, audioQueue_add, fresh_id,
    mbind, M_bind, mret, M_ret, gets, modify, emit, throw,
    with_nextId, with_db, with_queue. simpl.
  destruct (jobs (db w) !! idgen w (nextId w)) eqn:Hfree; [discriminate|].
  destruct (audioFiles (db w) !! audioFileId) eqn:Hparent; [|discriminate].
  cbn. destruct (redisUp w) eqn:Hup; [|discriminate].
  cbn. intros [= <- <- <-]. eauto 10.
Qed.

(* ===================================================================== *)
(** * The lifecycle of a job: statuses written *)
(* ===================================================================== *)

(** C1, as stated, fails: the job of a slice upload without times is run
    three times, and each retry writes PROCESSING over FAILED. *)
Lemma retry_leaves_FAILED :
  status_writes "id1" (trace (Demo.processed Demo.slice_without_times))
  = [PENDING; PROCESSING; FAILED; PROCESSING; FAILED; PROCESSING; FAILED]
  ∧ monotonic (status_writes "id1" (trace (Demo.processed Demo.slice_without_times)))
    = false.
Proof. split; vm_compute; reflexivity. Qed.

(** C1 (amended).  A job is created PENDING and queued with three attempts.
    Every run of it writes PROCESSING and then COMPLETED or FAILED; a run
    that ends FAILED is followed by another run (which writes PROCESSING
    again) until three runs have been made, and a run that ends COMPLETED
    is the last one. *)
Theorem job_status_sequence host audioFileId type params w id row w1 :
  addAudioJob audioFileId type params w = (Ok (id, row), w1) →
  ∃ t, queue w1 = (queue w ++ [t])%list
    ∧ jobId (task_data t) = id
    ∧ task_attempts t = 3%nat
    ∧ status_writes id (trace w1) = (status_writes id (trace w) ++ [PENDING])%list
    ∧ ∀ envs w' j, jobs (db w') !! id = Some j →
        ∃ outs w'',
          bull_process host envs (task_attempts t) 0 (task_data t) w' = (Ok outs, w'')
          ∧ retried 3 outs
          ∧ status_writes id (trace w'')
            = (status_writes id (trace w')
               ++ flat_map (λ out, [PROCESSING; terminal out]) outs)%list.
Proof.
  intros (-> & -> & _ & _ & _ & ->)%addAudioJob_ok.
  eexists. split; [reflexivity|]. cbn [task_data task_attempts jobId queue trace].
  split; [reflexivity|]. split; [reflexivity|]. split.
  { unfold status_writes. rewrite rows_of_app, rows_of_write. by rewrite fmap_app. }
  intros envs w' j Hj.
  set (d := mkJobData _ _ _ _ _ _).
  destruct (bull_process_spec host envs d (λ _, True) (λ _ _, I) 3 0 w' j Hj)
    as (outs & w'' & Hrun & Hshape & _ & Hrows & _).
  exists outs, w''. split; [exact Hrun|]. split; [exact Hshape|].
  unfold status_writes. cbn [jobId d] in Hrows. rewrite Hrows, fmap_app.
  by rewrite status_rows_written.
Qed.

Lemma job_status_sequence_witness :
  addAudioJob "id0" "slice" no_params Demo.with_file = (Ok ("id1", Demo.new_row), Demo.created)
  ∧ ∃ t, queue Demo.created = (queue Demo.with_file ++ [t])%list
    ∧ jobId (task_data t) = "id1"
    ∧ task_attempts t = 3%nat
    ∧ status_writes "id1" (trace Demo.created)
      = (status_writes "id1" (trace Demo.with_file) ++ [PENDING])%list
    ∧ ∀ envs w' j, jobs (db w') !! "id1" = Some j →
        ∃ outs w'',
          bull_process Demo.host envs (task_attempts t) 0 (task_data t) w' = (Ok outs, w'')
          ∧ retried 3 outs
          ∧ status_writes "id1" (trace w'')
            = (status_writes "id1" (trace w')
               ++ flat_map (λ out, [PROCESSING; terminal out]) outs)%list.
Proof.
  split; [vm_compute; reflexivity|].
  apply (job_status_sequence Demo.host "id0" "slice" no_params Demo.with_file
           "id1" Demo.new_row Demo.created).
  vm_compute; reflexivity.
Defined.

(* ===================================================================== *)
(** * The lifecycle of a job: [result] and [error] *)
(* ===================================================================== *)

(** C2, as stated, fails: the PROCESSING update of a retry leaves the
    error of the failed run in the row. *)
Lemma retry_keeps_error :
  ¬ Forall error_only_failed
      (rows_of "id1" (trace (Demo.processed Demo.slice_without_times))).
Proof.
  intros H.
  assert (Hthird :
    rows_of "id1" (trace (Demo.processed Demo.slice_without_times)) !! 3%nat
    = Some (Job.mk "id0" "slice" PROCESSING 10 None
              (Some "Start and end times are required for slicing") None))
    by (vm_compute; reflexivity).
  pose proof (proj1 (Forall_lookup _ _) H _ _ Hthird) as Hrow.
  unfold error_only_failed in Hrow. simpl in Hrow.
  assert (PROCESSING = FAILED) by (apply Hrow; eauto). discriminate.
Qed.

(** C2 (amended).  A job is created with neither result nor error.  Of the
    rows its runs write, one has a result only when its status is
    COMPLETED; in the first run one has an error only when its status is
    FAILED; and in any run a row has an error only if it is a FAILED row or
    comes after one: the updates of a retry keep the error of the failed
    run. *)
Theorem job_result_and_error host audioFileId type params w id row w1 :
  addAudioJob audioFileId type params w = (Ok (id, row), w1) →
  Job.result row = None ∧ Job.error row = None
  ∧ ∃ t, queue w1 = (queue w ++ [t])%list
    ∧ ∀ envs w', jobs (db w') !! id = Some row →
        ∃ outs w'' rows,
          bull_process host envs (task_attempts t) 0 (task_data t) w' = (Ok outs, w'')
          ∧ rows_of id (trace w'') = (rows_of id (trace w') ++ rows)%list
          ∧ Forall result_only_completed rows
          ∧ Forall error_only_failed (take 2 rows)
          ∧ ∀ pre r post, rows = (pre ++ r :: post)%list →
              is_Some (Job.error r) →
              Exists (λ r', Job.status r' = FAILED) (pre ++ [r]).
Proof.
  intros (-> & -> & _ & _ & _ & ->)%addAudioJob_ok.
  split; [reflexivity|]. split; [reflexivity|].
  eexists. split; [reflexivity|]. cbn [task_data task_attempts].
  intros envs w' Hj.
  set (row := Job.mk audioFileId type PENDING 0 None None None) in *.
  set (d := mkJobData _ _ _ _ _ _).
  destruct (bull_process_spec host envs d (λ _, True) (λ _ _, I) 3 0 w' row Hj)
    as (outs & w'' & Hrun & Hshape & _ & Hrows & _).
  exists outs, w'', (rows_written (clock w') row outs).
  split; [exact Hrun|]. split; [exact Hrows|]. split; [|split].
  - by apply (rows_written_result 3).
  - destruct outs as [|out outs]; [constructor|].
    cbn [rows_written take]. constructor; [|constructor; [|constructor]].
    + intros [x Hx]. discriminate.
    + destruct out as [v|e]; [|done]. intros [x Hx]. discriminate.
  - intros pre r post Hsplit Herr.
    assert (Hnone : is_Some (Job.error row) → False) by (intros [x Hx]; discriminate).
    destruct (rows_written_error _ _ row False Hnone pre r post Hsplit Herr) as [[]|Hex].
    exact Hex.
Qed.

Lemma job_result_and_error_witness :
  addAudioJob "id0" "slice" no_params Demo.with_file = (Ok ("id1", Demo.new_row), Demo.created)
  ∧ Job.result Demo.new_row = None ∧ Job.error Demo.new_row = None
  ∧ ∃ t, queue Demo.created = (queue Demo.with_file ++ [t])%list
    ∧ ∀ envs w', jobs (db w') !! "id1" = Some Demo.new_row →
        ∃ outs w'' rows,
          bull_process Demo.host envs (task_attempts t) 0 (task_data t) w' = (Ok outs, w'')
          ∧ rows_of "id1" (trace w'') = (rows_of "id1" (trace w') ++ rows)%list
          ∧ Forall result_only_completed rows
          ∧ Forall error_only_failed (take 2 rows)
          ∧ ∀ pre r post, rows = (pre ++ r :: post)%list →
              is_Some (Job.error r) →
              Exists (λ r', Job.status r' = FAILED) (pre ++ [r]).
Proof.
  split; [vm_compute; reflexivity|].
  apply (job_result_and_error Demo.host "id0" "slice" no_params Demo.with_file
           "id1" Demo.new_row Demo.created).
  vm_compute; reflexivity.
Defined.

(* ===================================================================== *)
(** * The transitions of one run *)
(* ===================================================================== *)

(** C3.  A run of the worker on a stored job first writes PROCESSING with
    progress 10.  When the processor returns it writes COMPLETED with
    progress 100, the serialized result and the current time as
    [completedAt]; when it throws it writes FAILED with the message of the
    error and leaves [completedAt] as it was, which is null for a job that
    never completed. *)
Theorem processAudioJob_transitions host env d w j :
  jobs (db w) !! jobId d = Some j →
  ∃ r w' p f,
    processAudioJob host env d w = (r, w')
    ∧ rows_of (jobId d) (trace w') = (rows_of (jobId d) (trace w) ++ [p; f])%list
    ∧ jobs (db w') !! jobId d = Some f
    ∧ Job.status p = PROCESSING ∧ Job.progress p = 10
    ∧ match r with
      | Ok v =>
          Job.status f = COMPLETED ∧ Job.progress f = 100
          ∧ Job.result f = Some (JSON_stringify v)
          ∧ ∃ now, Job.completedAt f = Some now ∧ now = clock w
      | Throw e =>
          Job.status f = FAILED ∧ Job.error f = Some (message e)
          ∧ Job.completedAt f = Job.completedAt j
          ∧ (Job.completedAt j = None → Job.completedAt f = None)
      end.
Proof.
  intros Hj.
  destruct (processAudioJob_run host env d w j Hj) as (r & w2 & _ & Hq & Hrun).
  exists r, (write_job (jobId d) (finished (clock w) (processing j) r) w2),
    (processing j), (finished (clock w) (processing j) r).
  split; [exact Hrun|]. split; [|split; [apply write_job_lookup|]].
  - cbn [trace write_job]. rewrite rows_of_app, rows_of_write.
    rewrite (rows_of_quiet _ _ _ Hq). cbn [trace write_job].
    rewrite rows_of_app, rows_of_write. by rewrite <- app_assoc.
  - split; [reflexivity|]. split; [reflexivity|].
    destruct r as [v|e]; simpl; eauto 10.
Qed.

Lemma processAudioJob_transitions_witness :
  jobs (db Demo.created) !! jobId Demo.slice_data = Some Demo.new_row
  ∧ ∃ r w' p f,
    processAudioJob Demo.host Demo.env Demo.slice_data Demo.created = (r, w')
    ∧ rows_of "id1" (trace w') = (rows_of "id1" (trace Demo.created) ++ [p; f])%list
    ∧ jobs (db w') !! "id1" = Some f
    ∧ Job.status p = PROCESSING ∧ Job.progress p = 10
    ∧ match r with
      | Ok v =>
          Job.status f = COMPLETED ∧ Job.progress f = 100
          ∧ Job.result f = Some (JSON_stringify v)
          ∧ ∃ now, Job.completedAt f = Some now ∧ now = clock Demo.created
      | Throw e =>
          Job.status f = FAILED ∧ Job.error f = Some (message e)
          ∧ Job.completedAt f = Job.completedAt Demo.new_row
          ∧ (Job.completedAt Demo.new_row = None → Job.completedAt f = None)
      end.
Proof.
  split; [vm_compute; reflexivity|].
  apply (processAudioJob_transitions Demo.host Demo.env Demo.slice_data Demo.created
           Demo.new_row).
  vm_compute; reflexivity.
Defined.

(* ===================================================================== *)
(** * Unlinking files *)
(* ===================================================================== *)

Lemma unlink_step_refl w : unlink_step w w.
Proof. split; try reflexivity. intros p. by right. Qed.

Lemma unlink_step_trans w1 w2 w3 :
  unlink_step w1 w2 → unlink_step w2 w3 → unlink_step w1 w3.
Proof.
  intros [? ? ? ? ? ? ? D1] [? ? ? ? ? ? ? D2]. split; try congruence.
  intros p. destruct (D2 p) as [?|Heq]; [by left | rewrite Heq; apply D1].
Qed.

Lemma unlinks_ret {A} (a : A) : unlinks (mret a).
Proof. intros w. apply unlink_step_refl. Qed.

Lemma unlinks_throw {A} e : unlinks (@throw A e).
Proof. intros w. apply unlink_step_refl. Qed.

Lemma unlinks_gets {A} (f : World → A) : unlinks (gets f).
Proof. intros w. apply unlink_step_refl. Qed.

Lemma unlinks_bind {A B} (m : M A) (f : A → M B) :
  unlinks m → (∀ a, unlinks (f a)) → unlinks (m ≫= f).
Proof.
  intros Hm Hf w. unfold mbind, M_bind. specialize (Hm w).
  destruct (m w) as [[a|e] w1]; simpl in *; [|done].
  eapply unlink_step_trans; [exact Hm | apply Hf].
Qed.

Lemma unlinks_try_catch {A} (m : M A) (h : Error → M A) :
  unlinks m → (∀ e, unlinks (h e)) → unlinks (try_catch m h).
Proof.
  intros Hm Hh w. unfold try_catch. specialize (Hm w).
  destruct (m w) as [[a|e] w1]; simpl in *; [done|].
  eapply unlink_step_trans; [exact Hm | apply Hh].
Qed.

Lemma unlinks_fs_unlinkSync p : unlinks (fs_unlinkSync p).
Proof.
  intros w. unfold fs_unlinkSync. destruct (disk w !! p) eqn:Hp; [|apply unlink_step_refl].
  split; try reflexivity. intros p'. simpl.
  destruct (decide (p = p')) as [->|Hne].
  - left. apply lookup_delete_eq.
  - right. by apply lookup_delete_ne.
Qed.

Ltac unlinks_tac :=
  repeat first
    [ apply unlinks_ret | apply unlinks_throw | apply unlinks_gets
    | apply unlinks_fs_unlinkSync
    | apply unlinks_bind; [|intros ?]
    | apply unlinks_try_catch; [|intros ?]
    | match goal with
      | |- unlinks (if ?b then _ else _) => destruct b
      | |- unlinks (match ?x with _ => _ end) => destruct x
      end ].

Lemma unlinks_delete_output_file host dir j : unlinks (delete_output_file host dir j).
Proof.
  unfold delete_output_file, unlink_output, JSON_parse, fs_existsSync. unlinks_tac.
Qed.

Lemma unlinks_delete_original_file host dir af :
  unlinks (delete_original_file host dir af).
Proof. unfold delete_original_file, fs_existsSync. unlinks_tac. Qed.

(* ===================================================================== *)
(** * The cleanup sweep *)
(* ===================================================================== *)

Lemma prisma_job_delete_jobs id w k :
  k ≠ id →
  jobs (db (prisma_job_delete id w).2) !! k = jobs (db w) !! k.
Proof.
  intros Hne. unfold prisma_job_delete, mbind, M_bind, gets.
  destruct (jobs (db w) !! id); [|reflexivity].
  simpl. by apply lookup_delete_ne.
Qed.

Lemma cleanup_loop_keeps host dir oldJobs :
  ∀ deletedCount filesDeleted w k,
    k ∉ oldJobs.*1 →
    jobs (db (cleanup_loop host dir oldJobs deletedCount filesDeleted w).2) !! k
    = jobs (db w) !! k.
Proof.
  induction oldJobs as [|job rest IH]; intros dc fd w k Hk; [reflexivity|].
  apply not_elem_of_cons in Hk as [Hne Hrest].
  cbn [cleanup_loop]. unfold mbind, M_bind.
  pose proof (unlinks_delete_output_file host dir job.2 w) as Hstep.
  destruct (delete_output_file host dir job.2 w) as [[names|e] w1]; simpl in Hstep.
  - pose proof (prisma_job_delete_jobs job.1 w1 k Hne) as Hdel.
    destruct (prisma_job_delete job.1 w1) as [[[]|e] w2]; simpl in Hdel |- *.
    + rewrite (IH _ _ w2 k Hrest), Hdel. by rewrite (us_db _ _ Hstep).
    + rewrite Hdel. by rewrite (us_db _ _ Hstep).
  - simpl. by rewrite (us_db _ _ Hstep).
Qed.

(** C4.  A job that a cleanup sweep deletes is COMPLETED with [completedAt]
    strictly before [now - jobAgeHours] (in milliseconds); a job that is
    not COMPLETED, or completed at or after that time, or without
    [completedAt], is still stored after the sweep, unchanged. *)
Theorem cleanup_deletes_only_old_completed host jobAgeHours w id j :
  jobs (db w) !! id = Some j →
  let w' := (cleanupOldJobs host jobAgeHours w).2 in
  let cutoffDate := clock w - jobAgeHours * 60 * 60 * 1000 in
  (jobs (db w') !! id = None →
     Job.status j = COMPLETED ∧ ∃ t, Job.completedAt j = Some t ∧ t < cutoffDate)
  ∧ (Job.status j ≠ COMPLETED
     ∨ Job.completedAt j = None
     ∨ (∃ t, Job.completedAt j = Some t ∧ cutoffDate ≤ t) →
     jobs (db w') !! id = Some j).
Proof.
  intros Hj w' cutoffDate.
  assert (Hkept : is_old_completed cutoffDate j = false → jobs (db w') !! id = Some j).
  { intros Hnot. subst w'. unfold cleanupOldJobs, try_catch, mbind, M_bind, Date_now,
      prisma_job_findMany, gets. fold cutoffDate.
    set (oldJobs := map_to_list _).
    assert (Hout : id ∉ oldJobs.*1).
    { intros ([k x] & Heq & Hin)%list_elem_of_fmap. simpl in Heq. subst k.
      apply elem_of_map_to_list, map_lookup_filter_Some in Hin as [Hx Hold].
      simpl in Hold. congruence. }
    destruct (length oldJobs =? 0)%nat; [exact Hj|].
    pose proof (cleanup_loop_keeps host (or_else (UPLOAD_DIR host) "./uploads")
                  oldJobs 0 0 w id Hout) as Hloop.
    destruct (cleanup_loop host _ oldJobs 0 0 w) as [[counts|e] w1];
      simpl in Hloop |- *; by rewrite Hloop. }
  split.
  - intros Hgone.
    destruct (is_old_completed cutoffDate j) eqn:Hold.
    + unfold is_old_completed in Hold. apply andb_prop in Hold as [Hs Ht].
      apply bool_decide_eq_true in Hs. split; [exact Hs|].
      destruct (Job.completedAt j) as [t|]; [|discriminate].
      exists t. split; [reflexivity|]. by apply Z.ltb_lt.
    + rewrite (Hkept eq_refl) in Hgone. discriminate.
  - intros Hyoung. apply Hkept. unfold is_old_completed.
    destruct Hyoung as [Hs|[Hn|(t & Ht & Hle)]].
    + by rewrite bool_decide_eq_false_2.
    + rewrite Hn. apply andb_false_r.
    + rewrite Ht. replace (t <? cutoffDate) with false; [apply andb_false_r|].
      symmetry. apply Z.ltb_ge. exact Hle.
Qed.

Lemma cleanup_deletes_only_old_completed_witness :
  jobs (db Demo.shared) !! "job1" = Some Demo.converted_row
  ∧ jobs (db (cleanupOldJobs Demo.host 24 Demo.shared).2) !! "job1" = None
  ∧ jobs (db (cleanupOldJobs Demo.host 24 Demo.shared).2) !! "job2" = Some Demo.sibling_row
  ∧ Job.status Demo.converted_row = COMPLETED
  ∧ ∃ t, Job.completedAt Demo.converted_row = Some t
         ∧ t < clock Demo.shared - 24 * 60 * 60 * 1000.
Proof.
  split; [vm_compute; reflexivity|].
  split; [vm_compute; reflexivity|].
  split; [vm_compute; reflexivity|].
  apply (cleanup_deletes_only_old_completed Demo.host 24 Demo.shared "job1"
           Demo.converted_row);
    vm_compute; reflexivity.
Defined.

(* ===================================================================== *)
(** * Deleting a job *)
(* ===================================================================== *)

Lemma string_truthy_ne s : string_truthy s = true ↔ s ≠ "".
Proof. destruct s; simpl; split; (done || congruence). Qed.

#[local] Arguments includes : simpl never.
#[local] Arguments split_pop : simpl never.

Lemma delete_output_file_spec host dir j w :
  ∃ names w1,
    delete_output_file host dir j w = (Ok names, w1)
    ∧ unlink_step w w1
    ∧ ∀ v p, Job.result j = Some (JSON_stringify v) →
        get "outputPath" (json_roundtrip v) = Some (JString p) → p ≠ "" →
        disk w1 !! output_file host dir p = None.
Proof.
  pose proof (unlinks_delete_output_file host dir j w) as Hstep.
  destruct (delete_output_file host dir j w) as [r w1] eqn:Hrun.
  revert Hrun.
  unfold delete_output_file, unlink_output, JSON_parse, try_catch, mbind, M_bind,
    mret, M_ret, throw, fs_existsSync, fs_unlinkSync, gets, output_file.
  destruct (Job.result j) as [[v|s]|] eqn:Hres; simpl.
  - destruct (json_roundtrip v) as [| | | | |fields] eqn:Hv; simpl;
      try (intros [= <- <-]; exists [], w; split; [done|]; split; [done|];
           intros v' p [= <-]; rewrite Hv; discriminate).
    destruct (obj_get "outputPath" fields) as [[| | |p| |]|] eqn:Hget; simpl;
      try (intros [= <- <-]; exists [], w; split; [done|]; split; [done|];
           intros v' p' [= <-]; rewrite Hv; simpl; rewrite Hget; discriminate).
    + destruct b; simpl;
        (intros [= <- <-]; exists [], w; split; [done|]; split; [done|];
           intros v' p' [= <-]; rewrite Hv; simpl; rewrite Hget; discriminate).
    + destruct (number_truthy n); simpl;
        (intros [= <- <-]; exists [], w; split; [done|]; split; [done|];
           intros v' p' [= <-]; rewrite Hv; simpl; rewrite Hget; discriminate).
    + destruct (string_truthy p) eqn:Htruthy; simpl.
      2:{ intros [= <- <-]. exists [], w. split; [done|]. split; [done|].
          intros v' p' [= <-]. rewrite Hv. simpl. rewrite Hget. intros [= <-] Hne.
          apply string_truthy_ne in Hne. congruence. }
      set (target := path_join host dir _).
      destruct (disk w !! target) as [n|] eqn:Hdisk; simpl.
      * rewrite ?Hdisk; simpl. intros [= <- <-]. eexists _, _. split; [done|]. split; [done|].
        intros v' p'' [= <-]. rewrite Hv. simpl. rewrite Hget. intros [= <-] _.
        simpl. apply lookup_delete_eq.
      * intros [= <- <-]. exists [], w. split; [done|]. split; [done|].
        intros v' p'' [= <-]. rewrite Hv. simpl. rewrite Hget. intros [= <-] _.
        exact Hdisk.
  - destruct (string_truthy s); simpl;
      intros [= <- <-]; exists [], w; (split; [done|]); (split; [done|]);
      intros v' p; discriminate.
  - intros [= <- <-]. exists [], w. split; [done|]. split; [done|].
    intros v' p; discriminate.
Qed.

Lemma delete_original_file_spec host dir audioFile w :
  ∃ names w1,
    delete_original_file host dir audioFile w = (Ok names, w1)
    ∧ unlink_step w w1
    ∧ ∀ af, audioFile = Some af → AudioFile.filename af ≠ "" →
        disk w1 !! path_join host dir (AudioFile.filename af) = None.
Proof.
  pose proof (unlinks_delete_original_file host dir audioFile w) as Hstep.
  destruct (delete_original_file host dir audioFile w) as [r w1] eqn:Hrun.
  revert Hrun.
  unfold delete_original_file, try_catch, mbind, M_bind,
    mret, M_ret, throw, fs_existsSync, fs_unlinkSync, gets.
  destruct audioFile as [af|]; simpl.
  - destruct (string_truthy (AudioFile.filename af)) eqn:Htruthy; simpl.
    2:{ intros [= <- <-]. exists [], w. split; [done|]. split; [done|].
        intros af' [= <-] Hne. apply string_truthy_ne in Hne. congruence. }
    set (target := path_join host dir _).
    destruct (disk w !! target) as [n|] eqn:Hdisk; simpl.
    + rewrite ?Hdisk; simpl. intros [= <- <-]. eexists _, _. split; [done|]. split; [done|].
      intros af' [= <-] _. simpl. apply lookup_delete_eq.
    + intros [= <- <-]. exists [], w. split; [done|]. split; [done|].
      intros af' [= <-] _. exact Hdisk.
  - intros [= <- <-]. exists [], w. split; [done|]. split; [done|].
    intros af; discriminate.
Qed.

Lemma bind_Ok {A B} (m : M A) (f : A → M B) w a w1 :
  m w = (Ok a, w1) → (m ≫= f) w = f a w1.
Proof. intros H. unfold mbind, M_bind. by rewrite H. Qed.

Lemma other_jobs_nil w id fileId :
  (length (other_jobs w id fileId) =? 0)%nat = true ↔ ¬ has_sibling w id fileId.
Proof.
  unfold other_jobs, has_sibling. rewrite Nat.eqb_eq, length_zero_iff_nil.
  rewrite map_to_list_empty_iff, map_empty. split.
  - intros Hnone (k & other & Hk & Hne & Hfile).
    specialize (Hnone k). apply map_lookup_filter_None in Hnone as [Hnone|Hnone];
      [congruence|].
    apply (Hnone other Hk). simpl.
    apply andb_true_intro. split; [by apply String.eqb_eq|].
    apply negb_true_iff, String.eqb_neq. exact Hne.
  - intros Hnone k. apply map_lookup_filter_None.
    destruct (jobs (db w) !! k) as [other|] eqn:Hk; [right|by left].
    intros x [= <-]. simpl. intros [Hfile Hne]%andb_prop.
    apply Hnone. exists k, other. split; [exact Hk|].
    split; [by apply String.eqb_neq, negb_true_iff | by apply String.eqb_eq].
Qed.

#[local] Arguments delete_output_file : simpl never.
#[local] Arguments delete_original_file : simpl never.

Lemma router_delete_job_spec host jobId w j :
  jobs (db w) !! jobId = Some j →
  let fid := Job.audioFileId j in
  ∃ w2 w',
    router_delete_job host jobId w = (Ok tt, w')
    ∧ unlink_step w w2
    ∧ (∀ v p, Job.result j = Some (JSON_stringify v) →
         get "outputPath" (json_roundtrip v) = Some (JString p) → p ≠ "" →
         disk w2 !! output_file host (route_uploadDir host) p = None)
    ∧ (∀ af, audioFiles (db w) !! fid = Some af → AudioFile.filename af ≠ "" →
         disk w2 !! path_join host (route_uploadDir host) (AudioFile.filename af) = None)
    ∧ disk w' = disk w2
    ∧ db w' =
        if bool_decide (is_Some (audioFiles (db w) !! fid))
           && string_truthy fid && (length (other_jobs w jobId fid) =? 0)%nat
        then mkDb (delete fid (audioFiles (db w)))
               (filter (λ kv : string * Job.t, Job.audioFileId kv.2 ≠ fid)
                       (delete jobId (jobs (db w))))
        else mkDb (audioFiles (db w)) (delete jobId (jobs (db w))).
Proof.
  intros Hj fid.
  destruct (delete_output_file_spec host (route_uploadDir host) j w)
    as (names1 & w1 & Hout & Hstep1 & Hgone1).
  destruct (delete_original_file_spec host (route_uploadDir host)
              (audioFiles (db w) !! fid) w1)
    as (names2 & w2 & Horig & Hstep2 & Hgone2).
  pose proof (unlink_step_trans _ _ _ Hstep1 Hstep2) as Hstep.
  assert (Hdb : db w2 = db w) by apply (us_db _ _ Hstep).
  unfold router_delete_job, try_catch.
  erewrite bind_Ok; [|unfold prisma_job_findUnique, gets; by rewrite Hj].
  cbn beta iota zeta. fold (route_uploadDir host). fold fid.
  erewrite bind_Ok; [|exact Hout].
  erewrite bind_Ok; [|exact Horig].
  erewrite bind_Ok; [|unfold prisma_job_findMany, gets; reflexivity].
  erewrite bind_Ok;
    [|unfold prisma_job_delete, gets; erewrite bind_Ok; [|reflexivity];
      cbn beta; rewrite Hdb, Hj; reflexivity].
  set (w3 := with_db (set_jobs (delete jobId)) w2).
  assert (Hdb3 : audioFiles (db w3) = audioFiles (db w)) by (subst w3; cbn; by rewrite Hdb).
  assert (Hgone1' : ∀ v p, Job.result j = Some (JSON_stringify v) →
            get "outputPath" (json_roundtrip v) = Some (JString p) → p ≠ "" →
            disk w2 !! output_file host (route_uploadDir host) p = None).
  { intros v p Hres Hget Hne.
    destruct (us_disk _ _ Hstep2 (output_file host (route_uploadDir host) p)) as [?|Heq];
      [done|].
    rewrite Heq. by eapply Hgone1. }
  exists w2.
  destruct (audioFiles (db w) !! fid) as [af|] eqn:Haf;
    cbn [fmap option_fmap option_map]; rewrite ?Hdb; fold (other_jobs w jobId fid).
  - rewrite bool_decide_eq_true_2 by eauto. rewrite andb_true_l.
    destruct (string_truthy fid && (length (other_jobs w jobId fid) =? 0)%nat) eqn:Hcond.
    + eexists. split.
      { erewrite bind_Ok; [reflexivity|].
        unfold prisma_audioFile_delete.
        erewrite bind_Ok; [|unfold gets; reflexivity].
        rewrite Hdb3, Haf. reflexivity. }
      split; [exact Hstep|]. split; [exact Hgone1'|]. split; [exact Hgone2|].
      split; [reflexivity|]. cbn. by rewrite Hdb.
    + eexists. split.
      { erewrite bind_Ok; [reflexivity|]. reflexivity. }
      split; [exact Hstep|]. split; [exact Hgone1'|]. split; [exact Hgone2|].
      split; [reflexivity|]. cbn. by rewrite Hdb.
  - rewrite bool_decide_eq_false_2 by (intros [x Hx]; discriminate). rewrite andb_false_l.
    eexists. split.
    { erewrite bind_Ok; [reflexivity|]. reflexivity. }
    split; [exact Hstep|]. split; [exact Hgone1'|]. split; [exact Hgone2|].
    split; [reflexivity|]. cbn. by rewrite Hdb.
Qed.

Lemma db_after_delete_job host jobId w j af :
  jobs (db w) !! jobId = Some j →
  audioFiles (db w) !! Job.audioFileId j = Some af →
  Job.audioFileId j ≠ "" →
  let w' := (router_delete_job host jobId w).2 in
  jobs (db w') !! jobId = None
  ∧ (audioFiles (db w') !! Job.audioFileId j = None
     ↔ ¬ has_sibling w jobId (Job.audioFileId j))
  ∧ (has_sibling w jobId (Job.audioFileId j) →
     audioFiles (db w') !! Job.audioFileId j = Some af).
Proof.
  intros Hj Haf Hfid w'.
  destruct (router_delete_job_spec host jobId w j Hj)
    as (w2 & w'' & Hrun & _ & _ & _ & _ & Hdb).
  subst w'. rewrite Hrun. cbn [snd]. rewrite Hdb, Haf.
  rewrite bool_decide_eq_true_2 by eauto.
  apply string_truthy_ne in Hfid. rewrite Hfid. cbn [andb].
  pose proof (other_jobs_nil w jobId (Job.audioFileId j)) as Hnil.
  destruct (length (other_jobs w jobId (Job.audioFileId j)) =? 0)%nat; cbn [jobs audioFiles].
  - split; [|split].
    + apply map_lookup_filter_None. left. apply lookup_delete_eq.
    + rewrite lookup_delete_eq. split; [intros _; by apply Hnil | done].
    + intros Hsib. exfalso. by apply Hnil.
  - split; [apply lookup_delete_eq|]. rewrite Haf. split.
    + split; [discriminate|]. intros Hno. apply Hnil in Hno. discriminate.
    + done.
Qed.

(** C5.  Deleting a stored job whose audio file row exists removes the job
    row, leaves no file under the output name of its parsed result in the
    upload directory, and removes the audio file row exactly when no other
    job row references it; with a sibling the audio file row stays as it
    was. *)
Theorem delete_job_route host jobId w j af :
  jobs (db w) !! jobId = Some j →
  audioFiles (db w) !! Job.audioFileId j = Some af →
  Job.audioFileId j ≠ "" →
  let w' := (router_delete_job host jobId w).2 in
  jobs (db w') !! jobId = None
  ∧ (∀ v p, Job.result j = Some (JSON_stringify v) →
       get "outputPath" (json_roundtrip v) = Some (JString p) → p ≠ "" →
       disk w' !! output_file host (route_uploadDir host) p = None)
  ∧ (audioFiles (db w') !! Job.audioFileId j = None
     ↔ ¬ has_sibling w jobId (Job.audioFileId j))
  ∧ (has_sibling w jobId (Job.audioFileId j) →
     audioFiles (db w') !! Job.audioFileId j = Some af).
Proof.
  intros Hj Haf Hfid w'.
  destruct (db_after_delete_job host jobId w j af Hj Haf Hfid) as (Hgone & Hiff & Hkept).
  split; [exact Hgone|]. split; [|split; [exact Hiff | exact Hkept]].
  destruct (router_delete_job_spec host jobId w j Hj)
    as (w2 & w'' & Hrun & _ & Hout & _ & Hdisk & _).
  subst w'. rewrite Hrun. cbn [snd]. rewrite Hdisk. exact Hout.
Qed.

Lemma delete_job_route_witness :
  jobs (db Demo.shared) !! "job1" = Some Demo.converted_row
  ∧ audioFiles (db Demo.shared) !! "file1" = Some Demo.song_row
  ∧ jobs (db Demo.deleted) !! "job1" = None
  ∧ (∀ v p, Job.result Demo.converted_row = Some (JSON_stringify v) →
       get "outputPath" (json_roundtrip v) = Some (JString p) → p ≠ "" →
       disk Demo.deleted !! output_file Demo.host (route_uploadDir Demo.host) p = None)
  ∧ (audioFiles (db Demo.deleted) !! "file1" = None
     ↔ ¬ has_sibling Demo.shared "job1" "file1")
  ∧ (has_sibling Demo.shared "job1" "file1" →
     audioFiles (db Demo.deleted) !! "file1" = Some Demo.song_row).
Proof.
  split; [vm_compute; reflexivity|].
  split; [vm_compute; reflexivity|].
  apply (delete_job_route Demo.host "job1" Demo.shared Demo.converted_row Demo.song_row).
  - vm_compute; reflexivity.
  - vm_compute; reflexivity.
  - discriminate.
Defined.

(** C9, as stated, fails in its last part: the output file is unlinked
    although a sibling job exists, so the sibling check does not govern
    it. *)
Lemma output_file_not_governed_by_siblings :
  ¬ (has_sibling Demo.shared "job1" "file1" →
     disk Demo.deleted !! "uploads/song_converted.flac"
     = disk Demo.shared !! "uploads/song_converted.flac").
Proof.
  intros Hgoverned.
  assert (Hsib : has_sibling Demo.shared "job1" "file1").
  { exists "job2", Demo.sibling_row.
    split; [vm_compute; reflexivity|]. split; [discriminate | reflexivity]. }
  assert (Hafter : disk Demo.deleted !! "uploads/song_converted.flac" = None)
    by (vm_compute; reflexivity).
  assert (Hbefore : disk Demo.shared !! "uploads/song_converted.flac" = Some 1000)
    by (vm_compute; reflexivity).
  pose proof (eq_trans (eq_sym Hafter) (eq_trans (Hgoverned Hsib) Hbefore)) as Habs.
  discriminate Habs.
Qed.

(** C9 (amended).  Deleting a stored job unlinks the original uploaded file
    of its audio file from the upload directory whether or not other job
    rows reference that audio file, also when the audio file row is kept.
    The output file and the job row go the same way, unconditionally; only
    the audio file row is governed by the sibling check. *)
Theorem delete_job_route_original_file host jobId w j af :
  jobs (db w) !! jobId = Some j →
  audioFiles (db w) !! Job.audioFileId j = Some af →
  AudioFile.filename af ≠ "" →
  let w' := (router_delete_job host jobId w).2 in
  disk w' !! path_join host (route_uploadDir host) (AudioFile.filename af) = None
  ∧ (∀ v p, Job.result j = Some (JSON_stringify v) →
       get "outputPath" (json_roundtrip v) = Some (JString p) → p ≠ "" →
       disk w' !! output_file host (route_uploadDir host) p = None)
  ∧ jobs (db w') !! jobId = None
  ∧ (Job.audioFileId j ≠ "" →
     (has_sibling w jobId (Job.audioFileId j) →
      audioFiles (db w') !! Job.audioFileId j = Some af)
     ∧ (¬ has_sibling w jobId (Job.audioFileId j) →
        audioFiles (db w') !! Job.audioFileId j = None)).
Proof.
  intros Hj Haf Hname w'.
  destruct (router_delete_job_spec host jobId w j Hj)
    as (w2 & w'' & Hrun & _ & Hout & Horig & Hdisk & Hdb).
  assert (Hw' : w' = w'') by (subst w'; by rewrite Hrun).
  rewrite Hw'. rewrite Hdisk.
  split; [by apply Horig|]. split; [exact Hout|]. split.
  - rewrite Hdb. destruct (_ && _); cbn [jobs].
    + apply map_lookup_filter_None. left. apply lookup_delete_eq.
    + apply lookup_delete_eq.
  - intros Hfid.
    destruct (db_after_delete_job host jobId w j af Hj Haf Hfid) as (_ & Hiff & Hkept).
    fold w' in Hiff, Hkept. rewrite Hw' in Hiff, Hkept.
    split; [exact Hkept | apply Hiff].
Qed.

Lemma delete_job_route_original_file_witness :
  has_sibling Demo.shared "job1" "file1"
  ∧ is_Some (disk Demo.shared !! "uploads/song.wav")
  ∧ disk Demo.deleted !! path_join Demo.host (route_uploadDir Demo.host) "song.wav" = None
  ∧ (∀ v p, Job.result Demo.converted_row = Some (JSON_stringify v) →
       get "outputPath" (json_roundtrip v) = Some (JString p) → p ≠ "" →
       disk Demo.deleted !! output_file Demo.host (route_uploadDir Demo.host) p = None)
  ∧ jobs (db Demo.deleted) !! "job1" = None
  ∧ ("file1" ≠ "" →
     (has_sibling Demo.shared "job1" "file1" →
      audioFiles (db Demo.deleted) !! "file1" = Some Demo.song_row)
     ∧ (¬ has_sibling Demo.shared "job1" "file1" →
        audioFiles (db Demo.deleted) !! "file1" = None)).
Proof.
  split.
  { exists "job2", Demo.sibling_row.
    split; [vm_compute; reflexivity|]. split; [discriminate | reflexivity]. }
  split; [exists 5000; vm_compute; reflexivity|].
  apply (delete_job_route_original_file Demo.host "job1" Demo.shared Demo.converted_row
           Demo.song_row).
  - vm_compute; reflexivity.
  - vm_compute; reflexivity.
  - discriminate.
Defined.

(* ===================================================================== *)
(** * Uploads *)
(* ===================================================================== *)

Lemma router_post_upload_run host m w :
  let w' := (router_post_upload host m w).2 in
  (∃ req file, m = Parsed req ∧ req_file req = Some file ∧ upload_ready w
               ∧ w' = uploaded_world host req file w)
  ∨ (∃ evs code body,
       trace w' = (trace w ++ evs ++ [Responded code body])%list
       ∧ code ≠ 201
       ∧ Forall (λ e, ∃ id row, e = JobWrite id row) evs).
Proof.
  destruct m as [code msg|msg|req]; cbn [router_post_upload].
  - right. destruct (String.eqb code "LIMIT_FILE_SIZE");
      (eexists [], 400, _; split; [reflexivity|]; split; [done | constructor]).
  - right. eexists [], 400, _. split; [reflexivity|]. split; [done | constructor].
  - unfold uploadAudio, try_catch.
    destruct (req_file req) as [file|] eqn:Hfile.
    2:{ right. eexists [], 400, _. split; [reflexivity|]. split; [done | constructor]. }
    unfold addAudioJob, prisma_audioFile_create, prisma_job_create, audioQueue_add,
      fresh_id, try_catch, mbind, M_bind, mret, M_ret, gets, modify, emit, throw,
      with_nextId, with_db, with_queue. cbn.
    destruct (audioFiles (db w) !! idgen w (nextId w)) eqn:Hfree1; cbn.
    { right. eexists [], 500, _. split; [reflexivity|]. split; [done | constructor]. }
    destruct (jobs (db w) !! idgen w (S (nextId w))) eqn:Hfree2; cbn.
    { right. eexists [], 500, _. split; [reflexivity|]. split; [done | constructor]. }
    rewrite lookup_insert_eq. cbn.
    destruct (redisUp w) eqn:Hup; cbn.
    + left. exists req, file. split; [reflexivity|]. split; [exact Hfile|].
      split; [done|]. unfold uploaded_world, audioFile_row. by rewrite Hup.
    + right. eexists [_], 500, _. split; [by rewrite <- app_assoc|].
      split; [done|]. constructor; [eauto | constructor].
Qed.

Lemma router_post_upload_accepted host req file w :
  req_file req = Some file → upload_ready w →
  router_post_upload host (Parsed req) w = (Ok tt, uploaded_world host req file w).
Proof.
  intros Hfile (Hfree1 & Hfree2 & Hup).
  cbn [router_post_upload]. unfold uploadAudio, try_catch. rewrite Hfile.
  unfold addAudioJob, prisma_audioFile_create, prisma_job_create, audioQueue_add,
    fresh_id, try_catch, mbind, M_bind, mret, M_ret, gets, modify, emit, throw,
    with_nextId, with_db, with_queue. cbn.
  rewrite Hfree1. cbn. rewrite Hfree2. cbn. rewrite lookup_insert_eq. cbn.
  rewrite Hup. cbn. unfold uploaded_world, audioFile_row. by rewrite Hup.
Qed.

Lemma uploadAudio_responses host req file w :
  req_file req = Some file →
  ∃ evs code body,
    trace (router_post_upload host (Parsed req) w).2
    = (trace w ++ evs ++ [Responded code body])%list
    ∧ (code = 201 ∨ code = 500)
    ∧ Forall (λ e, ∃ id row, e = JobWrite id row) evs.
Proof.
  intros Hfile. cbn [router_post_upload]. unfold uploadAudio, try_catch. rewrite Hfile.
  unfold addAudioJob, prisma_audioFile_create, prisma_job_create, audioQueue_add,
    fresh_id, try_catch, mbind, M_bind, mret, M_ret, gets, modify, emit, throw,
    with_nextId, with_db, with_queue. cbn.
  destruct (audioFiles (db w) !! idgen w (nextId w)); cbn.
  { eexists [], 500, _. split; [reflexivity|]. split; [by right | constructor]. }
  destruct (jobs (db w) !! idgen w (S (nextId w))); cbn.
  { eexists [], 500, _. split; [reflexivity|]. split; [by right | constructor]. }
  rewrite lookup_insert_eq. cbn.
  destruct (redisUp w); cbn.
  - eexists [_], 201, _. split; [by rewrite <- app_assoc|].
    split; [by left|]. constructor; [eauto | constructor].
  - eexists [_], 500, _. split; [by rewrite <- app_assoc|].
    split; [by right|]. constructor; [eauto | constructor].
Qed.

(** C6.  When POST /api/upload answers 201, the request carried a file, an
    audio file row and a job row with status PENDING have been created, the
    job row was written before the response was sent, and the body of the
    response holds the id, the type and the status of the new job. *)
Theorem upload_creates_pending_job host m w evs body :
  let w' := (router_post_upload host m w).2 in
  trace w' = (trace w ++ evs)%list →
  Responded 201 body ∈ evs →
  ∃ req file fileId jobId row,
    m = Parsed req ∧ req_file req = Some file
    ∧ audioFiles (db w) !! fileId = None
    ∧ audioFiles (db w') !! fileId = Some (audioFile_row file)
    ∧ jobs (db w) !! jobId = None
    ∧ jobs (db w') !! jobId = Some row
    ∧ Job.status row = PENDING
    ∧ Job.audioFileId row = fileId
    ∧ evs = [JobWrite jobId row; Responded 201 body]
    ∧ get "job" body
      = Some (JObject [("id", JString jobId);
                       ("type", JString (Job.type row));
                       ("status", JString "PENDING")]).
Proof.
  intros w' Htrace Hin.
  pose proof (router_post_upload_run host m w) as Hrun. cbv zeta in Hrun.
  fold w' in Hrun. clearbody w'.
  destruct Hrun
    as [(req & file & -> & Hfile & (Hfree1 & Hfree2 & Hup) & Hw')
       |(evs0 & code & body0 & Htrace0 & Hcode & Hwrites)].
  - rewrite Hw' in Htrace. cbn [trace uploaded_world] in Htrace.
    rewrite <- app_assoc in Htrace. apply app_inv_head in Htrace. subst evs.
    apply elem_of_cons in Hin as [Hin|Hin]; [discriminate|].
    apply list_elem_of_singleton in Hin. injection Hin as ->.
    exists req, file. eexists _, _, _.
    split; [reflexivity|]. split; [exact Hfile|]. split; [exact Hfree1|].
    rewrite Hw'. cbn [db uploaded_world audioFiles jobs].
    split; [apply lookup_insert_eq|]. split; [exact Hfree2|].
    split; [apply lookup_insert_eq|]. split; [reflexivity|]. split; [reflexivity|].
    split; reflexivity.
  - rewrite Htrace0 in Htrace. apply app_inv_head in Htrace. subst evs.
    apply elem_of_app in Hin as [Hin|Hin].
    + apply (proj1 (Forall_forall _ _) Hwrites) in Hin as (? & ? & ?). discriminate.
    + apply list_elem_of_singleton in Hin. congruence.
Qed.

Lemma upload_creates_pending_job_witness :
  ∃ evs body,
    trace (router_post_upload Demo.host (Parsed Demo.slice_without_times) Demo.w0).2
    = (trace Demo.w0 ++ evs)%list
    ∧ Responded 201 body ∈ evs
    ∧ ∃ req file fileId jobId row,
        Parsed Demo.slice_without_times = Parsed req ∧ req_file req = Some file
        ∧ audioFiles (db Demo.w0) !! fileId = None
        ∧ audioFiles
            (db (router_post_upload Demo.host (Parsed Demo.slice_without_times) Demo.w0).2)
            !! fileId = Some (audioFile_row file)
        ∧ jobs (db Demo.w0) !! jobId = None
        ∧ jobs (db (router_post_upload Demo.host (Parsed Demo.slice_without_times) Demo.w0).2)
            !! jobId = Some row
        ∧ Job.status row = PENDING
        ∧ Job.audioFileId row = fileId
        ∧ evs = [JobWrite jobId row; Responded 201 body]
        ∧ get "job" body
          = Some (JObject [("id", JString jobId);
                           ("type", JString (Job.type row));
                           ("status", JString "PENDING")]).
Proof.
  eexists _, _. split; [vm_compute; reflexivity|].
  split; [apply list_elem_of_In; right; left; reflexivity|].
  apply (upload_creates_pending_job Demo.host (Parsed Demo.slice_without_times) Demo.w0).
  - vm_compute; reflexivity.
  - apply list_elem_of_In. right. left. reflexivity.
Defined.

(* ===================================================================== *)
(** * Slice jobs without their times *)
(* ===================================================================== *)

Lemma missing_falsy field : missing field → opt_truthy string_truthy field = false.
Proof. by intros [->| ->]. Qed.

Lemma jobParams_of_slice_missing host b :
  missing (body_startTime b) ∨ missing (body_endTime b) →
  jobParams_of host "slice" b = no_params.
Proof.
  intros Hmiss. unfold jobParams_of. cbn [String.eqb Ascii.eqb Bool.eqb andb].
  destruct Hmiss as [H|H]; rewrite (missing_falsy _ H); [reflexivity|].
  by rewrite andb_false_r.
Qed.

Lemma dispatch_slice_missing host env d af p w :
  jobType d = "slice" →
  startTime d = None ∨ endTime d = None →
  dispatch host env d af p w
  = (Throw (new_Error "Start and end times are required for slicing"), w).
Proof.
  intros Htype Hmiss. unfold dispatch. rewrite Htype.
  cbn [String.eqb Ascii.eqb Bool.eqb].
  destruct Hmiss as [-> | ->]; [reflexivity|]. by destruct (startTime d).
Qed.

Lemma attempt_body_slice_missing host d :
  jobType d = "slice" →
  startTime d = None ∨ endTime d = None →
  ∀ env w, is_Throw (attempt_body host env d w).1.
Proof.
  intros Htype Hmiss env w.
  unfold attempt_body, prisma_audioFile_findUnique, fs_existsSync, mbind, M_bind, gets,
    throw.
  destruct (audioFiles (db w) !! jobAudioFileId d) as [af|]; [|exact I].
  destruct (bool_decide _); cbn [negb]; [|exact I].
  by rewrite dispatch_slice_missing.
Qed.

Lemma final_row_failed_last now j outs :
  outs ≠ [] → Forall is_Throw outs →
  ∃ e, last outs = Some (Throw e)
       ∧ Job.status (final_row now j outs) = FAILED
       ∧ Job.error (final_row now j outs) = Some (message e).
Proof.
  revert j. induction outs as [|out outs IH]; intros j Hne Hall; [done|].
  inversion Hall as [|? ? Hout Hrest]; subst. destruct out as [v|e]; [done|].
  cbn [final_row]. destruct outs as [|out' outs'].
  - exists e. done.
  - destruct (IH (finished now (processing j) (Throw e))) as (e' & Hlast & ? & ?); [done..|].
    exists e'. split; [|done]. exact Hlast.
Qed.

Lemma retried_all_throw n outs :
  retried n outs → Forall is_Throw outs → length outs = n.
Proof.
  revert outs. induction n as [|n IH]; intros [|out outs] Hshape Hall; try done.
  inversion Hall as [|? ? Hout Hrest]; subst. destruct out as [v|e]; [done|].
  cbn [length]. f_equal. by apply IH.
Qed.

(** C7.  An upload with [jobType = slice] that lacks its start or its end
    time is never answered with a 4xx: the one response is 201, or 500 when
    the database or the queue fails.  When they work the answer is 201,
    with the job row created PENDING and the job queued without times.
    Every run the worker then makes of that job throws, and after the third
    the row is FAILED with the message of the error in [error]. *)
Theorem slice_without_times_fails_in_worker host req file w :
  req_file req = Some file →
  body_jobType (req_body req) = Some "slice" →
  missing (body_startTime (req_body req)) ∨ missing (body_endTime (req_body req)) →
  (∃ evs code body,
     trace (router_post_upload host (Parsed req) w).2
     = (trace w ++ evs ++ [Responded code body])%list
     ∧ (code = 201 ∨ code = 500)
     ∧ Forall (λ e, ∃ id row, e = JobWrite id row) evs)
  ∧ (upload_ready w →
     ∃ w' id row body t,
       router_post_upload host (Parsed req) w = (Ok tt, w')
       ∧ trace w' = (trace w ++ [JobWrite id row; Responded 201 body])%list
       ∧ jobs (db w') !! id = Some row ∧ Job.status row = PENDING
       ∧ queue w' = (queue w ++ [t])%list ∧ jobId (task_data t) = id
       ∧ ∀ envs w2 j, jobs (db w2) !! id = Some j →
           ∃ outs w3 e f,
             bull_process host envs (task_attempts t) 0 (task_data t) w2 = (Ok outs, w3)
             ∧ length outs = 3%nat ∧ Forall is_Throw outs ∧ last outs = Some (Throw e)
             ∧ jobs (db w3) !! id = Some f
             ∧ Job.status f = FAILED ∧ Job.error f = Some (message e)).
Proof.
  intros Hfile Htype Hmiss.
  split; [exact (uploadAudio_responses host req file w Hfile)|]. intros Hready.
  exists (uploaded_world host req file w). eexists _, _, _, _.
  split; [by apply router_post_upload_accepted|].
  cbn [trace uploaded_world db jobs queue].
  split; [by rewrite <- app_assoc|]. split; [apply lookup_insert_eq|].
  split; [reflexivity|]. split; [reflexivity|]. split; [reflexivity|].
  cbn [task_data task_attempts]. rewrite Htype.
  change (default "metadata" (Some "slice")) with "slice".
  rewrite (jobParams_of_slice_missing host _ Hmiss).
  cbn [param_outputFormat param_startTime param_endTime no_params].
  set (d := mkJobData _ _ _ _ _ _).
  intros envs w2 j Hj.
  destruct (bull_process_spec host envs d is_Throw
              (attempt_body_slice_missing host d eq_refl (or_introl eq_refl)) 3 0 w2 j Hj)
    as (outs & w3 & Hrun & Hshape & Hall & _ & Hlast & _).
  destruct (final_row_failed_last (clock w2) j outs (retried_nonempty _ _ Hshape) Hall)
    as (e & Hlaste & Hstatus & Herror).
  exists outs, w3, e, (final_row (clock w2) j outs).
  split; [exact Hrun|]. split; [by apply retried_all_throw|]. split; [exact Hall|].
  split; [exact Hlaste|]. split; [exact Hlast|]. split; [exact Hstatus | exact Herror].
Qed.

Lemma slice_without_times_fails_in_worker_witness :
  req_file Demo.slice_without_times = Some Demo.song
  ∧ upload_ready Demo.w0
  ∧ (∃ evs code body,
       trace (router_post_upload Demo.host (Parsed Demo.slice_without_times) Demo.w0).2
       = (trace Demo.w0 ++ evs ++ [Responded code body])%list
       ∧ (code = 201 ∨ code = 500)
       ∧ Forall (λ e, ∃ id row, e = JobWrite id row) evs)
  ∧ (upload_ready Demo.w0 →
     ∃ w' id row body t,
       router_post_upload Demo.host (Parsed Demo.slice_without_times) Demo.w0 = (Ok tt, w')
       ∧ trace w' = (trace Demo.w0 ++ [JobWrite id row; Responded 201 body])%list
       ∧ jobs (db w') !! id = Some row ∧ Job.status row = PENDING
       ∧ queue w' = (queue Demo.w0 ++ [t])%list ∧ jobId (task_data t) = id
       ∧ ∀ envs w2 j, jobs (db w2) !! id = Some j →
           ∃ outs w3 e f,
             bull_process Demo.host envs (task_attempts t) 0 (task_data t) w2 = (Ok outs, w3)
             ∧ length outs = 3%nat ∧ Forall is_Throw outs ∧ last outs = Some (Throw e)
             ∧ jobs (db w3) !! id = Some f
             ∧ Job.status f = FAILED ∧ Job.error f = Some (message e)).
Proof.
  split; [reflexivity|].
  split; [split; [vm_compute; reflexivity | split; vm_compute; reflexivity]|].
  apply (slice_without_times_fails_in_worker Demo.host Demo.slice_without_times
           Demo.song Demo.w0).
  - reflexivity.
  - reflexivity.
  - left. left. reflexivity.
Defined.

(* ===================================================================== *)
(** * Slice jobs from second 0 *)
(* ===================================================================== *)

Lemma number_truthy_zero q : QArith_base.Qeq q (QArith_base.inject_Z 0) → number_truthy (Num q) = false.
Proof.
  unfold QArith_base.Qeq. cbn. intros Hq.
  replace (QArith_base.Qnum q) with 0 by lia. reflexivity.
Qed.

Lemma dispatch_slice_falsy_start host env d af p w st :
  jobType d = "slice" → startTime d = Some st → number_truthy st = false →
  dispatch host env d af p w = (Throw slice_times_required, w).
Proof.
  intros Htype Hst Hfalsy. unfold dispatch. rewrite Htype.
  cbn [String.eqb Ascii.eqb Bool.eqb]. rewrite Hst.
  destruct (endTime d); [|reflexivity]. by rewrite Hfalsy.
Qed.

Lemma attempt_body_slice_falsy_start host env d w st :
  jobType d = "slice" → startTime d = Some st → number_truthy st = false →
  ∃ e, attempt_body host env d w = (Throw e, w)
       ∧ ∀ af, audioFiles (db w) !! jobAudioFileId d = Some af →
               is_Some (disk w !! AudioFile.path af) →
               e = slice_times_required.
Proof.
  intros Htype Hst Hfalsy.
  unfold attempt_body, prisma_audioFile_findUnique, fs_existsSync, mbind, M_bind, gets,
    throw.
  destruct (audioFiles (db w) !! jobAudioFileId d) as [af|].
  2:{ eexists. split; [reflexivity|]. intros af; discriminate. }
  destruct (bool_decide (is_Some (disk w !! AudioFile.path af))) eqn:Hdisk; cbn [negb].
  - rewrite (dispatch_slice_falsy_start _ _ _ _ _ _ _ Htype Hst Hfalsy).
    eexists. split; [reflexivity|]. done.
  - eexists. split; [reflexivity|]. intros af' [= <-] Hsome.
    apply bool_decide_eq_false in Hdisk. done.
Qed.

Section SliceFromZero.
Context (host : Host) (envs : nat → WorkerEnv) (d : JobData) (st : JsNumber).
Hypothesis (Htype : jobType d = "slice").
Hypothesis (Hst : startTime d = Some st).
Hypothesis (Hfalsy : number_truthy st = false).

Lemma bull_process_slice_falsy_start n :
  ∀ made w, is_Some (jobs (db w) !! jobId d) →
    ∃ outs w' evs,
      bull_process host envs n made d w = (Ok outs, w')
      ∧ length outs = n ∧ Forall is_Throw outs
      ∧ trace w' = (trace w ++ evs)%list
      ∧ Forall (λ ev, ∃ row, ev = JobWrite (jobId d) row) evs
      ∧ disk w' = disk w
      ∧ audioFiles (db w') = audioFiles (db w)
      ∧ is_Some (jobs (db w') !! jobId d)
      ∧ (n ≠ 0%nat →
         ∃ e f, last outs = Some (Throw e)
                ∧ jobs (db w') !! jobId d = Some f
                ∧ Job.status f = FAILED
                ∧ Job.error f = Some (message e))
      ∧ (∀ af, reaches_guard d af w → outs = replicate n (Throw slice_times_required)).
Proof.
  induction n as [|n IH]; intros made w Hw.
  { exists [], w, []. cbn. rewrite app_nil_r. done. }
  destruct Hw as [j Hj].
  destruct (processAudioJob_run host (envs made) d w j Hj) as (r & w2 & Hbody & _ & Hrun).
  destruct (attempt_body_slice_falsy_start host (envs made) d
              (write_job (jobId d) (processing j) w) st Htype Hst Hfalsy)
    as (e & Hthrow & Hguard).
  rewrite Hthrow in Hbody. injection Hbody as <- <-.
  set (p := processing j) in *.
  set (f := finished (clock w) p (Throw e)) in *.
  set (w1 := write_job (jobId d) f (write_job (jobId d) p w)) in *.
  assert (Hf : jobs (db w1) !! jobId d = Some f) by apply write_job_lookup.
  destruct (IH (S made) w1 (ex_intro _ f Hf))
    as (outs & w' & evs & Hrest & Hlen & Hall & Htrace & Hevs & Hdisk & Hfiles & Hrow
        & Hfinal & Hmsg).
  exists (Throw e :: outs), w', (JobWrite (jobId d) p :: JobWrite (jobId d) f :: evs).
  rewrite bull_process_S, Hrun, Hrest.
  split; [reflexivity|]. split; [cbn; by rewrite Hlen|]. split; [by constructor|]. split.
  { rewrite Htrace. subst w1. cbn [trace write_job]. by rewrite <- !app_assoc. }
  split; [repeat constructor; eauto|]. split; [exact Hdisk|]. split; [exact Hfiles|].
  split; [exact Hrow|]. split.
  - intros _. destruct n as [|n].
    + destruct outs; [|discriminate]. cbn in Hrest. injection Hrest as <-.
      exists e, f. done.
    + destruct Hfinal as (e' & f' & Hlast & ?); [done|].
      exists e', f'. split; [|done]. destruct outs; [discriminate | exact Hlast].
  - intros af (_ & Hfile & Hpresent). cbn [replicate]. f_equal.
    + f_equal. by apply (Hguard af).
    + apply (Hmsg af). split; [eauto|]. split; [exact Hfile | exact Hpresent].
Qed.
End SliceFromZero.

(** C8.  A slice job that reaches the worker with [startTime = 0] is
    rejected on every run, whatever its end time: [sliceAudio] is not
    entered and FFmpeg is not run (the runs add nothing but writes of the
    job row and leave the disk alone), every run throws, and after the
    third the row is FAILED with the message of the error.  When the audio
    file of the job is there, so that the run reaches the guard of the
    slice case, the error is "Start and end times are required for
    slicing". *)
Theorem slice_from_zero_rejected host envs d q w :
  jobType d = "slice" →
  startTime d = Some (Num q) →
  QArith_base.Qeq q (QArith_base.inject_Z 0) →
  is_Some (jobs (db w) !! jobId d) →
  ∃ outs w' evs e f,
    bull_process host envs 3 0 d w = (Ok outs, w')
    ∧ length outs = 3%nat ∧ Forall is_Throw outs ∧ last outs = Some (Throw e)
    ∧ trace w' = (trace w ++ evs)%list
    ∧ (Enter "sliceAudio" ∉ evs)
    ∧ (∀ args, FfmpegRun args ∉ evs)
    ∧ disk w' = disk w
    ∧ jobs (db w') !! jobId d = Some f
    ∧ Job.status f = FAILED
    ∧ Job.error f = Some (message e)
    ∧ (∀ af, audioFiles (db w) !! jobAudioFileId d = Some af →
             is_Some (disk w !! AudioFile.path af) →
             outs = [Throw slice_times_required; Throw slice_times_required;
                     Throw slice_times_required]
             ∧ Job.error f = Some "Start and end times are required for slicing").
Proof.
  intros Htype Hst Hzero Hj.
  destruct (bull_process_slice_falsy_start host envs d (Num q) Htype Hst
              (number_truthy_zero q Hzero) 3 0 w Hj)
    as (outs & w' & evs & Hrun & Hlen & Hall & Htrace & Hevs & Hdisk & _ & _
        & Hfinal & Hmsg).
  destruct Hfinal as (e & f & Hlast & Hf & Hstatus & Herror); [done|].
  exists outs, w', evs, e, f.
  split; [exact Hrun|]. split; [exact Hlen|]. split; [exact Hall|].
  split; [exact Hlast|]. split; [exact Htrace|].
  split; [|split; [|split; [exact Hdisk|split; [exact Hf|split; [exact Hstatus|split;
    [exact Herror|]]]]]].
  - intros Hin. apply (proj1 (Forall_forall _ _) Hevs) in Hin as [row Hrow]. discriminate.
  - intros args Hin. apply (proj1 (Forall_forall _ _) Hevs) in Hin as [row Hrow].
    discriminate.
  - intros af Hfile Hpresent.
    assert (Houts : outs = replicate 3 (Throw slice_times_required))
      by (apply (Hmsg af); split; [exact Hj | split; [exact Hfile | exact Hpresent]]).
    split; [exact Houts|]. rewrite Herror. subst outs. cbn in Hlast.
    by injection Hlast as <-.
Qed.

Lemma slice_from_zero_rejected_witness :
  queue (Demo.uploaded Demo.slice_from_zero) = [mkTask Demo.zero_data 3 2000]
  ∧ audioFiles (db (Demo.uploaded Demo.slice_from_zero)) !! "id0" = Some Demo.song_row
  ∧ is_Some (disk (Demo.uploaded Demo.slice_from_zero) !! "uploads/song.wav")
  ∧ ∃ outs w' evs e f,
    bull_process Demo.host (λ _, Demo.env) 3 0 Demo.zero_data
      (Demo.uploaded Demo.slice_from_zero) = (Ok outs, w')
    ∧ length outs = 3%nat ∧ Forall is_Throw outs ∧ last outs = Some (Throw e)
    ∧ trace w' = (trace (Demo.uploaded Demo.slice_from_zero) ++ evs)%list
    ∧ (Enter "sliceAudio" ∉ evs)
    ∧ (∀ args, FfmpegRun args ∉ evs)
    ∧ disk w' = disk (Demo.uploaded Demo.slice_from_zero)
    ∧ jobs (db w') !! jobId Demo.zero_data = Some f
    ∧ Job.status f = FAILED
    ∧ Job.error f = Some (message e)
    ∧ (∀ af, audioFiles (db (Demo.uploaded Demo.slice_from_zero))
               !! jobAudioFileId Demo.zero_data = Some af →
             is_Some (disk (Demo.uploaded Demo.slice_from_zero) !! AudioFile.path af) →
             outs = [Throw slice_times_required; Throw slice_times_required;
                     Throw slice_times_required]
             ∧ Job.error f = Some "Start and end times are required for slicing").
Proof.
  split; [vm_compute; reflexivity|].
  split; [vm_compute; reflexivity|].
  split; [exists 5000; vm_compute; reflexivity|].
  apply (slice_from_zero_rejected Demo.host (λ _, Demo.env) Demo.zero_data
           (QArith_base.inject_Z 0)).
  - reflexivity.
  - reflexivity.
  - reflexivity.
  - exists Demo.new_row. vm_compute; reflexivity.
Defined.

(* ===================================================================== *)
(** * Conversion *)
(* ===================================================================== *)

Example convert_to_flac_runs_lame :
  FfmpegRun ["-i"; "song.wav"; "-codec:a"; "libmp3lame"; "-b:a"; "192k"; "-y";
             "song_converted.flac"]
  ∈ trace (Demo.processed Demo.convert_to_flac)
  ∧ is_Some (disk (Demo.processed Demo.convert_to_flac) !! "uploads/song_converted.flac").
Proof.
  split.
  - apply list_elem_of_In. vm_compute. tauto.
  - exists 1000. vm_compute. reflexivity.
Qed.

(** C10.  For every output format asked for, a conversion that finds
    FFmpeg available and its input on disk runs FFmpeg exactly once, with
    the audio codec [libmp3lame] at [192k] and an output file named with
    the asked format as its extension.  The contents of the output file
    are those of this run: when the run succeeds and its output can be
    read, the data that FFmpeg left under that name, encoded with the MP3
    encoder whatever the extension says, are written to disk and the
    result reports the path, the asked format and the size; when FFmpeg
    fails, the conversion throws under "Failed to convert audio: " and
    writes no file. *)
Theorem convertAudio_codec host env ff inputPath outputFormat id n w :
  ffmpegAvailable env = true → ffmpegInstance env = Some ff →
  disk w !! inputPath = Some n →
  let outputFileName :=
    path_basename_ext host inputPath (path_extname host inputPath)
      +:+ "_converted." +:+ outputFormat in
  let outputPath := path_join host (path_dirname host inputPath) outputFileName in
  let args := ["-i"; path_basename host inputPath;
               "-codec:a"; "libmp3lame"; "-b:a"; "192k"; "-y"; outputFileName] in
  ∃ r w',
    convertAudio host env inputPath outputFormat id w = (r, w')
    ∧ trace w' = (trace w ++ [Enter "convertAudio"; FfmpegRun args])%list
    ∧ db w' = db w
    ∧ match run ff args, FS_readFile ff outputFileName with
      | Ok _, Ok size =>
          r = Ok (JObject [
                ("outputPath", JString outputPath);
                ("outputFormat", JString outputFormat);
                ("size", JInt size);
                ("message", JString ("Audio converted to " +:+ toUpperCase outputFormat))])
          ∧ disk w' = <[outputPath := size]> (disk w)
      | Ok _, Throw e | Throw e, _ =>
          r = Throw (new_Error ("Failed to convert audio: " +:+ message e))
          ∧ disk w' = disk w
      end.
Proof.
  intros Havail Hinst Hinput outputFileName outputPath args.
  unfold convertAudio. rewrite Havail, Hinst.
  unfold ffmpeg_transcode, fs_readFileSync, fs_statSync_size, fs_writeFileSync,
    try_catch, lift, mbind, M_bind, mret, M_ret, emit, modify, throw, with_disk.
  fold outputFileName. fold outputPath. fold args. cbn. rewrite Hinput. cbn.
  destruct (run ff args) as [[]|e1]; cbn;
    [|eexists _, _; split; [reflexivity|]; split; [by rewrite <- app_assoc|]; done].
  destruct (FS_readFile ff outputFileName) as [size|e2]; cbn;
    [|eexists _, _; split; [reflexivity|]; split; [by rewrite <- app_assoc|]; done].
  assert (Hwritten : <[outputPath:=size]> (disk w) !! outputPath = Some size)
    by apply lookup_insert_eq.
  rewrite Hwritten.
  eexists _, _. split; [reflexivity|]. split; [by rewrite <- app_assoc|]. done.
Qed.

Lemma convertAudio_codec_witness :
  disk Demo.w0 !! "uploads/song.wav" = Some 5000
  ∧ ∃ w',
    convertAudio Demo.host Demo.env "uploads/song.wav" "flac" "id1" Demo.w0
    = (Ok (JObject [
             ("outputPath", JString "uploads/song_converted.flac");
             ("outputFormat", JString "flac");
             ("size", JInt 1000);
             ("message", JString "Audio converted to FLAC")]), w')
    ∧ trace w'
      = (trace Demo.w0
         ++ [Enter "convertAudio";
             FfmpegRun ["-i"; "song.wav"; "-codec:a"; "libmp3lame"; "-b:a"; "192k"; "-y";
                        "song_converted.flac"]])%list
    ∧ disk w' = <["uploads/song_converted.flac" := 1000]> (disk Demo.w0).
Proof.
  assert (Hinput : disk Demo.w0 !! "uploads/song.wav" = Some 5000)
    by (vm_compute; reflexivity).
  split; [exact Hinput|].
  destruct (convertAudio_codec Demo.host Demo.env Demo.ffmpeg "uploads/song.wav" "flac"
              "id1" 5000 Demo.w0 eq_refl eq_refl Hinput)
    as (r & w' & Hrun & Htrace & _ & Hr & Hdisk).
  exists w'. split; [by rewrite Hrun, Hr|]. split; [exact Htrace | exact Hdisk].
Defined.

(* ===================================================================== *)
(** * What a run of the worker leaves alone *)
(* ===================================================================== *)

Lemma keeps_files_step_trans w1 w2 w3 :
  keeps_files_step w1 w2 → keeps_files_step w2 w3 → keeps_files_step w1 w3.
Proof. intros H1 H2 p Hp. by apply H2, H1. Qed.

Lemma keeps_files_same {A} (m : M A) :
  (∀ w, disk (m w).2 = disk w) → keeps_files m.
Proof. intros H w p Hp. by rewrite H. Qed.

Lemma keeps_files_bind {A B} (m : M A) (f : A → M B) :
  keeps_files m → (∀ a, keeps_files (f a)) → keeps_files (m ≫= f).
Proof.
  intros Hm Hf w. unfold mbind, M_bind. specialize (Hm w).
  destruct (m w) as [[a|e] w1]; simpl in *; [|done].
  eapply keeps_files_step_trans; [exact Hm | apply Hf].
Qed.

Lemma keeps_files_try_catch {A} (m : M A) (h : Error → M A) :
  keeps_files m → (∀ e, keeps_files (h e)) → keeps_files (try_catch m h).
Proof.
  intros Hm Hh w. unfold try_catch. specialize (Hm w).
  destruct (m w) as [[a|e] w1]; simpl in *; [done|].
  eapply keeps_files_step_trans; [exact Hm | apply Hh].
Qed.

Lemma keeps_files_ret {A} (a : A) : keeps_files (mret a).
Proof. by apply keeps_files_same. Qed.

Lemma keeps_files_throw {A} e : keeps_files (@throw A e).
Proof. by apply keeps_files_same. Qed.

Lemma keeps_files_lift {A} (r : Result A) : keeps_files (lift r).
Proof. by apply keeps_files_same. Qed.

Lemma keeps_files_gets {A} (f : World → A) : keeps_files (gets f).
Proof. by apply keeps_files_same. Qed.

Lemma keeps_files_emit e : keeps_files (emit e).
Proof. by apply keeps_files_same. Qed.

Lemma keeps_files_fs_statSync_size p : keeps_files (fs_statSync_size p).
Proof.
  apply keeps_files_same. intros w. unfold fs_statSync_size. by destruct (disk w !! p).
Qed.

Lemma keeps_files_fs_writeFileSync p n : keeps_files (fs_writeFileSync p n).
Proof.
  intros w q Hq. simpl. destruct (decide (p = q)) as [->|Hne].
  - rewrite lookup_insert_eq. eauto.
  - by rewrite lookup_insert_ne.
Qed.

Ltac keeps_files_tac :=
  repeat first
    [ apply keeps_files_ret | apply keeps_files_throw | apply keeps_files_lift
    | apply keeps_files_gets | apply keeps_files_emit
    | apply keeps_files_fs_statSync_size | apply keeps_files_fs_writeFileSync
    | apply keeps_files_bind; [|intros ?]
    | apply keeps_files_try_catch; [|intros ?]
    | match goal with
      | |- keeps_files (if ?b then _ else _) => destruct b
      | |- keeps_files (match ?x with _ => _ end) => destruct x
      end ].

Lemma keeps_files_attempt_body host env d : keeps_files (attempt_body host env d).
Proof.
  unfold attempt_body, prisma_audioFile_findUnique, fs_existsSync, dispatch,
    extractMetadata, getAudioInfo, convertAudio, sliceAudio, generateWaveform,
    ffmpeg_transcode, fs_readFileSync.
  keeps_files_tac.
Qed.

Lemma prisma_job_update_absent id d w :
  jobs (db w) !! id = None → prisma_job_update id d w = (Throw P2025, w).
Proof.
  intros Hj. unfold prisma_job_update, mbind, M_bind, gets. by rewrite Hj.
Qed.

Lemma processAudioJob_no_row host env d w :
  jobs (db w) !! jobId d = None →
  processAudioJob host env d w = (Throw P2025, w).
Proof.
  intros Hj. unfold processAudioJob, try_catch.
  unfold mbind at 1. unfold M_bind at 1.
  rewrite (prisma_job_update_absent _ _ _ Hj).
  unfold mbind, M_bind. by rewrite (prisma_job_update_absent _ _ _ Hj).
Qed.

(** X1.  A run of the worker touches one row only: it creates and deletes
    no job row, leaves the rows of all other jobs, the audio file rows and
    the queue as they were, keeps the audio file and the type of its own
    row, and removes no file from the disk. *)
Theorem processAudioJob_preserves host env d w :
  let w' := (processAudioJob host env d w).2 in
  audioFiles (db w') = audioFiles (db w)
  ∧ dom (jobs (db w')) = dom (jobs (db w))
  ∧ (∀ k, k ≠ jobId d → jobs (db w') !! k = jobs (db w) !! k)
  ∧ (∀ j, jobs (db w) !! jobId d = Some j →
       ∃ j', jobs (db w') !! jobId d = Some j'
             ∧ Job.audioFileId j' = Job.audioFileId j ∧ Job.type j' = Job.type j)
  ∧ queue w' = queue w
  ∧ (∀ p, is_Some (disk w !! p) → is_Some (disk w' !! p)).
Proof.
  intros w'. subst w'.
  destruct (jobs (db w) !! jobId d) as [j|] eqn:Hj.
  2:{ rewrite (processAudioJob_no_row _ _ _ _ Hj). cbn [snd].
      by repeat split. }
  destruct (processAudioJob_run host env d w j Hj) as (r & w2 & Hbody & Hq & Hrun).
  rewrite Hrun. cbn [snd].
  pose proof (keeps_files_attempt_body host env d (write_job (jobId d) (processing j) w))
    as Hkeep.
  rewrite Hbody in Hkeep. cbn [snd] in Hkeep.
  assert (Hjobs : jobs (db (write_job (jobId d) (finished (clock w) (processing j) r) w2))
                  = <[jobId d := finished (clock w) (processing j) r]> (jobs (db w))).
  { cbn. rewrite (qs_db _ _ Hq). cbn. apply insert_insert_eq. }
  split; [cbn; by rewrite (qs_db _ _ Hq)|].
  rewrite Hjobs. split; [|split; [|split; [|split]]].
  - rewrite dom_insert_L. apply elem_of_dom_2 in Hj.
    apply set_eq. intros k. rewrite elem_of_union, elem_of_singleton.
    split; [intros [->|?]; done | by right].
  - intros k Hk. by rewrite lookup_insert_ne.
  - intros j0 [= <-]. eexists. split; [apply lookup_insert_eq|]. by destruct r.
  - cbn. by rewrite (qs_queue _ _ Hq).
  - intros p Hp. cbn. by apply Hkeep.
Qed.

(** X2.  When the row of a job is gone (the job was deleted while it was
    queued), every run of it throws the ORM's P2025 out of the [catch]
    block, and the runs change nothing: no row is written, no file is
    touched, FFmpeg is not run. *)
Theorem bull_process_deleted_job host envs d w n made :
  jobs (db w) !! jobId d = None →
  bull_process host envs n made d w = (Ok (replicate n (Throw P2025)), w).
Proof.
  intros Hj. revert made. induction n as [|n IH]; intros made; [reflexivity|].
  rewrite bull_process_S, (processAudioJob_no_row _ _ _ _ Hj), IH. reflexivity.
Qed.

Lemma bull_process_deleted_job_witness :
  jobs (db Demo.w0) !! jobId Demo.slice_data = None
  ∧ bull_process Demo.host (λ _, Demo.env) 3 0 Demo.slice_data Demo.w0
    = (Ok (replicate 3 (Throw P2025)), Demo.w0).
Proof.
  split; [vm_compute; reflexivity|].
  apply (bull_process_deleted_job Demo.host (λ _, Demo.env) Demo.slice_data Demo.w0 3 0).
  vm_compute; reflexivity.
Defined.

(* ===================================================================== *)
(** * Jobs that a guard rejects *)
(* ===================================================================== *)

Section GuardRejected.
Context (host : Host) (envs : nat → WorkerEnv) (d : JobData) (e0 : Error).
Hypothesis Hrejected :
  ∀ env w, ∃ e, attempt_body host env d w = (Throw e, w)
                ∧ ∀ af, audioFiles (db w) !! jobAudioFileId d = Some af →
                        is_Some (disk w !! AudioFile.path af) → e = e0.

Lemma bull_process_rejected n :
  ∀ made w, is_Some (jobs (db w) !! jobId d) →
    ∃ outs w' evs,
      bull_process host envs n made d w = (Ok outs, w')
      ∧ length outs = n ∧ Forall is_Throw outs
      ∧ trace w' = (trace w ++ evs)%list
      ∧ Forall (λ ev, ∃ row, ev = JobWrite (jobId d) row) evs
      ∧ disk w' = disk w
      ∧ (n ≠ 0%nat →
         ∃ e f, last outs = Some (Throw e)
                ∧ jobs (db w') !! jobId d = Some f
                ∧ Job.status f = FAILED
                ∧ Job.error f = Some (message e))
      ∧ (∀ af, reaches_guard d af w → outs = replicate n (Throw e0)).
Proof.
  induction n as [|n IH]; intros made w Hw.
  { exists [], w, []. cbn. rewrite app_nil_r. done. }
  destruct Hw as [j Hj].
  destruct (processAudioJob_run host (envs made) d w j Hj) as (r & w2 & Hbody & _ & Hrun).
  destruct (Hrejected (envs made) (write_job (jobId d) (processing j) w))
    as (e & Hthrow & Hguard).
  rewrite Hthrow in Hbody. injection Hbody as <- <-.
  set (p := processing j) in *.
  set (f := finished (clock w) p (Throw e)) in *.
  set (w1 := write_job (jobId d) f (write_job (jobId d) p w)) in *.
  assert (Hf : jobs (db w1) !! jobId d = Some f) by apply write_job_lookup.
  destruct (IH (S made) w1 (ex_intro _ f Hf))
    as (outs & w' & evs & Hrest & Hlen & Hall & Htrace & Hevs & Hdisk & Hfinal & Hmsg).
  exists (Throw e :: outs), w', (JobWrite (jobId d) p :: JobWrite (jobId d) f :: evs).
  rewrite bull_process_S, Hrun, Hrest.
  split; [reflexivity|]. split; [cbn; by rewrite Hlen|]. split; [by constructor|]. split.
  { rewrite Htrace. subst w1. cbn [trace write_job]. by rewrite <- !app_assoc. }
  split; [repeat constructor; eauto|]. split; [exact Hdisk|]. split.
  - intros _. destruct n as [|n].
    + destruct outs; [|discriminate]. cbn in Hrest. injection Hrest as <-.
      exists e, f. done.
    + destruct Hfinal as (e' & f' & Hlast & ?); [done|].
      exists e', f'. split; [|done]. destruct outs; [discriminate | exact Hlast].
  - intros af (_ & Hfile & Hpresent). cbn [replicate]. f_equal.
    + f_equal. by apply (Hguard af).
    + apply (Hmsg af). split; [eauto|]. split; [exact Hfile | exact Hpresent].
Qed.
End GuardRejected.

Lemma attempt_body_convert_no_format host d :
  jobType d = "convert" → opt_truthy string_truthy (outputFormat d) = false →
  ∀ env w, ∃ e, attempt_body host env d w = (Throw e, w)
                ∧ ∀ af, audioFiles (db w) !! jobAudioFileId d = Some af →
                        is_Some (disk w !! AudioFile.path af) → e = format_required.
Proof.
  intros Htype Hfmt env w.
  unfold attempt_body, prisma_audioFile_findUnique, fs_existsSync, mbind, M_bind, gets,
    throw.
  destruct (audioFiles (db w) !! jobAudioFileId d) as [af|].
  2:{ eexists. split; [reflexivity|]. intros af; discriminate. }
  destruct (bool_decide (is_Some (disk w !! AudioFile.path af))) eqn:Hdisk; cbn [negb].
  - unfold dispatch. rewrite Htype. cbn [String.eqb Ascii.eqb Bool.eqb].
    destruct (outputFormat d) as [fmt|]; cbn in Hfmt; [rewrite Hfmt|];
      (eexists; split; [reflexivity|]; done).
  - eexists. split; [reflexivity|]. intros af' [= <-] Hsome.
    apply bool_decide_eq_false in Hdisk. done.
Qed.

Lemma jobParams_of_convert_missing host b :
  missing (body_outputFormat b) → jobParams_of host "convert" b = no_params.
Proof.
  intros Hmiss. unfold jobParams_of. rewrite (missing_falsy _ Hmiss). reflexivity.
Qed.

(** X3.  An upload with [jobType = convert] that lacks its output format is
    accepted with 201 and queued without a format.  Every run of the job
    then throws without entering [convertAudio] or running FFmpeg and
    without touching the disk; after the third run the row is FAILED, with
    the error "Output format is required for conversion" when the audio
    file is there. *)
Theorem convert_without_format_fails_in_worker host req file w :
  req_file req = Some file →
  body_jobType (req_body req) = Some "convert" →
  missing (body_outputFormat (req_body req)) →
  upload_ready w →
  ∃ w' id row body t,
    router_post_upload host (Parsed req) w = (Ok tt, w')
    ∧ trace w' = (trace w ++ [JobWrite id row; Responded 201 body])%list
    ∧ queue w' = (queue w ++ [t])%list
    ∧ jobId (task_data t) = id ∧ outputFormat (task_data t) = None
    ∧ ∀ envs w2, is_Some (jobs (db w2) !! id) →
        ∃ outs w3 evs e f,
          bull_process host envs (task_attempts t) 0 (task_data t) w2 = (Ok outs, w3)
          ∧ length outs = 3%nat ∧ Forall is_Throw outs ∧ last outs = Some (Throw e)
          ∧ trace w3 = (trace w2 ++ evs)%list
          ∧ (Enter "convertAudio" ∉ evs)
          ∧ (∀ args, FfmpegRun args ∉ evs)
          ∧ disk w3 = disk w2
          ∧ jobs (db w3) !! id = Some f
          ∧ Job.status f = FAILED ∧ Job.error f = Some (message e)
          ∧ (∀ af, audioFiles (db w2) !! jobAudioFileId (task_data t) = Some af →
                   is_Some (disk w2 !! AudioFile.path af) →
                   Job.error f = Some "Output format is required for conversion").
Proof.
  intros Hfile Htype Hmiss Hready.
  exists (uploaded_world host req file w). eexists _, _, _, _.
  split; [by apply router_post_upload_accepted|].
  cbn [trace uploaded_world db jobs queue].
  split; [by rewrite <- app_assoc|]. split; [reflexivity|].
  cbn [task_data task_attempts jobId outputFormat]. rewrite Htype.
  change (default "metadata" (Some "convert")) with "convert".
  rewrite (jobParams_of_convert_missing host _ Hmiss).
  cbn [param_outputFormat param_startTime param_endTime no_params].
  split; [reflexivity|]. split; [reflexivity|].
  set (d := mkJobData _ _ _ _ _ _).
  intros envs w2 Hj.
  destruct (bull_process_rejected host envs d format_required
              (attempt_body_convert_no_format host d eq_refl eq_refl) 3 0 w2 Hj)
    as (outs & w3 & evs & Hrun & Hlen & Hall & Htrace & Hevs & Hdisk & Hfinal & Hmsg).
  destruct Hfinal as (e & f & Hlast & Hf & Hstatus & Herror); [done|].
  exists outs, w3, evs, e, f.
  split; [exact Hrun|]. split; [exact Hlen|]. split; [exact Hall|].
  split; [exact Hlast|]. split; [exact Htrace|].
  split; [|split; [|split; [exact Hdisk|split; [exact Hf|split; [exact Hstatus|split;
    [exact Herror|]]]]]].
  - intros Hin. apply (proj1 (Forall_forall _ _) Hevs) in Hin as [row Hrow]. discriminate.
  - intros args Hin. apply (proj1 (Forall_forall _ _) Hevs) in Hin as [row Hrow].
    discriminate.
  - intros af Hfile' Hpresent.
    assert (Houts : outs = replicate 3 (Throw format_required))
      by (apply (Hmsg af); split; [exact Hj | split; [exact Hfile' | exact Hpresent]]).
    rewrite Herror. subst outs. cbn in Hlast. by injection Hlast as <-.
Qed.

Lemma convert_without_format_fails_in_worker_witness :
  upload_ready Demo.w0
  ∧ ∃ w' id row body t,
    router_post_upload Demo.host (Parsed Scenario.convert_without_format) Demo.w0
    = (Ok tt, w')
    ∧ trace w' = (trace Demo.w0 ++ [JobWrite id row; Responded 201 body])%list
    ∧ queue w' = (queue Demo.w0 ++ [t])%list
    ∧ jobId (task_data t) = id ∧ outputFormat (task_data t) = None
    ∧ ∀ envs w2, is_Some (jobs (db w2) !! id) →
        ∃ outs w3 evs e f,
          bull_process Demo.host envs (task_attempts t) 0 (task_data t) w2 = (Ok outs, w3)
          ∧ length outs = 3%nat ∧ Forall is_Throw outs ∧ last outs = Some (Throw e)
          ∧ trace w3 = (trace w2 ++ evs)%list
          ∧ (Enter "convertAudio" ∉ evs)
          ∧ (∀ args, FfmpegRun args ∉ evs)
          ∧ disk w3 = disk w2
          ∧ jobs (db w3) !! id = Some f
          ∧ Job.status f = FAILED ∧ Job.error f = Some (message e)
          ∧ (∀ af, audioFiles (db w2) !! jobAudioFileId (task_data t) = Some af →
                   is_Some (disk w2 !! AudioFile.path af) →
                   Job.error f = Some "Output format is required for conversion").
Proof.
  split; [split; [vm_compute; reflexivity | split; vm_compute; reflexivity]|].
  apply (convert_without_format_fails_in_worker Demo.host Scenario.convert_without_format
           Demo.song Demo.w0).
  - reflexivity.
  - reflexivity.
  - left. reflexivity.
  - split; [vm_compute; reflexivity | split; vm_compute; reflexivity].
Defined.

(* ===================================================================== *)
(** * Jobs and FFmpeg *)
(* ===================================================================== *)

Lemma ffmpeg_missing_match {A} env (yes : FFmpeg → A) (no : A) :
  ffmpeg_missing env →
  match ffmpegAvailable env, ffmpegInstance env with
  | true, Some ff => yes ff
  | _, _ => no
  end = no.
Proof. intros [H|H]; rewrite H; [done|]. by destruct (ffmpegAvailable env). Qed.

Lemma dispatch_without_ffmpeg host env d af p w :
  needs_ffmpeg d → ffmpeg_missing env →
  ∃ fn, dispatch host env d af p w = (Throw ffmpeg_unavailable, (emit (Enter fn) w).2).
Proof.
  intros Hneeds Hmissing. unfold dispatch.
  destruct Hneeds as [[Htype Hfmt]|[(Htype & Hst & Het)|Htype]]; rewrite Htype;
    cbn [String.eqb Ascii.eqb Bool.eqb].
  - destruct (outputFormat d) as [fmt|]; [|discriminate]. cbn in Hfmt. rewrite Hfmt.
    exists "convertAudio". unfold convertAudio.
    rewrite (ffmpeg_missing_match env _ _ Hmissing). reflexivity.
  - destruct (startTime d) as [st|]; [|discriminate].
    destruct (endTime d) as [et|]; [|discriminate]. cbn in Hst, Het.
    rewrite Hst, Het. cbn [negb orb].
    exists "sliceAudio". unfold sliceAudio.
    rewrite (ffmpeg_missing_match env _ _ Hmissing). reflexivity.
  - exists "generateWaveform". unfold generateWaveform.
    rewrite (ffmpeg_missing_match env _ _ Hmissing). reflexivity.
Qed.

Lemma attempt_body_reaches_dispatch host env d af w :
  audioFiles (db w) !! jobAudioFileId d = Some af →
  is_Some (disk w !! AudioFile.path af) →
  attempt_body host env d w = dispatch host env d af (AudioFile.path af) w.
Proof.
  intros Hfile Hdisk.
  unfold attempt_body, prisma_audioFile_findUnique, fs_existsSync, mbind, M_bind, gets.
  rewrite Hfile. by rewrite bool_decide_eq_true_2.
Qed.

(** X4.  While FFmpeg is not available, a run of a conversion, a slice or a
    waveform job whose audio file is there throws "FFmpeg is not available.
    Please ensure FFmpeg is initialized." and leaves the row FAILED with
    that message; FFmpeg is not run and the disk is not touched. *)
Theorem job_without_ffmpeg_fails host env d af w :
  reaches_guard d af w → needs_ffmpeg d → ffmpeg_missing env →
  ∃ w' evs f,
    processAudioJob host env d w = (Throw ffmpeg_unavailable, w')
    ∧ trace w' = (trace w ++ evs)%list
    ∧ (∀ args, FfmpegRun args ∉ evs)
    ∧ disk w' = disk w
    ∧ jobs (db w') !! jobId d = Some f
    ∧ Job.status f = FAILED
    ∧ Job.error f = Some "FFmpeg is not available. Please ensure FFmpeg is initialized.".
Proof.
  intros ([j Hj] & Hfile & Hdisk) Hneeds Hmissing.
  destruct (processAudioJob_run host env d w j Hj) as (r & w2 & Hbody & _ & Hrun).
  rewrite attempt_body_reaches_dispatch with (af := af) in Hbody by done.
  destruct (dispatch_without_ffmpeg host env d af (AudioFile.path af)
              (write_job (jobId d) (processing j) w) Hneeds Hmissing) as [fn Hfn].
  rewrite Hfn in Hbody. injection Hbody as <- <-.
  eexists _, [_; _; _], _. split; [exact Hrun|].
  split; [cbn; by rewrite <- !app_assoc|].
  split; [|split; [reflexivity|split; [apply lookup_insert_eq|done]]].
  intros args Hin. apply list_elem_of_In in Hin.
  cbn in Hin. destruct Hin as [|[|[|[]]]]; discriminate.
Qed.

Lemma job_without_ffmpeg_fails_witness :
  reaches_guard Scenario.waveform_data Demo.song_row Demo.shared
  ∧ ∃ w' evs f,
    processAudioJob Demo.host Scenario.no_ffmpeg Scenario.waveform_data Demo.shared
    = (Throw ffmpeg_unavailable, w')
    ∧ trace w' = (trace Demo.shared ++ evs)%list
    ∧ (∀ args, FfmpegRun args ∉ evs)
    ∧ disk w' = disk Demo.shared
    ∧ jobs (db w') !! jobId Scenario.waveform_data = Some f
    ∧ Job.status f = FAILED
    ∧ Job.error f = Some "FFmpeg is not available. Please ensure FFmpeg is initialized.".
Proof.
  assert (Hreach : reaches_guard Scenario.waveform_data Demo.song_row Demo.shared).
  { split; [exists Demo.sibling_row; vm_compute; reflexivity|].
    split; [vm_compute; reflexivity | exists 5000; vm_compute; reflexivity]. }
  split; [exact Hreach|].
  apply (job_without_ffmpeg_fails Demo.host Scenario.no_ffmpeg Scenario.waveform_data
           Demo.song_row Demo.shared Hreach).
  - right. right. reflexivity.
  - left. reflexivity.
Defined.

Lemma extractMetadata_present env p n w :
  disk w !! p = Some n →
  ∃ r, extractMetadata env p w = (r, w)
       ∧ match mm_parseFile env p with
         | Ok _ => ∃ fields, r = Ok (JObject fields)
                             ∧ obj_get "size" fields = Some (JInt n)
         | Throw e => r = Throw e
         end.
Proof.
  intros Hp. unfold extractMetadata, try_catch, lift, fs_statSync_size, mbind, M_bind,
    mret, M_ret, throw.
  destruct (mm_parseFile env p) as [md|e]; [|eauto].
  rewrite Hp. eexists. split; [reflexivity|]. eexists. split; reflexivity.
Qed.

Lemma getAudioInfo_still host env p w :
  ∃ r, getAudioInfo host env p w = (r, w).
Proof.
  unfold getAudioInfo, try_catch, lift, mbind, M_bind, mret, M_ret, throw.
  destruct (mm_parseFile env p); eauto.
Qed.

Lemma dispatch_metadata_only host env d af n w :
  metadata_only d → disk w !! AudioFile.path af = Some n →
  ∃ r, dispatch host env d af (AudioFile.path af) w = (r, w)
       ∧ match mm_parseFile env (AudioFile.path af) with
         | Ok _ => ∃ v, r = Ok v
         | Throw e => r = Throw e
         end.
Proof.
  intros (Hc & Hs & Hw) Hdisk. unfold dispatch.
  apply String.eqb_neq in Hc, Hs, Hw. rewrite Hc, Hs, Hw.
  destruct (extractMetadata_present env (AudioFile.path af) n w Hdisk) as (r0 & Hext & Hr0).
  destruct (getAudioInfo_still host env (AudioFile.path af) w) as (ri & Hinfo).
  destruct (String.eqb (jobType d) "metadata"), (String.eqb (jobType d) "analyze");
    unfold try_catch, mbind, M_bind, mret, M_ret; rewrite ?Hext;
    (destruct (mm_parseFile env (AudioFile.path af)) as [md|e];
     [destruct Hr0 as (fields & -> & _) | subst r0; eauto]);
    try (destruct (ffmpegAvailable env); [rewrite Hinfo; destruct ri|]); eauto.
Qed.

(** X5.  A metadata or analyze job, and a job of any type the [switch] does
    not name, needs no FFmpeg: when its audio file is there, its run
    completes exactly when music-metadata parses the file, with or without
    FFmpeg, and fails with the parser's error otherwise.  The run writes
    the job row twice and does nothing else. *)
Theorem metadata_job_outcome host env d af j n w :
  jobs (db w) !! jobId d = Some j →
  audioFiles (db w) !! jobAudioFileId d = Some af →
  disk w !! AudioFile.path af = Some n →
  metadata_only d →
  ∃ r w' f,
    processAudioJob host env d w = (r, w')
    ∧ trace w' = (trace w ++ [JobWrite (jobId d) (processing j); JobWrite (jobId d) f])%list
    ∧ disk w' = disk w
    ∧ jobs (db w') !! jobId d = Some f
    ∧ match mm_parseFile env (AudioFile.path af) with
      | Ok _ => ∃ v, r = Ok v ∧ Job.status f = COMPLETED ∧ Job.progress f = 100
                     ∧ Job.result f = Some (JSON_stringify v)
      | Throw e => r = Throw e ∧ Job.status f = FAILED ∧ Job.error f = Some (message e)
      end.
Proof.
  intros Hj Hfile Hdisk Hmeta.
  destruct (processAudioJob_run host env d w j Hj) as (r & w2 & Hbody & _ & Hrun).
  rewrite attempt_body_reaches_dispatch with (af := af) in Hbody by (cbn; eauto).
  destruct (dispatch_metadata_only host env d af n
              (write_job (jobId d) (processing j) w) Hmeta Hdisk) as (r' & Hd & Hr').
  rewrite Hd in Hbody. injection Hbody as <- <-.
  eexists _, _, _. split; [exact Hrun|].
  split; [cbn; by rewrite <- app_assoc|]. split; [reflexivity|].
  split; [apply lookup_insert_eq|].
  destruct (mm_parseFile env (AudioFile.path af)) as [md|e].
  - destruct Hr' as [v ->]. exists v. done.
  - subst r'. done.
Qed.

Lemma metadata_job_outcome_witness :
  metadata_only Scenario.metadata_data
  ∧ ∃ r w' f,
    processAudioJob Demo.host Demo.env Scenario.metadata_data Demo.shared = (r, w')
    ∧ trace w' = (trace Demo.shared
                  ++ [JobWrite (jobId Scenario.metadata_data) (processing Demo.sibling_row);
                      JobWrite (jobId Scenario.metadata_data) f])%list
    ∧ disk w' = disk Demo.shared
    ∧ jobs (db w') !! jobId Scenario.metadata_data = Some f
    ∧ match mm_parseFile Demo.env (AudioFile.path Demo.song_row) with
      | Ok _ => ∃ v, r = Ok v ∧ Job.status f = COMPLETED ∧ Job.progress f = 100
                     ∧ Job.result f = Some (JSON_stringify v)
      | Throw e => r = Throw e ∧ Job.status f = FAILED ∧ Job.error f = Some (message e)
      end.
Proof.
  assert (Hmeta : metadata_only Scenario.metadata_data) by (repeat split; discriminate).
  split; [exact Hmeta|].
  apply (metadata_job_outcome Demo.host Demo.env Scenario.metadata_data Demo.song_row
           Demo.sibling_row 5000 Demo.shared).
  - vm_compute; reflexivity.
  - vm_compute; reflexivity.
  - vm_compute; reflexivity.
  - exact Hmeta.
Defined.

(* ===================================================================== *)
(** * The FFmpeg-backed operations *)
(* ===================================================================== *)

Lemma ffmpeg_transcode_disk ff inputPath outputFileName outputPath args w :
  match (ffmpeg_transcode ff inputPath outputFileName outputPath args w).1 with
  | Ok n => disk (ffmpeg_transcode ff inputPath outputFileName outputPath args w).2
            = <[outputPath := n]> (disk w)
            ∧ FS_readFile ff outputFileName = Ok n
            ∧ run ff args = Ok tt
            ∧ is_Some (disk w !! inputPath)
  | Throw _ => disk (ffmpeg_transcode ff inputPath outputFileName outputPath args w).2
               = disk w
  end.
Proof.
  unfold ffmpeg_transcode, fs_readFileSync, fs_statSync_size, fs_writeFileSync, lift,
    mbind, M_bind, emit, modify, with_disk. cbn.
  destruct (disk w !! inputPath); cbn; [|done].
  destruct (run ff args) as [[]|]; cbn; [|done].
  destruct (FS_readFile ff outputFileName) as [n|]; cbn; [|done].
  assert (Hwritten : <[outputPath:=n]> (disk w) !! outputPath = Some n)
    by apply lookup_insert_eq.
  rewrite Hwritten. cbn. eauto.
Qed.

Lemma transcode_try_outcome prefix ff inputPath outputFileName outputPath args
    (mk : Z → Json) w :
  (∀ n, get "outputPath" (mk n) = Some (JString outputPath)
        ∧ get "size" (mk n) = Some (JInt n)) →
  let m := try_catch
             (size ← ffmpeg_transcode ff inputPath outputFileName outputPath args;
              mret (mk size))
             (λ error, throw (new_Error (prefix +:+ message error))) in
  transcode_outcome prefix (m w).1 w (m w).2.
Proof.
  intros Hmk m. subst m.
  pose proof (ffmpeg_transcode_disk ff inputPath outputFileName outputPath args w) as Hdisk.
  assert (Hq : quiet (ffmpeg_transcode ff inputPath outputFileName outputPath args)).
  { unfold ffmpeg_transcode, fs_readFileSync. quiet_tac. }
  specialize (Hq w).
  unfold try_catch, mbind, M_bind, mret, M_ret, throw.
  destruct (ffmpeg_transcode ff inputPath outputFileName outputPath args w) as [[n|e] w1];
    cbn in *.
  - split; [apply (qs_db _ _ Hq)|]. split; [apply (qs_queue _ _ Hq)|].
    exists outputPath, n. destruct (Hmk n) as [? ?]. destruct Hdisk as (? & _). done.
  - split; [apply (qs_db _ _ Hq)|]. split; [apply (qs_queue _ _ Hq)|].
    split; [exact Hdisk|]. right. eauto.
Qed.

Lemma transcode_outcome_after_emit prefix ev r w w' :
  transcode_outcome prefix r (emit ev w).2 w' → transcode_outcome prefix r w w'.
Proof. done. Qed.

(** X6.  The three FFmpeg-backed operations are all-or-nothing on the disk:
    when one returns, the output file named in its result has been written
    with the size the result reports and no other file has changed; when
    one throws, the disk is as it was and the error is either "FFmpeg is
    not available" or the cause prefixed with "Failed to convert audio: ",
    "Failed to slice audio: " or "Failed to generate waveform: ".  None of
    them touches the database or the queue. *)
Theorem ffmpeg_operations_all_or_nothing host env inputPath id w :
  (∀ outputFormat,
     transcode_outcome "Failed to convert audio: "
       (convertAudio host env inputPath outputFormat id w).1 w
       (convertAudio host env inputPath outputFormat id w).2)
  ∧ (∀ startTime endTime,
       transcode_outcome "Failed to slice audio: "
         (sliceAudio host env inputPath startTime endTime id w).1 w
         (sliceAudio host env inputPath startTime endTime id w).2)
  ∧ transcode_outcome "Failed to generate waveform: "
      (generateWaveform host env inputPath id w).1 w
      (generateWaveform host env inputPath id w).2.
Proof.
  split; [|split]; intros.
  - unfold convertAudio. erewrite bind_Ok; [|reflexivity].
    apply (transcode_outcome_after_emit _ (Enter "convertAudio")).
    destruct (ffmpegAvailable env), (ffmpegInstance env) as [ff|];
      [apply transcode_try_outcome; intros n; split; reflexivity
      | repeat split; by left ..].
  - unfold sliceAudio. erewrite bind_Ok; [|reflexivity].
    apply (transcode_outcome_after_emit _ (Enter "sliceAudio")).
    destruct (ffmpegAvailable env), (ffmpegInstance env) as [ff|];
      [apply transcode_try_outcome; intros n; split; reflexivity
      | repeat split; by left ..].
  - unfold generateWaveform. erewrite bind_Ok; [|reflexivity].
    apply (transcode_outcome_after_emit _ (Enter "generateWaveform")).
    destruct (ffmpegAvailable env), (ffmpegInstance env) as [ff|];
      [apply transcode_try_outcome; intros n; split; reflexivity
      | repeat split; by left ..].
Qed.

(** X7.  A slice job with a non-zero start and a non-zero end time, whose
    audio file is there and for which FFmpeg works, completes: FFmpeg is
    run once, from the start time ([-ss]) for the duration ([-t]) that
    the runtime computes as [endTime - startTime] in floating point, the
    clip is written beside the input under a name that keeps the input's
    extension, and the stored result reports the path, the size and that
    duration.  No order of the two times is checked. *)
Theorem slice_job_completes host env ff d af j st et n size w :
  jobs (db w) !! jobId d = Some j →
  audioFiles (db w) !! jobAudioFileId d = Some af →
  disk w !! AudioFile.path af = Some n →
  jobType d = "slice" → startTime d = Some st → endTime d = Some et →
  number_truthy st = true → number_truthy et = true →
  ffmpegAvailable env = true → ffmpegInstance env = Some ff →
  let inputPath := AudioFile.path af in
  let outputFileName :=
    path_basename_ext host inputPath (path_extname host inputPath)
      +:+ "_clip_" +:+ Number_toString host st +:+ "-" +:+ Number_toString host et
      +:+ path_extname host inputPath in
  let outputPath := path_join host (path_dirname host inputPath) outputFileName in
  let args := ["-i"; path_basename host inputPath;
               "-ss"; Number_toString host st;
               "-t"; Number_toString host (Number_minus host et st);
               "-y"; outputFileName] in
  run ff args = Ok tt → FS_readFile ff outputFileName = Ok size →
  ∃ v w' f,
    processAudioJob host env d w = (Ok v, w')
    ∧ trace w' = (trace w ++ [JobWrite (jobId d) (processing j); Enter "sliceAudio";
                              FfmpegRun args; JobWrite (jobId d) f])%list
    ∧ disk w' = <[outputPath := size]> (disk w)
    ∧ get "duration" v = Some (JNumber (Number_minus host et st))
    ∧ get "outputPath" v = Some (JString outputPath)
    ∧ get "size" v = Some (JInt size)
    ∧ get "originalFile" v = Some (JString (AudioFile.originalName af))
    ∧ jobs (db w') !! jobId d = Some f
    ∧ Job.status f = COMPLETED
    ∧ Job.result f = Some (JSON_stringify v).
Proof.
  intros Hj Hfile Hdisk Htype Hst Het Hstt Hett Havail Hinst inputPath outputFileName
    outputPath args Hrun Hread.
  destruct (processAudioJob_run host env d w j Hj) as (r & w2 & Hbody & _ & Hjob).
  rewrite attempt_body_reaches_dispatch with (af := af) in Hbody by (cbn; eauto).
  revert Hbody. unfold dispatch. rewrite Htype. cbn [String.eqb Ascii.eqb Bool.eqb].
  rewrite Hst, Het, Hstt, Hett. cbn [negb orb].
  unfold sliceAudio. rewrite Havail, Hinst.
  fold inputPath. fold outputFileName. fold outputPath. fold args.
  unfold ffmpeg_transcode, fs_readFileSync, fs_statSync_size, fs_writeFileSync,
    try_catch, lift, mbind, M_bind, mret, M_ret, emit, modify, with_disk.
  cbn. fold inputPath. fold inputPath in Hdisk. rewrite Hdisk. cbn.
  rewrite Hrun, Hread. cbn.
  assert (Hwritten : <[outputPath:=size]> (disk w) !! outputPath = Some size)
    by apply lookup_insert_eq.
  rewrite Hwritten. intros [= <- <-].
  eexists _, _, _. split; [exact Hjob|].
  split; [cbn; by rewrite <- !app_assoc|]. split; [reflexivity|].
  split; [reflexivity|]. split; [reflexivity|]. split; [reflexivity|].
  split; [reflexivity|]. split; [apply lookup_insert_eq|]. done.
Qed.

Lemma slice_job_completes_witness :
  ∃ v w' f,
    processAudioJob Demo.host Demo.env Scenario.clip_data Demo.shared = (Ok v, w')
    ∧ trace w'
      = (trace Demo.shared
         ++ [JobWrite "job2" (processing Demo.sibling_row); Enter "sliceAudio";
             FfmpegRun ["-i"; "song.wav"; "-ss"; "1"; "-t"; "1"; "-y"; "song_clip_1-2.wav"];
             JobWrite "job2" f])%list
    ∧ disk w' = <["uploads/song_clip_1-2.wav" := 1000]> (disk Demo.shared)
    ∧ get "outputPath" v = Some (JString "uploads/song_clip_1-2.wav")
    ∧ get "size" v = Some (JInt 1000)
    ∧ Job.status f = COMPLETED.
Proof.
  destruct (slice_job_completes Demo.host Demo.env Demo.ffmpeg Scenario.clip_data
              Demo.song_row Demo.sibling_row (Num (QArith_base.inject_Z 1))
              (Num (QArith_base.inject_Z 2)) 5000 1000 Demo.shared)
    as (v & w' & f & Hrun & Htrace & Hdisk & _ & Hpath & Hsize & _ & _ & Hstatus & _);
    try (vm_compute; reflexivity).
  exists v, w', f. split; [exact Hrun|]. split; [exact Htrace|].
  split; [exact Hdisk|]. split; [exact Hpath|]. split; [exact Hsize | exact Hstatus].
Defined.

(* ===================================================================== *)
(** * Uploads that are not queued *)
(* ===================================================================== *)

(** X8.  An upload is not rolled back when the queue does not take its job:
    the answer is 500, but the audio file row and the PENDING job row that
    were created stay in the database, and nothing is queued for the
    job. *)
Theorem upload_with_queue_down host req file w :
  req_file req = Some file →
  audioFiles (db w) !! idgen w (nextId w) = None →
  jobs (db w) !! idgen w (S (nextId w)) = None →
  redisUp w = false →
  ∃ w' row body,
    router_post_upload host (Parsed req) w = (Ok tt, w')
    ∧ trace w' = (trace w ++ [JobWrite (idgen w (S (nextId w))) row;
                              Responded 500 body])%list
    ∧ audioFiles (db w') !! idgen w (nextId w) = Some (audioFile_row file)
    ∧ jobs (db w') !! idgen w (S (nextId w)) = Some row
    ∧ Job.status row = PENDING
    ∧ Job.audioFileId row = idgen w (nextId w)
    ∧ queue w' = queue w.
Proof.
  intros Hfile Hfree1 Hfree2 Hdown.
  cbn [router_post_upload]. unfold uploadAudio, try_catch. rewrite Hfile.
  unfold addAudioJob, prisma_audioFile_create, prisma_job_create, audioQueue_add,
    fresh_id, try_catch, mbind, M_bind, mret, M_ret, gets, modify, emit, throw,
    with_nextId, with_db, with_queue. cbn.
  rewrite Hfree1. cbn. rewrite Hfree2. cbn. rewrite lookup_insert_eq. cbn.
  rewrite Hdown. cbn.
  eexists _, _, _. split; [reflexivity|]. cbn.
  split; [by rewrite <- app_assoc|]. split; [apply lookup_insert_eq|].
  split; [apply lookup_insert_eq|]. done.
Qed.

Lemma upload_with_queue_down_witness :
  redisUp Scenario.offline = false
  ∧ ∃ w' row body,
    router_post_upload Demo.host (Parsed Demo.convert_to_flac) Scenario.offline = (Ok tt, w')
    ∧ trace w' = (trace Scenario.offline
                  ++ [JobWrite (idgen Scenario.offline (S (nextId Scenario.offline))) row;
                      Responded 500 body])%list
    ∧ audioFiles (db w') !! idgen Scenario.offline (nextId Scenario.offline)
      = Some (audioFile_row Demo.song)
    ∧ jobs (db w') !! idgen Scenario.offline (S (nextId Scenario.offline)) = Some row
    ∧ Job.status row = PENDING
    ∧ Job.audioFileId row = idgen Scenario.offline (nextId Scenario.offline)
    ∧ queue w' = queue Scenario.offline.
Proof.
  split; [reflexivity|].
  apply (upload_with_queue_down Demo.host Demo.convert_to_flac Demo.song Scenario.offline).
  - reflexivity.
  - vm_compute; reflexivity.
  - vm_compute; reflexivity.
  - reflexivity.
Defined.

(** X9.  An upload that the middleware rejects (a file too large, a file of
    an unsupported type, any other upload error) or that carries no file is
    answered 400 and leaves the database and the queue as they were: no
    row is created and nothing is queued. *)
Theorem rejected_upload_creates_nothing host m w :
  (∀ req, m = Parsed req → req_file req = None) →
  ∃ w' body,
    router_post_upload host m w = (Ok tt, w')
    ∧ trace w' = (trace w ++ [Responded 400 body])%list
    ∧ db w' = db w ∧ queue w' = queue w.
Proof.
  intros Hnofile. destruct m as [code msg|msg|req]; cbn [router_post_upload].
  - destruct (String.eqb code "LIMIT_FILE_SIZE"); eexists _, _; by repeat split.
  - eexists _, _; by repeat split.
  - unfold uploadAudio, try_catch. rewrite (Hnofile req eq_refl).
    eexists _, _; by repeat split.
Qed.

Lemma rejected_upload_creates_nothing_witness :
  req_file Scenario.without_file = None
  ∧ ∃ w' body,
    router_post_upload Demo.host (Parsed Scenario.without_file) Demo.w0 = (Ok tt, w')
    ∧ trace w' = (trace Demo.w0 ++ [Responded 400 body])%list
    ∧ db w' = db Demo.w0 ∧ queue w' = queue Demo.w0.
Proof.
  split; [reflexivity|].
  apply (rejected_upload_creates_nothing Demo.host (Parsed Scenario.without_file) Demo.w0).
  intros req [= <-]. reflexivity.
Defined.

(* ===================================================================== *)
(** * Deleting a job that is not there *)
(* ===================================================================== *)

Lemma router_delete_job_unknown host id w :
  jobs (db w) !! id = None →
  ∃ body, router_delete_job host id w = (Ok tt, (emit (Responded 404 body) w).2).
Proof.
  intros Hj. unfold router_delete_job, try_catch.
  erewrite bind_Ok; [|unfold prisma_job_findUnique, gets; by rewrite Hj].
  eexists. reflexivity.
Qed.

Lemma router_delete_job_gone host id w j :
  jobs (db w) !! id = Some j →
  jobs (db (router_delete_job host id w).2) !! id = None.
Proof.
  intros Hj.
  destruct (router_delete_job_spec host id w j Hj) as (w2 & w' & Hrun & _ & _ & _ & _ & Hdb).
  rewrite Hrun. cbn [snd]. rewrite Hdb. destruct (_ && _); cbn [jobs].
  - apply map_lookup_filter_None. left. apply lookup_delete_eq.
  - apply lookup_delete_eq.
Qed.

Lemma router_delete_job_after host id w :
  jobs (db (router_delete_job host id w).2) !! id = None.
Proof.
  destruct (jobs (db w) !! id) as [j|] eqn:Hj.
  - by apply (router_delete_job_gone host id w j).
  - destruct (router_delete_job_unknown host id w Hj) as [body Hrun].
    by rewrite Hrun.
Qed.

(** X10.  A DELETE /api/upload/job/:id that follows another one for the
    same id is answered 404 and changes nothing: the database, the disk
    and the queue stay as the first request left them, whether or not that
    one found the job. *)
Theorem delete_job_twice host id w :
  let w1 := (router_delete_job host id w).2 in
  let w2 := (router_delete_job host id w1).2 in
  db w2 = db w1 ∧ disk w2 = disk w1 ∧ queue w2 = queue w1
  ∧ ∃ body, trace w2 = (trace w1 ++ [Responded 404 body])%list.
Proof.
  intros w1 w2.
  destruct (router_delete_job_unknown host id w1 (router_delete_job_after host id w))
    as [body Hsecond].
  subst w2. rewrite Hsecond. cbn. eauto.
Qed.

(* ===================================================================== *)
(** * What a cleanup sweep removes *)
(* ===================================================================== *)

Lemma prisma_job_delete_present id w j :
  jobs (db w) !! id = Some j →
  prisma_job_delete id w = (Ok tt, with_db (set_jobs (delete id)) w).
Proof.
  intros Hj. unfold prisma_job_delete, mbind, M_bind, gets, modify. by rewrite Hj.
Qed.

Lemma cleanup_loop_deletes host dir oldJobs :
  ∀ deletedCount filesDeleted w,
    NoDup oldJobs.*1 →
    (∀ k, k ∈ oldJobs.*1 → is_Some (jobs (db w) !! k)) →
    ∃ files w',
      cleanup_loop host dir oldJobs deletedCount filesDeleted w
      = (Ok (deletedCount + Z.of_nat (length oldJobs), files), w')
      ∧ (∀ k, k ∈ oldJobs.*1 → jobs (db w') !! k = None)
      ∧ (∀ k, k ∉ oldJobs.*1 → jobs (db w') !! k = jobs (db w) !! k)
      ∧ audioFiles (db w') = audioFiles (db w)
      ∧ queue w' = queue w ∧ trace w' = trace w ∧ clock w' = clock w.
Proof.
  induction oldJobs as [|job rest IH]; intros dc fd w Hnodup Hin.
  { exists fd, w. cbn. rewrite Z.add_0_r. split; [reflexivity|].
    split; [intros k Hk; by apply elem_of_nil in Hk | done]. }
  cbn [fmap list_fmap] in Hnodup. apply NoDup_cons in Hnodup as [Hfresh Hnodup].
  destruct (delete_output_file_spec host dir job.2 w) as (names & w1 & Hout & Hstep & _).
  destruct (Hin job.1) as [j Hj]; [left|].
  assert (Hj1 : jobs (db w1) !! job.1 = Some j) by (by rewrite (us_db _ _ Hstep)).
  set (w2 := with_db (set_jobs (delete job.1)) w1).
  destruct (IH (dc + 1) (fd + Z.of_nat (length names)) w2 Hnodup)
    as (files & w' & Hloop & Hgone & Hkept & Hfiles & Hqueue & Htrace & Hclock).
  { intros k Hk. subst w2. cbn.
    rewrite lookup_delete_ne by (intros Heq; by rewrite <- Heq in Hk).
    rewrite (us_db _ _ Hstep). apply Hin. by right. }
  exists files, w'. cbn [cleanup_loop].
  erewrite bind_Ok; [|exact Hout].
  erewrite bind_Ok; [|exact (prisma_job_delete_present _ _ _ Hj1)].
  fold w2. rewrite Hloop.
  replace (dc + 1 + Z.of_nat (length rest)) with (dc + Z.of_nat (length (job :: rest)))
    by (cbn [length]; lia).
  split; [reflexivity|].
  split; [|split; [|split; [|split; [|split]]]].
  - intros k [->|Hk]%elem_of_cons; [|by apply Hgone].
    rewrite (Hkept _ Hfresh). subst w2. cbn. apply lookup_delete_eq.
  - intros k [Hne Hk]%not_elem_of_cons. rewrite (Hkept _ Hk). subst w2. cbn.
    rewrite lookup_delete_ne by done. by rewrite (us_db _ _ Hstep).
  - rewrite Hfiles. subst w2. cbn. by rewrite (us_db _ _ Hstep).
  - rewrite Hqueue. subst w2. cbn. apply (us_queue _ _ Hstep).
  - rewrite Htrace. subst w2. cbn. apply (us_trace _ _ Hstep).
  - rewrite Hclock. subst w2. cbn. apply (us_clock _ _ Hstep).
Qed.

Lemma cleanupOldJobs_run host jobAgeHours w :
  let cutoffDate := clock w - jobAgeHours * 60 * 60 * 1000 in
  let old := filter (λ kv : string * Job.t, is_old_completed cutoffDate kv.2 = true)
                    (jobs (db w)) in
  ∃ files w',
    cleanupOldJobs host jobAgeHours w
    = (Ok (mkCleanupReport (Z.of_nat (size old)) files None), w')
    ∧ jobs (db w')
      = filter (λ kv : string * Job.t, is_old_completed cutoffDate kv.2 ≠ true)
               (jobs (db w))
    ∧ audioFiles (db w') = audioFiles (db w)
    ∧ queue w' = queue w ∧ trace w' = trace w ∧ clock w' = clock w.
Proof.
  intros cutoffDate old.
  unfold cleanupOldJobs, try_catch, mbind, M_bind, Date_now, prisma_job_findMany, gets,
    mret, M_ret.
  fold cutoffDate. fold old.
  assert (Hin : ∀ k, k ∈ (map_to_list old).*1 ↔
                     ∃ j, jobs (db w) !! k = Some j ∧ is_old_completed cutoffDate j = true).
  { intros k. rewrite list_elem_of_fmap. split.
    - intros ([k' x] & -> & Hk).
      apply elem_of_map_to_list, map_lookup_filter_Some in Hk. eauto.
    - intros (j & Hj & Hc). exists (k, j). split; [done|].
      apply elem_of_map_to_list, map_lookup_filter_Some. done. }
  assert (Hjobs : ∀ w', (∀ k, k ∈ (map_to_list old).*1 → jobs (db w') !! k = None) →
            (∀ k, k ∉ (map_to_list old).*1 → jobs (db w') !! k = jobs (db w) !! k) →
            jobs (db w')
            = filter (λ kv : string * Job.t, is_old_completed cutoffDate kv.2 ≠ true)
                     (jobs (db w))).
  { intros w' Hgone Hkept. apply map_eq. intros k. symmetry.
    destruct (decide (k ∈ (map_to_list old).*1)) as [Hk|Hk].
    - rewrite (Hgone k Hk). apply map_lookup_filter_None. right.
      apply Hin in Hk as (j & Hj & Hc). intros j' Hj'. cbn. congruence.
    - rewrite (Hkept k Hk). destruct (jobs (db w) !! k) as [j|] eqn:Hj.
      + apply map_lookup_filter_Some. split; [done|]. cbn. intros Hc.
        apply Hk, Hin. eauto.
      + apply map_lookup_filter_None. by left. }
  destruct (length (map_to_list old) =? 0)%nat eqn:Hlen.
  - apply Nat.eqb_eq in Hlen. eexists 0, w. split.
    { by rewrite <- (length_map_to_list old), Hlen. }
    split; [|done]. apply Hjobs; [|done].
    apply length_zero_iff_nil in Hlen. rewrite Hlen. intros k Hk.
    by apply elem_of_nil in Hk.
  - destruct (cleanup_loop_deletes host (or_else (UPLOAD_DIR host) "./uploads")
                (map_to_list old) 0 0 w (NoDup_fst_map_to_list old))
      as (files & w' & Hloop & Hgone & Hkept & Hfiles & Hqueue & Htrace & Hclock).
    { intros k (j & Hj & _)%Hin. eauto. }
    rewrite Hloop. eexists files, w'. cbn. split.
    { by rewrite Z.add_0_l, length_map_to_list. }
    split; [by apply Hjobs | done].
Qed.



(* ===================================================================== *)
(** * Deleting a job whose audio file is shared *)
(* ===================================================================== *)

Lemma other_jobs_sibling w id fileId :
  has_sibling w id fileId → (length (other_jobs w id fileId) =? 0)%nat = false.
Proof.
  intros Hsib. destruct (length _ =? 0)%nat eqn:Hlen; [|reflexivity].
  apply other_jobs_nil in Hlen. done.
Qed.

Lemma attempt_body_file_gone host env d af w :
  audioFiles (db w) !! jobAudioFileId d = Some af →
  disk w !! AudioFile.path af = None →
  attempt_body host env d w = (Throw file_does_not_exist, w).
Proof.
  intros Hfile Hdisk.
  unfold attempt_body, prisma_audioFile_findUnique, fs_existsSync, mbind, M_bind, gets.
  rewrite Hfile, Hdisk. rewrite bool_decide_eq_false_2; [done|].
  intros [x Hx]; discriminate.
Qed.

(** X13.  Deleting a job breaks the other jobs of the same audio file: the
    audio file row is kept for them, but the uploaded file it points to has
    been unlinked, so a later run of any sibling job, whatever its type,
    throws "Audio file does not exist" and leaves that job FAILED. *)
Theorem deleting_a_job_breaks_its_siblings host env id w j af d sibling :
  jobs (db w) !! id = Some j →
  audioFiles (db w) !! Job.audioFileId j = Some af →
  AudioFile.filename af ≠ "" →
  AudioFile.path af = path_join host (route_uploadDir host) (AudioFile.filename af) →
  jobs (db w) !! jobId d = Some sibling →
  jobId d ≠ id →
  Job.audioFileId sibling = Job.audioFileId j →
  jobAudioFileId d = Job.audioFileId j →
  let w1 := (router_delete_job host id w).2 in
  audioFiles (db w1) !! Job.audioFileId j = Some af
  ∧ jobs (db w1) !! jobId d = Some sibling
  ∧ disk w1 !! AudioFile.path af = None
  ∧ ∃ w2 f,
      processAudioJob host env d w1 = (Throw file_does_not_exist, w2)
      ∧ jobs (db w2) !! jobId d = Some f
      ∧ Job.status f = FAILED
      ∧ Job.error f = Some "Audio file does not exist".
Proof.
  intros Hj Haf Hname Hpath Hsibling Hne Hshared Hdata w1.
  destruct (router_delete_job_spec host id w j Hj)
    as (w2 & w' & Hrun & _ & _ & Horig & Hdisk & Hdb).
  assert (Hw1 : w1 = w') by (subst w1; by rewrite Hrun). rewrite Hw1. clear Hw1 w1.
  assert (Hsib : has_sibling w id (Job.audioFileId j)) by (exists (jobId d), sibling; done).
  rewrite (other_jobs_sibling _ _ _ Hsib), andb_false_r in Hdb.
  assert (Hfile' : audioFiles (db w') !! Job.audioFileId j = Some af) by (by rewrite Hdb).
  assert (Hrow' : jobs (db w') !! jobId d = Some sibling).
  { rewrite Hdb. cbn. by rewrite lookup_delete_ne. }
  assert (Hgone : disk w' !! AudioFile.path af = None).
  { rewrite Hdisk, Hpath. by apply Horig. }
  split; [exact Hfile'|]. split; [exact Hrow'|]. split; [exact Hgone|].
  destruct (processAudioJob_run host env d w' sibling Hrow') as (r & w3 & Hbody & _ & Hjob).
  rewrite (attempt_body_file_gone host env d af) in Hbody; [|by rewrite <- Hdata in Hfile'|done].
  injection Hbody as <- <-. eexists _, _. split; [exact Hjob|].
  split; [apply lookup_insert_eq | done].
Qed.

Lemma deleting_a_job_breaks_its_siblings_witness :
  jobs (db Demo.shared) !! "job1" = Some Demo.converted_row
  ∧ jobs (db Demo.shared) !! "job2" = Some Demo.sibling_row
  ∧ audioFiles (db (router_delete_job Demo.host "job1" Demo.shared).2)
      !! Job.audioFileId Demo.converted_row = Some Demo.song_row
  ∧ jobs (db (router_delete_job Demo.host "job1" Demo.shared).2)
      !! jobId Scenario.metadata_data = Some Demo.sibling_row
  ∧ disk (router_delete_job Demo.host "job1" Demo.shared).2
      !! AudioFile.path Demo.song_row = None
  ∧ ∃ w2 f,
      processAudioJob Demo.host Demo.env Scenario.metadata_data
        (router_delete_job Demo.host "job1" Demo.shared).2
      = (Throw file_does_not_exist, w2)
      ∧ jobs (db w2) !! jobId Scenario.metadata_data = Some f
      ∧ Job.status f = FAILED
      ∧ Job.error f = Some "Audio file does not exist".
Proof.
  split; [vm_compute; reflexivity|].
  split; [vm_compute; reflexivity|].
  apply (deleting_a_job_breaks_its_siblings Demo.host Demo.env "job1" Demo.shared
           Demo.converted_row Demo.song_row Scenario.metadata_data Demo.sibling_row).
  - vm_compute; reflexivity.
  - vm_compute; reflexivity.
  - discriminate.
  - vm_compute; reflexivity.
  - vm_compute; reflexivity.
  - discriminate.
  - reflexivity.
  - reflexivity.
Defined.

(* ===================================================================== *)
(** * The output file of a conversion, from the worker to the deletion *)
(* ===================================================================== *)

Lemma dispatch_convert_ok host env d af fmt v w w' :
  jobType d = "convert" → outputFormat d = Some fmt →
  dispatch host env d af (AudioFile.path af) w = (Ok v, w') →
  let inputPath := AudioFile.path af in
  let outputPath :=
    path_join host (path_dirname host inputPath)
      (path_basename_ext host inputPath (path_extname host inputPath)
         +:+ "_converted." +:+ fmt) in
  ∃ size,
    v = JObject (obj_set "originalFile" (JString (AudioFile.originalName af))
                   [("outputPath", JString outputPath);
                    ("outputFormat", JString fmt);
                    ("size", JInt size);
                    ("message", JString ("Audio converted to " +:+ toUpperCase fmt))])
    ∧ disk w' = <[outputPath := size]> (disk w).
Proof.
  intros Htype Hfmt. unfold dispatch. rewrite Htype. cbn [String.eqb Ascii.eqb Bool.eqb].
  rewrite Hfmt. destruct (string_truthy fmt); [|discriminate].
  unfold convertAudio.
  destruct (ffmpegAvailable env), (ffmpegInstance env) as [ff|];
    try (unfold mbind, M_bind, emit, modify, throw; cbn; discriminate).
  set (inputPath := AudioFile.path af). set (outputPath := path_join host _ _).
  unfold ffmpeg_transcode, fs_readFileSync, fs_statSync_size, fs_writeFileSync,
    try_catch, lift, mbind, M_bind, mret, M_ret, emit, modify, with_disk, throw.
  cbn. destruct (disk w !! inputPath); cbn; [|discriminate].
  destruct (run ff _) as [[]|]; cbn; [|discriminate].
  destruct (FS_readFile ff _) as [size|]; cbn; [|discriminate].
  assert (Hwritten : <[outputPath:=size]> (disk w) !! outputPath = Some size)
    by apply lookup_insert_eq.
  rewrite Hwritten. intros [= <- <-]. exists size. done.
Qed.

(** X14.  The output file of a conversion is removed with its job.  When a
    run of a convert job succeeds, the converted file is on the disk at the
    [outputPath] of the stored result; if the deletion route resolves that
    path to itself (the worker wrote into the route's upload directory),
    then deleting the job removes the converted file and the job row. *)
Theorem delete_removes_converted_file host env d af j fmt v w w1 :
  jobs (db w) !! jobId d = Some j →
  audioFiles (db w) !! jobAudioFileId d = Some af →
  jobType d = "convert" → outputFormat d = Some fmt →
  processAudioJob host env d w = (Ok v, w1) →
  let inputPath := AudioFile.path af in
  let outputPath :=
    path_join host (path_dirname host inputPath)
      (path_basename_ext host inputPath (path_extname host inputPath)
         +:+ "_converted." +:+ fmt) in
  outputPath ≠ "" →
  output_file host (route_uploadDir host) outputPath = outputPath →
  get "outputPath" v = Some (JString outputPath)
  ∧ is_Some (disk w1 !! outputPath)
  ∧ disk (router_delete_job host (jobId d) w1).2 !! outputPath = None
  ∧ jobs (db (router_delete_job host (jobId d) w1).2) !! jobId d = None.
Proof.
  intros Hj Hfile Htype Hfmt Hproc inputPath outputPath Hne Hsame.
  destruct (processAudioJob_run host env d w j Hj) as (r & w2 & Hbody & _ & Hjob).
  rewrite Hproc in Hjob. injection Hjob as <- Hw1.
  assert (Hthere : is_Some (disk w !! AudioFile.path af)).
  { destruct (disk w !! AudioFile.path af) eqn:Hdisk; [eauto|].
    rewrite (attempt_body_file_gone host env d af) in Hbody by done. discriminate. }
  rewrite attempt_body_reaches_dispatch with (af := af) in Hbody by done.
  destruct (dispatch_convert_ok host env d af fmt v _ _ Htype Hfmt Hbody)
    as (size & Hv & Hdisk).
  fold inputPath in Hdisk. fold outputPath in Hdisk. fold inputPath in Hv.
  fold outputPath in Hv.
  assert (Hrow : jobs (db w1) !! jobId d
                 = Some (finished (clock w) (processing j) (Ok v))).
  { rewrite Hw1. apply lookup_insert_eq. }
  assert (Hdisk1 : disk w1 !! outputPath = Some size).
  { rewrite Hw1. cbn [write_job disk]. rewrite Hdisk. apply lookup_insert_eq. }
  split; [by rewrite Hv|]. split; [by rewrite Hdisk1|].
  destruct (router_delete_job_spec host (jobId d) w1 _ Hrow)
    as (w3 & w' & Hdel & _ & Hout & _ & Hdisk' & Hdb').
  rewrite Hdel. cbn [snd]. split.
  - rewrite Hdisk', <- Hsame. apply (Hout v); [reflexivity| |exact Hne].
    rewrite Hv. reflexivity.
  - rewrite Hdb'. destruct (_ && _).
    + cbn [jobs]. apply map_lookup_filter_None. left. apply lookup_delete_eq.
    + cbn [jobs]. apply lookup_delete_eq.
Qed.

Lemma delete_removes_converted_file_witness :
  processAudioJob Demo.host Demo.env Scenario.convert_data Demo.shared
  = (Ok Scenario.converted_value, Scenario.converted)
  ∧ get "outputPath" Scenario.converted_value
    = Some (JString "uploads/song_converted.flac")
  ∧ is_Some (disk Scenario.converted !! "uploads/song_converted.flac")
  ∧ disk (router_delete_job Demo.host "job2" Scenario.converted).2
      !! "uploads/song_converted.flac" = None
  ∧ jobs (db (router_delete_job Demo.host "job2" Scenario.converted).2) !! "job2" = None.
Proof.
  assert (Hrun : processAudioJob Demo.host Demo.env Scenario.convert_data Demo.shared
                 = (Ok Scenario.converted_value, Scenario.converted))
    by (vm_compute; reflexivity).
  split; [exact Hrun|].
  apply (delete_removes_converted_file Demo.host Demo.env Scenario.convert_data
           Demo.song_row Demo.sibling_row "flac" Scenario.converted_value Demo.shared
           Scenario.converted).
  - vm_compute; reflexivity.
  - vm_compute; reflexivity.
  - reflexivity.
  - reflexivity.
  - exact Hrun.
  - discriminate.
  - vm_compute; reflexivity.
Defined.

(* ===================================================================== *)
(** * What the handlers keep true of the database *)
(* ===================================================================== *)

Lemma consistent_subset A J J' :
  consistent (mkDb A J) → J' ⊆ J → consistent (mkDb A J').
Proof.
  intros [Hfk Hone] Hsub. split.
  - intros id j Hj. apply (Hfk id). exact (lookup_weaken _ _ _ _ Hj Hsub).
  - intros id1 j1 id2 j2 H1 H2. apply Hone.
    + exact (lookup_weaken _ _ _ _ H1 Hsub).
    + exact (lookup_weaken _ _ _ _ H2 Hsub).
Qed.

Lemma consistent_cascade A J J' fid :
  consistent (mkDb A J) → J' ⊆ J →
  consistent (mkDb (delete fid A)
                (filter (λ kv : string * Job.t, Job.audioFileId kv.2 ≠ fid) J')).
Proof.
  intros [Hfk Hone] Hsub. split.
  - intros id j Hj. cbn in Hj. apply map_lookup_filter_Some in Hj as [Hj Hne].
    cbn in *. rewrite lookup_delete_ne by done.
    apply (Hfk id). exact (lookup_weaken _ _ _ _ Hj Hsub).
  - intros id1 j1 id2 j2 H1 H2. cbn in H1, H2.
    apply map_lookup_filter_Some in H1 as [H1 _].
    apply map_lookup_filter_Some in H2 as [H2 _].
    apply Hone.
    + exact (lookup_weaken _ _ _ _ H1 Hsub).
    + exact (lookup_weaken _ _ _ _ H2 Hsub).
Qed.

Lemma consistent_update A J k j j' :
  consistent (mkDb A J) → J !! k = Some j → Job.audioFileId j' = Job.audioFileId j →
  consistent (mkDb A (<[k := j']> J)).
Proof.
  intros [Hfk Hone] Hk Hsame. split.
  - intros id j0. cbn. destruct (decide (id = k)) as [->|Hne].
    + rewrite lookup_insert_eq. intros [= <-]. rewrite Hsame. by apply (Hfk k).
    + rewrite lookup_insert_ne by done. apply Hfk.
  - intros id1 j1 id2 j2. cbn.
    destruct (decide (id1 = k)) as [->|Hne1], (decide (id2 = k)) as [->|Hne2];
      rewrite ?lookup_insert_eq, ?lookup_insert_ne by done; [done|..].
    + intros [= <-] H2. rewrite Hsame. intros Heq. by apply (Hone k j id2 j2).
    + intros H1 [= <-]. rewrite Hsame. intros Heq. by apply (Hone id1 j1 k j).
    + apply Hone.
Qed.

Lemma consistent_new_file A J fid af :
  consistent (mkDb A J) → consistent (mkDb (<[fid := af]> A) J).
Proof.
  intros [Hfk Hone]. split; [|exact Hone].
  intros id j Hj. cbn in *. destruct (decide (Job.audioFileId j = fid)) as [->|Hne].
  - rewrite lookup_insert_eq. eauto.
  - rewrite lookup_insert_ne by done. by apply (Hfk id).
Qed.

Lemma consistent_new_job A J fid af jid row :
  consistent (mkDb A J) → A !! fid = None → Job.audioFileId row = fid →
  consistent (mkDb (<[fid := af]> A) (<[jid := row]> J)).
Proof.
  intros [Hfk Hone] Hfresh Hrow.
  assert (Hunused : ∀ id j, J !! id = Some j → Job.audioFileId j ≠ fid).
  { intros id j Hj Heq. destruct (Hfk id j Hj) as [x Hx]. cbn in Hx.
    rewrite Heq, Hfresh in Hx. discriminate. }
  split.
  - intros id j. cbn. destruct (decide (id = jid)) as [->|Hne].
    + rewrite lookup_insert_eq. intros [= <-]. rewrite Hrow, lookup_insert_eq. eauto.
    + rewrite lookup_insert_ne by done. intros Hj.
      rewrite lookup_insert_ne by (intros Heq; by apply (Hunused id j Hj)).
      by apply (Hfk id).
  - intros id1 j1 id2 j2. cbn.
    destruct (decide (id1 = jid)) as [->|Hne1], (decide (id2 = jid)) as [->|Hne2];
      rewrite ?lookup_insert_eq, ?lookup_insert_ne by done; [done|..].
    + intros [= <-] H2 Heq. destruct (Hunused id2 j2 H2). by rewrite <- Heq.
    + intros H1 [= <-] Heq. destruct (Hunused id1 j1 H1). by rewrite Heq.
    + apply Hone.
Qed.

Lemma db_eta (d : Db) : d = mkDb (audioFiles d) (jobs d).
Proof. by destruct d. Qed.

Lemma router_post_upload_db host m w :
  let w' := (router_post_upload host m w).2 in
  db w' = db w
  ∨ ∃ fid af,
      audioFiles (db w) !! fid = None
      ∧ (db w' = mkDb (<[fid := af]> (audioFiles (db w))) (jobs (db w))
         ∨ ∃ jid row,
             Job.audioFileId row = fid
             ∧ db w' = mkDb (<[fid := af]> (audioFiles (db w)))
                            (<[jid := row]> (jobs (db w)))).
Proof.
  destruct m as [code msg|msg|req]; cbn [router_post_upload].
  - left. by destruct (String.eqb _ _).
  - by left.
  - unfold uploadAudio, try_catch. destruct (req_file req) as [file|]; [|by left].
    unfold addAudioJob, prisma_audioFile_create, prisma_job_create, audioQueue_add,
      try_catch, fresh_id, mbind, M_bind, mret, M_ret, gets, modify, emit, throw,
      with_db, with_nextId, with_queue.
    cbn.
    destruct (audioFiles (db w) !! idgen w (nextId w)) eqn:Hfile; cbn; [by left|].
    right. exists (idgen w (nextId w)), (audioFile_row file). split; [done|].
    destruct (jobs (db w) !! idgen w (S (nextId w))) eqn:Hjob; cbn.
    + left. reflexivity.
    + assert (Hnew : <[idgen w (nextId w) := audioFile_row file]> (audioFiles (db w))
                     !! idgen w (nextId w) = Some (audioFile_row file))
        by apply lookup_insert_eq.
      unfold audioFile_row in *. rewrite Hnew. cbn.
      right. eexists _, _. split; [|destruct (redisUp w); reflexivity]. reflexivity.
Qed.

Lemma processAudioJob_db host env d w :
  let w' := (processAudioJob host env d w).2 in
  db w' = db w
  ∨ ∃ j j', jobs (db w) !! jobId d = Some j
            ∧ Job.audioFileId j' = Job.audioFileId j
            ∧ db w' = mkDb (audioFiles (db w)) (<[jobId d := j']> (jobs (db w))).
Proof.
  destruct (jobs (db w) !! jobId d) as [j|] eqn:Hj.
  2:{ left. by rewrite (processAudioJob_no_row _ _ _ _ Hj). }
  destruct (processAudioJob_run host env d w j Hj) as (r & w2 & Hbody & Hq & Hrun).
  right. exists j, (finished (clock w) (processing j) r).
  split; [done|]. split; [by destruct r|].
  cbn zeta. rewrite Hrun. cbn [snd].
  rewrite (db_eta (db (write_job _ _ w2))). f_equal.
  - cbn. by rewrite (qs_db _ _ Hq).
  - cbn. rewrite (qs_db _ _ Hq). cbn. apply insert_insert_eq.
Qed.

Lemma router_delete_job_db host id w :
  let w' := (router_delete_job host id w).2 in
  db w' = db w
  ∨ db w' = mkDb (audioFiles (db w)) (delete id (jobs (db w)))
  ∨ ∃ fid, db w' = mkDb (delete fid (audioFiles (db w)))
                     (filter (λ kv : string * Job.t, Job.audioFileId kv.2 ≠ fid)
                             (delete id (jobs (db w)))).
Proof.
  destruct (jobs (db w) !! id) as [j|] eqn:Hj.
  - destruct (router_delete_job_spec host id w j Hj)
      as (w2 & w' & Hrun & _ & _ & _ & _ & Hdb).
    cbn zeta. rewrite Hrun. cbn [snd]. rewrite Hdb.
    destruct (_ && _); [right; right; eauto | right; by left].
  - destruct (router_delete_job_unknown host id w Hj) as [body Hrun].
    left. cbn zeta. by rewrite Hrun.
Qed.

Lemma consistent_empty : consistent (mkDb ∅ ∅).
Proof.
  split.
  - intros id j Hj. cbn in Hj. by rewrite lookup_empty in Hj.
  - intros id1 j1 id2 j2 H1. cbn in H1. by rewrite lookup_empty in H1.
Qed.

Lemma created_consistent : consistent (db Demo.created).
Proof.
  assert (Hdb : db Demo.created
                = mkDb (<["id0" := Demo.song_row]> ∅) (<["id1" := Demo.new_row]> ∅))
    by (vm_compute; reflexivity).
  rewrite Hdb. apply consistent_new_job; [apply consistent_empty|done..].
Qed.

(** X15.  The handlers keep the database consistent: if every job row
    references an audio file row and no two job rows reference the same
    one, then the same holds after an upload request, after a run of the
    worker, after a deletion request and after a cleanup. *)
Theorem handlers_keep_consistent host w :
  consistent (db w) →
  (∀ m, consistent (db (router_post_upload host m w).2))
  ∧ (∀ env d, consistent (db (processAudioJob host env d w).2))
  ∧ (∀ id, consistent (db (router_delete_job host id w).2))
  ∧ (∀ hours, consistent (db (cleanupOldJobs host hours w).2)).
Proof.
  intros Hok. rewrite (db_eta (db w)) in Hok. split; [|split; [|split]].
  - intros m. destruct (router_post_upload_db host m w)
      as [->|(fid & af & Hfresh & [->|(jid & row & Hrow & ->)])].
    + by rewrite (db_eta (db w)).
    + by apply consistent_new_file.
    + by apply consistent_new_job.
  - intros env d. destruct (processAudioJob_db host env d w)
      as [->|(j & j' & Hj & Hsame & ->)].
    + by rewrite (db_eta (db w)).
    + by apply (consistent_update _ _ _ j).
  - intros id. destruct (router_delete_job_db host id w) as [->|[->|[fid ->]]].
    + by rewrite (db_eta (db w)).
    + apply (consistent_subset _ _ _ Hok), delete_subseteq.
    + apply (consistent_cascade _ _ _ _ Hok), delete_subseteq.
  - intros hours.
    destruct (cleanupOldJobs_run host hours w) as (files & w' & Hrun & Hjobs & Hfiles & _).
    rewrite Hrun. cbn [snd]. rewrite (db_eta (db w')), Hjobs, Hfiles.
    apply (consistent_subset _ _ _ Hok), map_filter_subseteq.
Qed.

Lemma handlers_keep_consistent_witness :
  (∀ m, consistent (db (router_post_upload Demo.host m Demo.created).2))
  ∧ (∀ env d, consistent (db (processAudioJob Demo.host env d Demo.created).2))
  ∧ (∀ id, consistent (db (router_delete_job Demo.host id Demo.created).2))
  ∧ (∀ hours, consistent (db (cleanupOldJobs Demo.host hours Demo.created).2)).
Proof.
  apply (handlers_keep_consistent Demo.host Demo.created).
  apply created_consistent.
Defined.

Lemma router_delete_job_only_job host id w j :
  consistent (db w) →
  jobs (db w) !! id = Some j →
  Job.audioFileId j ≠ "" →
  ¬ has_sibling w id (Job.audioFileId j)
  ∧ db (router_delete_job host id w).2
    = mkDb (delete (Job.audioFileId j) (audioFiles (db w))) (delete id (jobs (db w))).
Proof.
  intros [Hfk Hone] Hj Hfid.
  assert (Hnone : ¬ has_sibling w id (Job.audioFileId j)).
  { intros (k & other & Hk & Hne & Hsame). apply Hne. by apply (Hone k other id j). }
  split; [exact Hnone|].
  destruct (router_delete_job_spec host id w j Hj)
    as (w2 & w' & Hrun & _ & _ & _ & _ & Hdb).
  rewrite Hrun. cbn [snd]. rewrite Hdb.
  rewrite bool_decide_eq_true_2 by (by apply (Hfk id)).
  apply string_truthy_ne in Hfid. rewrite Hfid.
  apply other_jobs_nil in Hnone. rewrite Hnone. cbn [andb]. f_equal.
  apply map_filter_id. intros k other Hk. cbn.
  apply lookup_delete_Some in Hk as [Hne Hk].
  intros Hsame. apply Hne. symmetry. by apply (Hone k other id j).
Qed.

(** X16.  In a consistent database a deletion request never keeps the audio
    file row: the job of an audio file has no sibling, so deleting it
    removes exactly its own row and the row of its audio file. *)
Theorem delete_job_in_consistent_db host id w j :
  consistent (db w) →
  jobs (db w) !! id = Some j →
  Job.audioFileId j ≠ "" →
  ¬ has_sibling w id (Job.audioFileId j)
  ∧ audioFiles (db (router_delete_job host id w).2)
    = delete (Job.audioFileId j) (audioFiles (db w))
  ∧ jobs (db (router_delete_job host id w).2) = delete id (jobs (db w)).
Proof.
  intros Hok Hj Hfid.
  destruct (router_delete_job_only_job host id w j Hok Hj Hfid) as [Hnone Hdb].
  split; [exact Hnone|]. by rewrite Hdb.
Qed.

Lemma delete_job_in_consistent_db_witness :
  jobs (db Demo.created) !! "id1" = Some Demo.new_row
  ∧ ¬ has_sibling Demo.created "id1" (Job.audioFileId Demo.new_row)
  ∧ audioFiles (db (router_delete_job Demo.host "id1" Demo.created).2)
    = delete (Job.audioFileId Demo.new_row) (audioFiles (db Demo.created))
  ∧ jobs (db (router_delete_job Demo.host "id1" Demo.created).2)
    = delete "id1" (jobs (db Demo.created)).
Proof.
  split; [vm_compute; reflexivity|].
  apply (delete_job_in_consistent_db Demo.host "id1" Demo.created Demo.new_row).
  - apply created_consistent.
  - vm_compute; reflexivity.
  - discriminate.
Defined.

(* ===================================================================== *)
(** * From the upload to the finished job *)
(* ===================================================================== *)

(** X17.  An uploaded metadata job completes at its first run.  When an
    upload whose job type is none of convert, slice and waveform is
    accepted on an idle queue, the file is where the upload recorded it
    and music-metadata parses it, the next turn of the worker runs the job
    once: the queue is empty again, and the row is COMPLETED at 100 with
    the result and a completion time.  The disk is not changed. *)
Theorem uploaded_metadata_job_completes host envs req file n md w :
  req_file req = Some file →
  upload_ready w → queue w = [] →
  default "metadata" (body_jobType (req_body req)) ≠ "convert" →
  default "metadata" (body_jobType (req_body req)) ≠ "slice" →
  default "metadata" (body_jobType (req_body req)) ≠ "waveform" →
  disk w !! file_path file = Some n →
  mm_parseFile (envs 0%nat) (file_path file) = Ok md →
  ∃ w1 w2 v f,
    router_post_upload host (Parsed req) w = (Ok tt, w1)
    ∧ worker_next host envs w1 = (Ok [Ok v], w2)
    ∧ queue w2 = []
    ∧ disk w2 = disk w
    ∧ jobs (db w2) !! idgen w (S (nextId w)) = Some f
    ∧ Job.status f = COMPLETED ∧ Job.progress f = 100
    ∧ Job.result f = Some (JSON_stringify v)
    ∧ Job.error f = None
    ∧ Job.completedAt f = Some (clock w).
Proof.
  intros Hfile Hready Hidle Hc Hs Hw Hdisk Hparse.
  pose proof (router_post_upload_accepted host req file w Hfile Hready) as Hup.
  set (w1 := uploaded_world host req file w) in *.
  set (ty := default "metadata" (body_jobType (req_body req))) in *.
  set (params := jobParams_of host ty (req_body req)).
  set (d := mkJobData (idgen w (S (nextId w))) (idgen w (nextId w)) ty
              (param_outputFormat params) (param_startTime params)
              (param_endTime params)).
  set (row := Job.mk (idgen w (nextId w)) ty PENDING 0 None None None).
  assert (Hqueue : queue w1 = [mkTask d 3 2000]) by (subst w1; cbn; by rewrite Hidle).
  set (w1' := with_queue (λ _, []) w1).
  assert (Hj : jobs (db w1') !! jobId d = Some row) by apply lookup_insert_eq.
  assert (Hmeta : metadata_only d) by done.
  destruct (processAudioJob_run host (envs 0%nat) d w1' row Hj)
    as (r & w2 & Hbody & _ & Hrun).
  rewrite attempt_body_reaches_dispatch with (af := audioFile_row file) in Hbody;
    [|apply lookup_insert_eq|cbn; rewrite Hdisk; eauto].
  destruct (dispatch_metadata_only host (envs 0%nat) d (audioFile_row file) n
              (write_job (jobId d) (processing row) w1') Hmeta Hdisk) as (r' & Hd & Hr').
  rewrite Hd in Hbody. injection Hbody as <- <-.
  cbn [audioFile_row AudioFile.path] in Hr'. rewrite Hparse in Hr'. destruct Hr' as [v ->].
  eexists w1, _, v, _. split; [exact Hup|]. split.
  - unfold worker_next. rewrite Hqueue. cbn [task_attempts task_data].
    fold w1'. rewrite bull_process_S, Hrun. reflexivity.
  - split; [reflexivity|]. split; [reflexivity|].
    split; [apply lookup_insert_eq|]. done.
Qed.

Lemma uploaded_metadata_job_completes_witness :
  upload_ready Demo.w0
  ∧ ∃ w1 w2 v f,
    router_post_upload Demo.host (Parsed Scenario.metadata_upload) Demo.w0 = (Ok tt, w1)
    ∧ worker_next Demo.host (λ _, Demo.env) w1 = (Ok [Ok v], w2)
    ∧ queue w2 = []
    ∧ disk w2 = disk Demo.w0
    ∧ jobs (db w2) !! idgen Demo.w0 (S (nextId Demo.w0)) = Some f
    ∧ Job.status f = COMPLETED ∧ Job.progress f = 100
    ∧ Job.result f = Some (JSON_stringify v)
    ∧ Job.error f = None
    ∧ Job.completedAt f = Some (clock Demo.w0).
Proof.
  assert (Hready : upload_ready Demo.w0)
    by (split; [vm_compute; reflexivity | split; vm_compute; reflexivity]).
  split; [exact Hready|].
  apply (uploaded_metadata_job_completes Demo.host (λ _, Demo.env)
           Scenario.metadata_upload Demo.song 5000
           (mkMmMetadata (JObject []) (JObject [])) Demo.w0).
  - reflexivity.
  - exact Hready.
  - reflexivity.
  - discriminate.
  - discriminate.
  - discriminate.
  - vm_compute; reflexivity.
  - reflexivity.
Defined.

(* ===================================================================== *)
(** * Content types *)
(* ===================================================================== *)

(** X18.  The content type the static file handler sets agrees with
    [getMimeType] on every extension it names except [.jpg], for which it
    sets [image/jpg] where [getMimeType] gives [image/jpeg].  Where it sets
    none, [getMimeType] knows no type either, except for [.webm] and
    [.opus]. *)
Theorem static_content_type_agrees host filePath :
  let ext := toLowerCase (path_extname host filePath) in
  match content_type (setHeaders host filePath) with
  | Some t =>
      t = getMimeType host filePath
      ∨ (ext = ".jpg" ∧ t = "image/jpg" ∧ getMimeType host filePath = "image/jpeg")
  | None =>
      getMimeType host filePath = "application/octet-stream"
      ∨ ext = ".webm" ∨ ext = ".opus"
  end.
Proof.
  unfold content_type, setHeaders, getMimeType.
  generalize (toLowerCase (path_extname host filePath)). intros ext. cbn zeta.
  destruct (String.eqb ext ".png") eqn:Hpng;
    [apply String.eqb_eq in Hpng; subst ext; cbn; eauto|].
  destruct (String.eqb ext ".jpg") eqn:Hjpg;
    [apply String.eqb_eq in Hjpg; subst ext; cbn; eauto 10|].
  destruct (String.eqb ext ".jpeg") eqn:Hjpeg;
    [apply String.eqb_eq in Hjpeg; subst ext; cbn; eauto|].
  destruct (String.eqb ext ".gif") eqn:Hgif;
    [apply String.eqb_eq in Hgif; subst ext; cbn; eauto|].
  destruct (String.eqb ext ".webp") eqn:Hwebp;
    [apply String.eqb_eq in Hwebp; subst ext; cbn; eauto|].
  cbn [orb].
  destruct (String.eqb ext ".mp3") eqn:Hmp3;
    [apply String.eqb_eq in Hmp3; subst ext; cbn; eauto|].
  destruct (String.eqb ext ".wav") eqn:Hwav;
    [apply String.eqb_eq in Hwav; subst ext; cbn; eauto|].
  destruct (String.eqb ext ".flac") eqn:Hflac;
    [apply String.eqb_eq in Hflac; subst ext; cbn; eauto|].
  destruct (String.eqb ext ".ogg") eqn:Hogg;
    [apply String.eqb_eq in Hogg; subst ext; cbn; eauto|].
  destruct (String.eqb ext ".m4a") eqn:Hm4a;
    [apply String.eqb_eq in Hm4a; subst ext; cbn; eauto|].
  destruct (String.eqb ext ".aac") eqn:Haac;
    [apply String.eqb_eq in Haac; subst ext; cbn; eauto|].
  destruct (String.eqb ext ".webm") eqn:Hwebm;
    [apply String.eqb_eq in Hwebm; subst ext; cbn; eauto|].
  destruct (String.eqb ext ".opus") eqn:Hopus;
    [apply String.eqb_eq in Hopus; subst ext; cbn; eauto|].
  left. unfold mimeTypes. cbn [lookup_key app].
  rewrite !(String.eqb_sym _ ext), Hpng, Hjpg, Hjpeg, Hgif, Hwebp, Hmp3, Hwav, Hflac,
    Hogg, Hm4a, Haac, Hwebm, Hopus.
  reflexivity.
Qed.

(** X19.  A file that the upload filter accepts although its declared
    content type is not one of the allowed types has an extension: what
    [path.extname] gives for its name is not empty and is, in lower case,
    one of the allowed extensions.  [getMimeType] reports every such file
    as audio, except a [.wma] file, which it reports as
    [application/octet-stream]. *)
Theorem accepted_on_extension host originalname mimetype :
  fileFilter host originalname mimetype = Ok true →
  opt_truthy (λ m, list_includes m allowedMimes) mimetype = false →
  path_extname host originalname ≠ ""
  ∧ list_includes (toLowerCase (path_extname host originalname)) allowedExtensions = true
  ∧ (String.prefix "audio/" (getMimeType host originalname) = true
     ∨ (toLowerCase (path_extname host originalname) = ".wma"
        ∧ getMimeType host originalname = "application/octet-stream")).
Proof.
  intros Haccepted Htype.
  assert (Hext : list_includes (toLowerCase (path_extname host originalname))
                   allowedExtensions = true).
  { revert Haccepted. unfold fileFilter. cbn zeta. rewrite Htype. cbn [orb].
    by destruct (list_includes _ allowedExtensions). }
  split; [|split; [exact Hext|]].
  - intros Hempty. rewrite Hempty in Hext. discriminate.
  - revert Hext. unfold getMimeType, list_includes, allowedExtensions.
    generalize (toLowerCase (path_extname host originalname)). intros ext. cbn zeta.
    cbn [existsb]. rewrite !orb_true_iff.
    intros [H|[H|[H|[H|[H|[H|[H|[H|[H|H]]]]]]]]]; try discriminate;
      apply String.eqb_eq in H; subst ext; cbn; eauto.
Qed.

Lemma accepted_on_extension_witness :
  fileFilter Demo.host "Voice Memo.WMA" (Some "application/octet-stream") = Ok true
  ∧ path_extname Demo.host "Voice Memo.WMA" ≠ ""
  ∧ list_includes (toLowerCase (path_extname Demo.host "Voice Memo.WMA"))
      allowedExtensions = true
  ∧ (String.prefix "audio/" (getMimeType Demo.host "Voice Memo.WMA") = true
     ∨ (toLowerCase (path_extname Demo.host "Voice Memo.WMA") = ".wma"
        ∧ getMimeType Demo.host "Voice Memo.WMA" = "application/octet-stream")).
Proof.
  assert (Haccepted : fileFilter Demo.host "Voice Memo.WMA"
                        (Some "application/octet-stream") = Ok true)
    by (vm_compute; reflexivity).
  split; [exact Haccepted|].
  apply (accepted_on_extension Demo.host "Voice Memo.WMA"
           (Some "application/octet-stream") Haccepted).
  vm_compute; reflexivity.
Defined.

(* ===================================================================== *)
(** * Loading FFmpeg *)
(* ===================================================================== *)

Lemma worker_env_instance parseFile env :
  worker_env parseFile env →
  (ffmpegAvailable env = true → is_Some (ffmpegInstance env))
  ∧ mm_parseFile env = parseFile.
Proof.
  induction 1 as [|env outcome Henv [IHinst IHparse]
                  |env outcome w env' Henv [IHinst IHparse] Hstart].
  - split; [discriminate | reflexivity].
  - destruct outcome; cbn; split; eauto; discriminate.
  - unfold startWorker in Hstart. destruct (redisUp w); [|discriminate].
    injection Hstart as <-.
    destruct (ffmpegAvailable env) eqn:Havail; cbn [negb].
    + rewrite Havail. done.
    + destruct outcome; cbn; split; eauto; discriminate.
Qed.

(** X20.  FFmpeg is never marked available without an instance: in every
    state that the calls of [initFFmpeg] and [startWorker] lead to from the
    module's initial one, [ffmpegAvailable] implies that [ffmpegInstance]
    is set.  So the guard [!ffmpegAvailable || !ffmpegInstance] of the
    three operations fails exactly when [ffmpegAvailable] is false. *)
Theorem ffmpeg_available_has_instance parseFile env :
  worker_env parseFile env →
  (ffmpegAvailable env = true → is_Some (ffmpegInstance env))
  ∧ (ffmpeg_missing env ↔ ffmpegAvailable env = false).
Proof.
  intros Henv. destruct (worker_env_instance parseFile env Henv) as [Hinst _].
  split; [exact Hinst|]. unfold ffmpeg_missing. split.
  - intros [Hoff|Hnone]; [exact Hoff|].
    destruct (ffmpegAvailable env); [|reflexivity].
    destruct (Hinst eq_refl) as [ff Hff]. congruence.
  - intros Hoff. by left.
Qed.

Lemma ffmpeg_available_has_instance_witness :
  (ffmpegAvailable Scenario.reloaded = true → is_Some (ffmpegInstance Scenario.reloaded))
  ∧ (ffmpeg_missing Scenario.reloaded ↔ ffmpegAvailable Scenario.reloaded = false).
Proof.
  apply (ffmpeg_available_has_instance (mm_parseFile Demo.env) Scenario.reloaded).
  apply (env_start _ (initFFmpeg NotCreated (module_env (mm_parseFile Demo.env)))
           (Loaded Demo.ffmpeg) Demo.w0).
  - apply env_init, env_module.
  - reflexivity.
Defined.

(* ===================================================================== *)
(** * Starting and stopping the cleanup service *)
(* ===================================================================== *)

Lemma CleanupService_start_running host this timers w id :
  intervalId this = Some id →
  CleanupService_start host (this, timers, w) = (this, timers, w).
Proof. intros Hid. unfold CleanupService_start. by rewrite Hid. Qed.

(** X21.  Starting a service that runs does nothing: a second [start]
    takes no sweep and sets no second interval, so after any number of
    calls of [start] the service is as after the first. *)
Theorem CleanupService_start_twice host s :
  CleanupService_start host (CleanupService_start host s) = CleanupService_start host s.
Proof.
  destruct s as [[this timers] w].
  destruct (intervalId this) as [id|] eqn:Hid.
  - by rewrite !(CleanupService_start_running host this timers w id Hid).
  - assert (Hfirst : CleanupService_start host (this, timers, w)
                     = (mkCleanupService (intervalHours this) (jobAgeHours this)
                          (Some (next_timer timers)),
                        (setInterval (intervalHours this * 60 * 60 * 1000) timers).2,
                        (cleanupOldJobs host (jobAgeHours this) w).2)).
    { unfold CleanupService_start. by rewrite Hid. }
    rewrite Hfirst. by apply CleanupService_start_running with (id := next_timer timers).
Qed.

Lemma clearInterval_own id delay next :
  clearInterval id (mkTimers next [(id, delay)]) = mkTimers next [].
Proof. unfold clearInterval. cbn. by rewrite Nat.eqb_refl. Qed.

(** X22.  The service never leaks an interval.  When its interval, if
    any, is the only one there is, the same holds after [start], after
    [stop] and after the interval has fired; after [stop] no interval is
    left, so no sweep is taken any more, and [stop] itself takes none. *)
Theorem service_owns_its_interval host s :
  owns_timers s →
  owns_timers (CleanupService_start host s)
  ∧ owns_timers (CleanupService_stop s)
  ∧ (∀ id, owns_timers (interval_fires host id s))
  ∧ (∀ id, interval_fires host id (CleanupService_stop s) = CleanupService_stop s)
  ∧ active (CleanupService_stop s).1.2 = []
  ∧ intervalId (CleanupService_stop s).1.1 = None
  ∧ (CleanupService_stop s).2 = s.2.
Proof.
  destruct s as [[this timers] w]. unfold owns_timers. cbn [fst snd].
  intros Hown.
  assert (Hstopped : active (CleanupService_stop (this, timers, w)).1.2 = []).
  { unfold CleanupService_stop. destruct (intervalId this) as [id|] eqn:Hid.
    - cbn [fst snd intervalId]. destruct timers as [next act]. cbn in Hown. subst act.
      by rewrite clearInterval_own.
    - cbn [fst snd]. exact Hown. }
  split; [|split; [|split; [|split]]]; [| | |
    intros id; destruct (CleanupService_stop (this, timers, w)) as [[this' timers'] w'];
    cbn [fst snd] in Hstopped; unfold interval_fires; by rewrite Hstopped|].
  - unfold CleanupService_start. destruct (intervalId this) as [id|] eqn:Hid.
    + cbn [fst snd]. by rewrite Hid.
    + cbn. by rewrite Hown.
  - unfold CleanupService_stop. destruct (intervalId this) as [id|] eqn:Hid.
    + cbn [fst snd intervalId]. destruct timers as [next act]. cbn in Hown. subst act.
      by rewrite clearInterval_own.
    + cbn [fst snd]. by rewrite Hid.
  - intros id. unfold interval_fires. by destruct (existsb _ _).
  - split; [exact Hstopped|].
    unfold CleanupService_stop.
    destruct (intervalId this) as [id|] eqn:Hid; cbn [fst snd intervalId]; done.
Qed.

Lemma service_owns_its_interval_witness :
  owns_timers Scenario.started
  ∧ owns_timers (CleanupService_start Demo.host Scenario.started)
  ∧ owns_timers (CleanupService_stop Scenario.started)
  ∧ (∀ id, owns_timers (interval_fires Demo.host id Scenario.started))
  ∧ (∀ id, interval_fires Demo.host id (CleanupService_stop Scenario.started)
           = CleanupService_stop Scenario.started)
  ∧ active (CleanupService_stop Scenario.started).1.2 = []
  ∧ intervalId (CleanupService_stop Scenario.started).1.1 = None
  ∧ (CleanupService_stop Scenario.started).2 = Scenario.started.2.
Proof.
  assert (Hown : owns_timers Scenario.started) by (vm_compute; reflexivity).
  split; [exact Hown|].
  apply (service_owns_its_interval Demo.host Scenario.started Hown).
Defined.

(* ===================================================================== *)
(** * The routes that read *)
(* ===================================================================== *)

Lemma validateFileExists_run p w :
  validateFileExists p w
  = (Ok match disk w !! p with
        | Some n => mkValidation true (Some n) None
        | None => mkValidation false None (Some "File does not exist")
        end, w).
Proof.
  unfold validateFileExists, try_catch, fs_existsSync, fs_statSync_size, mbind, M_bind,
    mret, M_ret, gets.
  destruct (disk w !! p) as [n|] eqn:Hp.
  - rewrite bool_decide_eq_true_2 by eauto. cbn [negb]. by rewrite Hp.
  - by rewrite bool_decide_eq_false_2 by (intros [x Hx]; discriminate).
Qed.

Lemma obj_get_roundtrip k fields :
  get k (json_roundtrip (JObject fields)) = json_roundtrip <$> obj_get k fields.
Proof.
  cbn [json_roundtrip get]. induction fields as [|[k' x] rest IH]; [reflexivity|].
  cbn [fmap list_fmap obj_get]. destruct (String.eqb k' k); [reflexivity | exact IH].
Qed.

Lemma get_assign_ne k k' x result :
  k' ≠ k → get k (assign k' x result) = get k result.
Proof.
  intros Hne. destruct result; try reflexivity.
  cbn. apply String.eqb_neq in Hne. by rewrite Hne.
Qed.

Lemma yields_ret {A} (P : A → Prop) a : P a → yields P (mret a).
Proof. intros Ha w a' w' [= <- _]. exact Ha. Qed.

Lemma yields_throw {A} (P : A → Prop) e : yields P (throw e).
Proof. intros w a w'. discriminate. Qed.

Lemma yields_bind {A B} (Q : A → Prop) (P : B → Prop) (m : M A) (f : A → M B) :
  yields Q m → (∀ a, Q a → yields P (f a)) → yields P (m ≫= f).
Proof.
  intros Hm Hf w b w'. unfold mbind, M_bind.
  destruct (m w) as [[a|e] w1] eqn:Hrun; [|discriminate].
  apply (Hf a (Hm w a w1 Hrun)).
Qed.

Lemma yields_any {A} (m : M A) : yields (λ _, True) m.
Proof. by intros w a w' _. Qed.

Lemma yields_try_catch {A} (P : A → Prop) (m : M A) (h : Error → M A) :
  yields P m → (∀ e, yields P (h e)) → yields P (try_catch m h).
Proof.
  intros Hm Hh w a w'. unfold try_catch.
  destruct (m w) as [[a'|e] w1] eqn:Hrun.
  - intros [= <- <-]. exact (Hm w a' w1 Hrun).
  - apply Hh.
Qed.

Lemma servable_with_path fields p :
  obj_get "outputPath" fields = Some (JString p) → servable (JObject fields).
Proof. intros Hp. exists fields. eauto. Qed.

Lemma servable_without_path fields :
  obj_get "outputPath" fields = None → servable (JObject fields).
Proof. intros Hp. exists fields. eauto. Qed.

Ltac transcode_yields :=
  apply (yields_bind (λ _, True)); [apply yields_any|intros _ _];
  match goal with
  | |- context [ffmpegAvailable ?e] => destruct (ffmpegAvailable e), (ffmpegInstance e)
  end; try apply yields_throw;
  apply yields_try_catch; [|intros e; apply yields_throw];
  apply (yields_bind (λ _, True)); [apply yields_any|intros size _];
  apply yields_ret; eexists _, _; split; reflexivity.

Lemma dispatch_yields_servable host env d af p :
  yields servable (dispatch host env d af p).
Proof.
  assert (Hmeta : yields (λ v, ∃ fields, v = JObject fields
                                         ∧ obj_get "outputPath" fields = None)
                    (extractMetadata env p)).
  { unfold extractMetadata. apply yields_try_catch; [|intros e; apply yields_throw].
    apply (yields_bind (λ _, True)); [apply yields_any|intros md _].
    apply (yields_bind (λ _, True)); [apply yields_any|intros size _].
    apply yields_ret. eexists. split; reflexivity. }
  assert (Hconv : ∀ fmt, yields (λ v, ∃ fields q, v = JObject fields
                                   ∧ obj_get "outputPath" fields = Some (JString q))
                           (convertAudio host env p fmt (jobId d))).
  { intros fmt. unfold convertAudio. transcode_yields. }
  assert (Hslice : ∀ st et, yields (λ v, ∃ fields q, v = JObject fields
                                   ∧ obj_get "outputPath" fields = Some (JString q))
                              (sliceAudio host env p st et (jobId d))).
  { intros st et. unfold sliceAudio. transcode_yields. }
  assert (Hwave : yields (λ v, ∃ fields q, v = JObject fields
                                   ∧ obj_get "outputPath" fields = Some (JString q))
                    (generateWaveform host env p (jobId d))).
  { unfold generateWaveform. transcode_yields. }
  unfold dispatch.
  destruct (String.eqb (jobType d) "metadata").
  { eapply yields_bind; [exact Hmeta|]. intros md (fields & -> & Hnone).
    destruct (ffmpegAvailable env).
    - apply yields_try_catch.
      + apply (yields_bind (λ _, True)); [apply yields_any|intros info _].
        apply yields_ret. by apply servable_without_path.
      + intros e. apply yields_ret. by apply servable_without_path.
    - apply yields_ret. by apply servable_without_path. }
  destruct (String.eqb (jobType d) "analyze").
  { eapply yields_bind; [exact Hmeta|]. intros md _.
    destruct (ffmpegAvailable env).
    - apply yields_try_catch.
      + apply (yields_bind (λ _, True)); [apply yields_any|intros info _].
        apply yields_ret. by apply servable_without_path.
      + intros e. apply yields_ret. by apply servable_without_path.
    - apply yields_ret. by apply servable_without_path. }
  destruct (String.eqb (jobType d) "convert").
  { destruct (outputFormat d) as [fmt|]; [|apply yields_throw].
    destruct (string_truthy fmt); [|apply yields_throw].
    eapply yields_bind; [apply Hconv|]. intros v (fields & q & -> & Hq).
    apply yields_ret. by apply (servable_with_path _ q). }
  destruct (String.eqb (jobType d) "slice").
  { destruct (startTime d) as [st|], (endTime d) as [et|]; try apply yields_throw.
    destruct (_ || _); [apply yields_throw|].
    eapply yields_bind; [apply Hslice|]. intros v (fields & q & -> & Hq).
    apply yields_ret. by apply (servable_with_path _ q). }
  destruct (String.eqb (jobType d) "waveform").
  { eapply yields_bind; [apply Hwave|]. intros v (fields & q & -> & Hq).
    apply yields_ret. by apply (servable_with_path _ q). }
  intros w v w' Hrun. destruct (Hmeta w v w' Hrun) as (fields & -> & Hnone).
  by apply servable_without_path.
Qed.

Lemma attempt_body_yields_servable host env d : yields servable (attempt_body host env d).
Proof.
  unfold attempt_body.
  apply (yields_bind (λ _, True)); [apply yields_any|intros [af|] _]; [|apply yields_throw].
  apply (yields_bind (λ _, True)); [apply yields_any|intros present _].
  destruct (negb present); [apply yields_throw | apply dispatch_yields_servable].
Qed.

Lemma final_row_keeps_result now j outs :
  Forall is_Throw outs → Job.result (final_row now j outs) = Job.result j.
Proof.
  revert j. induction outs as [|out outs IH]; intros j Hall; [reflexivity|].
  inversion Hall as [|? ? Hout Hrest]; subst. destruct out as [v|e]; [done|].
  cbn [final_row]. destruct outs as [|out' outs']; [reflexivity|].
  by rewrite IH.
Qed.

Section ReadRoutesFacts.
Context (host : Host) (num : Numerics).
Context (createdAt : string → Json) (toISOString : Z → string)
        (not_a_string : Json → Error).

Lemma add_file_urls_run baseUrl result w :
  ∃ r, add_file_urls host num not_a_string baseUrl result w = (r, w)
       ∧ ∀ res, r = Ok res →
           ∀ k, k ∉ added_keys → get k res = get k result.
Proof.
  unfold add_file_urls.
  assert (Hsame : ∃ r, (mret result : M Json) w = (r, w)
                       ∧ ∀ res, r = Ok res → ∀ k, k ∉ added_keys → get k res = get k result).
  { eexists. split; [reflexivity|]. by intros res [= <-]. }
  assert (Hthrow : ∀ e, ∃ r, (throw e : M Json) w = (r, w)
                       ∧ ∀ res, r = Ok res → ∀ k, k ∉ added_keys → get k res = get k result).
  { intros e. eexists. split; [reflexivity|]. discriminate. }
  destruct result as [| | | | |fields] eqn:Hres; try apply Hsame; try apply Hthrow.
  rewrite <- Hres in *. clear Hthrow.
  destruct (get "outputPath" result) as [outputPath|]; [|exact Hsame].
  destruct (truthy outputPath); [|exact Hsame].
  destruct outputPath as [| | |p| |];
    try (eexists; split; [reflexivity | discriminate]).
  cbn zeta. unfold mbind, M_bind.
  rewrite validateFileExists_run.
  destruct (disk w !! _) as [size|]; [|exact Hsame].
  eexists. split; [reflexivity|]. intros res [= <-] k Hk.
  rewrite !get_assign_ne;
    [reflexivity|intros <-; apply Hk; unfold added_keys; repeat constructor..].
Qed.

(** X23.  The result route and the file URL route only read: each request
    is answered once and leaves the database, the disk and the queue as
    they were. *)
Theorem read_routes_change_nothing req id w :
  (∃ code body, answers (router_get_job_result host num createdAt toISOString not_a_string
                            req id) w code body)
  ∧ (∃ code body, answers (router_get_file_url req id) w code body).
Proof.
  split.
  - unfold router_get_job_result, try_catch, prisma_job_findUnique, mbind, M_bind, gets,
      answers, emit, modify.
    destruct (jobs (db w) !! id) as [j|]; [|eauto 10].
    destruct (Job.result j) as [stored|]; [|eauto 10].
    destruct (text_truthy stored); [|eauto 10].
    destruct stored as [v|s]; cbn [JSON_parse]; [|unfold throw; eauto 10].
    unfold mret at 1. unfold M_ret at 1.
    destruct (add_file_urls_run (baseUrl_of req) (json_roundtrip v) w) as (r & -> & _).
    destruct r as [res|e]; [|eauto 10].
    destruct (audioFiles (db w) !! Job.audioFileId j) as [af|]; [|unfold throw; eauto 10].
    rewrite validateFileExists_run. eauto 10.
  - unfold router_get_file_url, try_catch, prisma_audioFile_findUnique, mbind, M_bind,
      gets, answers, emit, modify.
    destruct (audioFiles (db w) !! id) as [af|]; eauto 10.
Qed.
Lemma servable_roundtrip v : servable v → servable (json_roundtrip v).
Proof.
  intros (fields & -> & Hpath).
  pose proof (obj_get_roundtrip "outputPath" fields) as Hget.
  cbn [json_roundtrip get] in Hget.
  eexists. split; [cbn [json_roundtrip]; reflexivity|]. rewrite Hget.
  destruct Hpath as [->|[p ->]]; [by left | right; by exists p].
Qed.

Lemma add_file_urls_servable baseUrl result w :
  servable result →
  ∃ res,
    add_file_urls host num not_a_string baseUrl result w = (Ok res, w)
    ∧ (∀ k, k ∉ added_keys → get k res = get k result)
    ∧ (∀ p, get "outputPath" result = Some (JString p) → p ≠ "" →
         match disk w !! result_filePath host p with
         | Some n =>
             get "fileUrl" res
             = Some (JString (baseUrl +:+ "/uploads/" +:+ result_fileName host p))
             ∧ get "downloadUrl" res
               = Some (JString (baseUrl +:+ "/uploads/" +:+ result_fileName host p))
             ∧ get "mimeType" res
               = Some (JString (getMimeType host (result_filePath host p)))
             ∧ get "fileSize" res = Some (JInt n)
             ∧ get "fileSizeFormatted" res = Some (JString (formatFileSize num n))
         | None => res = result
         end).
Proof.
  intros (fields & -> & Hpath). unfold add_file_urls. cbn [get].
  destruct Hpath as [Hnone|[p Hp]].
  - rewrite Hnone. eexists. split; [reflexivity|]. split; [done | discriminate].
  - rewrite Hp. cbn [truthy]. destruct (string_truthy p) eqn:Htruthy.
    + cbn zeta. unfold mbind, M_bind. rewrite validateFileExists_run.
      fold (result_fileName host p). fold (result_filePath host p).
      destruct (disk w !! result_filePath host p) as [n|] eqn:Hdisk; cbn [valid stats_size].
      * eexists. split; [reflexivity|]. split.
        -- intros k Hk. cbn [assign get obj_set obj_get].
           repeat match goal with
           | |- context [String.eqb ?a k] =>
               let H := fresh in
               destruct (String.eqb a k) eqn:H;
               [apply String.eqb_eq in H; subst k; destruct Hk; unfold added_keys;
                repeat constructor|]
           end.
           reflexivity.
        -- intros p' [= <-] _. rewrite Hdisk. cbn. done.
      * eexists. split; [reflexivity|]. split; [done|].
        intros p' [= <-] _. by rewrite Hdisk.
    + eexists. split; [reflexivity|]. split; [done|].
      intros p' [= <-] Hne. apply string_truthy_ne in Hne. congruence.
Qed.

Lemma get_result_missing req id w :
  jobs (db w) !! id = None →
  answers (router_get_job_result host num createdAt toISOString not_a_string req id)
    w 404 job_not_found.
Proof.
  intros Hj. unfold answers, router_get_job_result, try_catch, prisma_job_findUnique,
    mbind, M_bind, gets. rewrite Hj. eexists. split; [reflexivity|]. done.
Qed.

Lemma get_result_unavailable req id w j :
  jobs (db w) !! id = Some j → Job.result j = None →
  answers (router_get_job_result host num createdAt toISOString not_a_string req id)
    w 404 not_available.
Proof.
  intros Hj Hres. unfold answers, router_get_job_result, try_catch,
    prisma_job_findUnique, mbind, M_bind, gets. rewrite Hj, Hres.
  eexists. split; [reflexivity|]. done.
Qed.

Lemma get_result_stored req id w j v af :
  jobs (db w) !! id = Some j →
  Job.result j = Some (JSON_stringify v) → servable v →
  audioFiles (db w) !! Job.audioFileId j = Some af →
  ∃ body res,
    answers (router_get_job_result host num createdAt toISOString not_a_string req id)
      w 200 body
    ∧ get "jobId" body = Some (JString id)
    ∧ get "status" body = Some (JString (status_name (Job.status j)))
    ∧ get "progress" body = Some (JInt (Job.progress j))
    ∧ get "result" body = Some res
    ∧ (∀ k, k ∉ added_keys → get k res = get k (json_roundtrip v))
    ∧ (∀ p n, get "outputPath" (json_roundtrip v) = Some (JString p) → p ≠ "" →
         disk w !! result_filePath host p = Some n →
         get "fileUrl" res
         = Some (JString (baseUrl_of req +:+ "/uploads/" +:+ result_fileName host p))
         ∧ get "mimeType" res = Some (JString (getMimeType host (result_filePath host p)))
         ∧ get "fileSize" res = Some (JInt n)).
Proof.
  intros Hj Hres Hv Haf.
  destruct (add_file_urls_servable (baseUrl_of req) (json_roundtrip v) w
              (servable_roundtrip v Hv)) as (res & Hadd & Hkeep & Hfile).
  unfold answers, router_get_job_result, try_catch, prisma_job_findUnique, mbind, M_bind,
    gets. rewrite Hj, Hres, Haf. cbn [text_truthy JSON_parse].
  unfold mret at 1. unfold M_ret at 1. rewrite Hadd, validateFileExists_run.
  eexists _, _. split; [eexists; split; [reflexivity|]; done|].
  split; [reflexivity|]. split; [reflexivity|]. split; [reflexivity|].
  split; [reflexivity|]. split.
  - intros k Hk. rewrite <- (Hkeep k Hk).
    destruct (disk w !! _); cbn [valid]; [|reflexivity].
    apply get_assign_ne. intros <-. apply Hk. unfold added_keys. repeat constructor.
  - intros p n Hp Hne Hdisk. specialize (Hfile p Hp Hne). rewrite Hdisk in Hfile.
    destruct Hfile as (Hurl & _ & Hmime & Hsize & _).
    destruct (disk w !! path_join _ _ (AudioFile.filename af)); cbn [valid];
      [rewrite !get_assign_ne by discriminate|]; done.
Qed.

(** X24.  The result of a run that returned is served.  After a run of a
    job whose row names an existing audio file has returned, the result
    route answers 200 with the row COMPLETED at 100, and the [result] of
    the answer has every property of the stored result, apart from the six
    the route may add.  If the stored result has an [outputPath] and the
    file of that name is in the upload directory, the answer carries its
    URL, its size and the type [getMimeType] gives it. *)
Theorem completed_job_result_is_served env req d j af v w w1 :
  jobs (db w) !! jobId d = Some j →
  audioFiles (db w) !! Job.audioFileId j = Some af →
  processAudioJob host env d w = (Ok v, w1) →
  ∃ body res,
    answers (router_get_job_result host num createdAt toISOString not_a_string
               req (jobId d)) w1 200 body
    ∧ get "status" body = Some (JString "COMPLETED")
    ∧ get "progress" body = Some (JInt 100)
    ∧ get "result" body = Some res
    ∧ (∀ k, k ∉ added_keys → get k res = get k (json_roundtrip v))
    ∧ (∀ p n, get "outputPath" (json_roundtrip v) = Some (JString p) → p ≠ "" →
         disk w1 !! result_filePath host p = Some n →
         get "fileUrl" res
         = Some (JString (baseUrl_of req +:+ "/uploads/" +:+ result_fileName host p))
         ∧ get "mimeType" res = Some (JString (getMimeType host (result_filePath host p)))
         ∧ get "fileSize" res = Some (JInt n)).
Proof.
  intros Hj Haf Hrun.
  destruct (processAudioJob_run host env d w j Hj) as (r & w2 & Hbody & Hq & Hjob).
  rewrite Hrun in Hjob. injection Hjob as <- Hw1.
  pose proof (attempt_body_yields_servable host env d _ _ _ Hbody) as Hv.
  assert (Hrow : jobs (db w1) !! jobId d = Some (finished (clock w) (processing j) (Ok v)))
    by (rewrite Hw1; apply lookup_insert_eq).
  assert (Haf1 : audioFiles (db w1) !! Job.audioFileId j = Some af).
  { rewrite Hw1. cbn. by rewrite (qs_db _ _ Hq). }
  destruct (get_result_stored req (jobId d) w1 _ v af Hrow eq_refl Hv Haf1)
    as (body & res & Hans & _ & Hstatus & Hprogress & Hres & Hkeep & Hfile).
  exists body, res. done.
Qed.

(** X25.  The result of a job is not available before a run of it has
    returned.  After an accepted upload the result route answers 404 "Job
    result not available" for the new job, and it still does after runs
    of the job that all threw. *)
Theorem result_unavailable_until_completed greq req file w :
  req_file req = Some file → upload_ready w →
  ∃ w1 t,
    router_post_upload host (Parsed req) w = (Ok tt, w1)
    ∧ queue w1 = (queue w ++ [t])%list
    ∧ answers (router_get_job_result host num createdAt toISOString not_a_string
                 greq (jobId (task_data t))) w1 404 not_available
    ∧ ∀ envs outs w2,
        bull_process host envs (task_attempts t) 0 (task_data t) w1 = (Ok outs, w2) →
        Forall is_Throw outs →
        answers (router_get_job_result host num createdAt toISOString not_a_string
                   greq (jobId (task_data t))) w2 404 not_available.
Proof.
  intros Hfile Hready.
  pose proof (router_post_upload_accepted host req file w Hfile Hready) as Hup.
  eexists _, _. split; [exact Hup|]. split; [reflexivity|].
  cbn [task_data task_attempts jobId].
  set (row := Job.mk (idgen w (nextId w)) (default "metadata" (body_jobType (req_body req)))
                PENDING 0 None None None).
  assert (Hrow : jobs (db (uploaded_world host req file w)) !! idgen w (S (nextId w))
                 = Some row) by apply lookup_insert_eq.
  split; [by apply (get_result_unavailable greq _ _ row)|].
  intros envs outs w2 Hruns Hall.
  match type of Hruns with
  | bull_process _ _ _ _ ?d _ = _ =>
      destruct (bull_process_spec host envs d (λ _, True) (λ _ _, I) 3 0 _ row Hrow)
        as (outs' & w2' & Hruns' & _ & _ & _ & Hfinal & _)
  end.
  rewrite Hruns in Hruns'. injection Hruns' as <- <-.
  apply (get_result_unavailable greq _ _ _ Hfinal).
  by apply final_row_keeps_result.
Qed.

(** X26.  What was deleted is not found.  After a deletion request for an
    id the result route answers 404 "Job not found" for it; and when the
    database was consistent and the job was there, the file URL route
    answers 404 "File not found" for its audio file. *)
Theorem deleted_job_is_not_found req id w :
  answers (router_get_job_result host num createdAt toISOString not_a_string req id)
    (router_delete_job host id w).2 404 job_not_found
  ∧ ∀ j, consistent (db w) → jobs (db w) !! id = Some j → Job.audioFileId j ≠ "" →
      answers (router_get_file_url req (Job.audioFileId j))
        (router_delete_job host id w).2 404 file_not_found.
Proof.
  split; [apply get_result_missing, router_delete_job_after|].
  intros j Hok Hj Hfid.
  destruct (router_delete_job_only_job host id w j Hok Hj Hfid) as [_ Hdb].
  unfold answers, router_get_file_url, try_catch, prisma_audioFile_findUnique, mbind,
    M_bind, gets.
  rewrite Hdb. cbn [audioFiles]. rewrite lookup_delete_eq.
  eexists. split; [reflexivity|]. done.
Qed.
End ReadRoutesFacts.

Lemma result_unavailable_until_completed_witness :
  upload_ready Demo.w0
  ∧ ∃ w1 t,
    router_post_upload Demo.host (Parsed Demo.convert_to_flac) Demo.w0 = (Ok tt, w1)
    ∧ queue w1 = (queue Demo.w0 ++ [t])%list
    ∧ answers (router_get_job_result Demo.host Scenario.num Scenario.createdAt
                 Scenario.toISOString Scenario.not_a_string Scenario.request
                 (jobId (task_data t))) w1 404 not_available
    ∧ ∀ envs outs w2,
        bull_process Demo.host envs (task_attempts t) 0 (task_data t) w1 = (Ok outs, w2) →
        Forall is_Throw outs →
        answers (router_get_job_result Demo.host Scenario.num Scenario.createdAt
                   Scenario.toISOString Scenario.not_a_string Scenario.request
                   (jobId (task_data t))) w2 404 not_available.
Proof.
  assert (Hready : upload_ready Demo.w0)
    by (split; [vm_compute; reflexivity | split; vm_compute; reflexivity]).
  split; [exact Hready|].
  apply (result_unavailable_until_completed Demo.host Scenario.num Scenario.createdAt
           Scenario.toISOString Scenario.not_a_string Scenario.request
           Demo.convert_to_flac Demo.song Demo.w0).
  - reflexivity.
  - exact Hready.
Defined.

Lemma completed_job_result_is_served_witness :
  processAudioJob Demo.host Demo.env Scenario.convert_data Demo.shared
  = (Ok Scenario.converted_value, Scenario.converted)
  ∧ ∃ body res,
    answers (router_get_job_result Demo.host Scenario.num Scenario.createdAt
               Scenario.toISOString Scenario.not_a_string Scenario.request
               (jobId Scenario.convert_data)) Scenario.converted 200 body
    ∧ get "status" body = Some (JString "COMPLETED")
    ∧ get "progress" body = Some (JInt 100)
    ∧ get "result" body = Some res
    ∧ (∀ k, k ∉ added_keys → get k res = get k (json_roundtrip Scenario.converted_value))
    ∧ (∀ p n, get "outputPath" (json_roundtrip Scenario.converted_value)
              = Some (JString p) → p ≠ "" →
         disk Scenario.converted !! result_filePath Demo.host p = Some n →
         get "fileUrl" res
         = Some (JString (baseUrl_of Scenario.request +:+ "/uploads/"
                          +:+ result_fileName Demo.host p))
         ∧ get "mimeType" res
           = Some (JString (getMimeType Demo.host (result_filePath Demo.host p)))
         ∧ get "fileSize" res = Some (JInt n)).
Proof.
  assert (Hrun : processAudioJob Demo.host Demo.env Scenario.convert_data Demo.shared
                 = (Ok Scenario.converted_value, Scenario.converted))
    by (vm_compute; reflexivity).
  split; [exact Hrun|].
  apply (completed_job_result_is_served Demo.host Scenario.num Scenario.createdAt
           Scenario.toISOString Scenario.not_a_string Demo.env Scenario.request
           Scenario.convert_data Demo.sibling_row Demo.song_row Scenario.converted_value
           Demo.shared Scenario.converted).
  - vm_compute; reflexivity.
  - vm_compute; reflexivity.
  - exact Hrun.
Defined.
